(** * TSI conversion service: EDIFACT writer, GTFS writer, file handler, validator

    A shallow embedding of the Python sources

      - [src/tsi_converter/edifact_writer.py]
      - [src/tsi_converter/gtfs_writer.py]
      - [src/tsi_converter/file_handler.py]
      - [main.py] (the [/validate] handler)

    The converters are dynamically typed: they receive a decoded JSON
    document and probe it with [dict.get], truthiness tests, [str()],
    iteration and comparisons.  The embedding therefore starts with a
    model of the Python values a JSON decoder produces and of the
    primitives the sources apply to them, including the exceptions
    those primitives raise.  Every source function is then transcribed
    as a function into the error monad [result].

    Text is modelled by [string]; a character is one of the code points
    0..255 (Rocq's [ascii]).  Tables that depend on the Unicode database
    ([str.isdigit], the regular expression class [\w], [repr]) are
    given for that range. *)

From Stdlib Require Import ZArith NArith String Ascii List Bool Lia.
From Stdlib Require Import Decimal DecimalString DecimalNat DecimalZ.
From Stdlib Require Import Floats.SpecFloat.
Import ListNotations.

Set Warnings "-register-all".

Local Open Scope string_scope.
Local Open Scope list_scope.

(* ================================================================== *)
(** * Characters and strings *)
(* ================================================================== *)

Module Str.

Definition code (c : ascii) : N := N_of_ascii c.

Definition in_range (lo hi : N) (c : ascii) : bool :=
  (lo <=? code c)%N && (code c <=? hi)%N.

Definition singleton (c : ascii) : string := String c EmptyString.

(** [old in s] for a one-character [old]. *)
Fixpoint contains (c : ascii) (s : string) : bool :=
  match s with
  | EmptyString => false
  | String x s' => Ascii.eqb x c || contains c s'
  end.

(** [s.replace(old, new)] for a one-character [old]: every occurrence,
    left to right, is replaced and the replacement is not rescanned. *)
Fixpoint replace (old : ascii) (new : string) (s : string) : string :=
  match s with
  | EmptyString => EmptyString
  | String x s' =>
      if Ascii.eqb x old then (new ++ replace old new s')%string
      else String x (replace old new s')
  end.

(** [s[:n]] *)
Fixpoint take (n : nat) (s : string) : string :=
  match n, s with
  | S n', String x s' => String x (take n' s')
  | _, _ => EmptyString
  end.

(** [s[n:]] *)
Fixpoint drop (n : nat) (s : string) : string :=
  match n, s with
  | S n', String _ s' => drop n' s'
  | _, _ => s
  end.

(** [s[i]] when [i] is in range *)
Definition at_index (i : nat) (s : string) : option ascii := String.get i s.

Fixpoint repeat (c : ascii) (n : nat) : string :=
  match n with
  | O => EmptyString
  | S n' => String c (repeat c n')
  end.

(** [s.ljust(width, fill)] *)
Definition ljust (width : nat) (fill : ascii) (s : string) : string :=
  (s ++ repeat fill (width - String.length s))%string.

(** [sep.join(parts)] *)
Definition join (sep : string) (parts : list string) : string :=
  String.concat sep parts.

Fixpoint forallb (p : ascii -> bool) (s : string) : bool :=
  match s with
  | EmptyString => true
  | String x s' => p x && forallb p s'
  end.

Fixpoint map (f : ascii -> ascii) (s : string) : string :=
  match s with
  | EmptyString => EmptyString
  | String x s' => String (f x) (map f s')
  end.

(** [str.startswith] *)
Definition startswith (p s : string) : bool := String.prefix p s.

(** Decimal rendering of integers, as [str(n)] gives it. *)
Definition of_Z (z : Z) : string := NilEmpty.string_of_int (Z.to_int z).
Definition of_nat (n : nat) : string := NilEmpty.string_of_uint (Nat.to_uint n).

Definition hex_digit (n : N) : ascii :=
  match n with
  | 0 => "0" | 1 => "1" | 2 => "2" | 3 => "3" | 4 => "4" | 5 => "5"
  | 6 => "6" | 7 => "7" | 8 => "8" | 9 => "9" | 10 => "a" | 11 => "b"
  | 12 => "c" | 13 => "d" | 14 => "e" | _ => "f"
  end%N%char.

(** [c.isdigit()] on the code points 0..255: the ASCII digits and the
    superscripts two, three and one. *)
Definition isdigit_char (c : ascii) : bool :=
  in_range 48 57 c || (code c =? 178)%N || (code c =? 179)%N || (code c =? 185)%N.

(** [s.isdigit()]: non-empty and made of digits only. *)
Definition isdigit (s : string) : bool :=
  match s with
  | EmptyString => false
  | _ => forallb isdigit_char s
  end.

(** [c.isprintable()] on the code points 0..255. *)
Definition isprintable_char (c : ascii) : bool :=
  in_range 32 126 c || (in_range 161 255 c && negb (code c =? 173)%N).

(** ASCII upper-casing; the sources apply [str.upper] to hexadecimal
    digests only. *)
Definition upper_char (c : ascii) : ascii :=
  if in_range 97 122 c then ascii_of_N (code c - 32) else c.

Definition upper (s : string) : string := map upper_char s.

(** [s.encode('utf-8')] for code points below 256: one byte below 128,
    two bytes from 128 on. *)
Fixpoint utf8 (s : string) : list N :=
  match s with
  | EmptyString => []
  | String c s' =>
      let n := code c in
      if (n <? 128)%N then n :: utf8 s'
      else N.lor 192 (N.shiftr n 6) :: N.lor 128 (N.land n 63) :: utf8 s'
  end.

(** Lexicographic order on code points, [a < b] on [str]. *)
Fixpoint ltb (a b : string) : bool :=
  match a, b with
  | _, EmptyString => false
  | EmptyString, String _ _ => true
  | String x a', String y b' =>
      if (code x <? code y)%N then true
      else if (code y <? code x)%N then false
      else ltb a' b'
  end.

End Str.

(* ================================================================== *)
(** * Python values, exceptions and primitives *)
(* ================================================================== *)

Module Py.

(** The exceptions the sources raise or provoke.  [ValueError] is the
    one the writers raise themselves (the Invalid-Input fault); the
    others come from applying a primitive to a value of the wrong
    type. *)
Inductive exn : Type :=
| ValueError (msg : string)
| AttributeError (msg : string)
| TypeError (msg : string)
| KeyError (msg : string)
| IndexError (msg : string).

Inductive result (A : Type) : Type :=
| Ok (a : A)
| Raise (e : exn).

Arguments Ok {A} a.
Arguments Raise {A} e.

Definition bind {A B} (m : result A) (k : A -> result B) : result B :=
  match m with
  | Ok a => k a
  | Raise e => Raise e
  end.

Definition is_ok {A} (m : result A) : bool :=
  match m with Ok _ => true | Raise _ => false end.

(** The computation ends in the Invalid-Input fault. *)
Definition invalid_input {A} (m : result A) : bool :=
  match m with Raise (ValueError _) => true | _ => false end.

(** A binary64 float: its IEEE value, and the text [repr] gives for it
    (the shortest decimal that reads back to the value). *)
Record pyfloat : Type := mkfloat {
  fl_value : spec_float;
  fl_repr : string
}.

(** What [json.loads] produces. A [dict] keeps insertion order; lookup
    takes the first binding of a key. *)
Inductive json : Type :=
| JNull
| JBool (b : bool)
| JInt (z : Z)
| JFloat (f : pyfloat)
| JStr (s : string)
| JList (l : list json)
| JDict (d : list (string * json)).

Definition dict : Type := list (string * json).

End Py.

Declare Scope py_scope.
Delimit Scope py_scope with py.
Notation "x <- m ;; k" := (Py.bind m (fun x => k))
  (at level 61, m at next level, right associativity) : py_scope.
Notation "'raise' e" := (Py.Raise e) (at level 60) : py_scope.

Module PyOps.
Import Py.
Local Open Scope py_scope.

(** ** Dictionaries *)

Fixpoint lookup (k : string) (d : dict) : option json :=
  match d with
  | [] => None
  | (k', v) :: d' => if String.eqb k k' then Some v else lookup k d'
  end.

(** [k in d] *)
Definition mem (k : string) (d : dict) : bool :=
  match lookup k d with Some _ => true | None => false end.

(** [d.get(k, default)] on a dictionary *)
Definition dget (d : dict) (k : string) (default : json) : json :=
  match lookup k d with Some v => v | None => default end.

(** [x.get(k, default)]: only a [dict] has the method. *)
Definition get (x : json) (k : string) (default : json) : result json :=
  match x with
  | JDict d => Ok (dget d k default)
  | _ => raise (AttributeError "object has no attribute 'get'")
  end.

(** [x[k]] for a string key, on a value already known to answer [get]. *)
Definition getitem (x : json) (k : string) : result json :=
  match x with
  | JDict d =>
      match lookup k d with
      | Some v => Ok v
      | None => raise (KeyError k)
      end
  | _ => raise (TypeError "indices must be integers or slices, not str")
  end.

(** ** Truthiness, [bool(x)] *)

Definition float_truthy (f : pyfloat) : bool :=
  match fl_value f with
  | S754_zero _ => false
  | _ => true
  end.

Definition truthy (v : json) : bool :=
  match v with
  | JNull => false
  | JBool b => b
  | JInt z => negb (z =? 0)%Z
  | JFloat f => float_truthy f
  | JStr s => negb (String.eqb s EmptyString)
  | JList l => match l with [] => false | _ => true end
  | JDict d => match d with [] => false | _ => true end
  end.

(** [a or b] *)
Definition or_ (a b : json) : json := if truthy a then a else b.

(** ** [repr] and [str] *)

Definition hex2 (c : ascii) : string :=
  String (Str.hex_digit (N.shiftr (Str.code c) 4))
    (String (Str.hex_digit (N.land (Str.code c) 15)) EmptyString).

Definition squote : ascii := "'"%char.
Definition dquote : ascii := "034"%char.
Definition backslash : ascii := "\"%char.

Definition repr_char (quote c : ascii) : string :=
  if Ascii.eqb c quote || Ascii.eqb c backslash then String backslash (Str.singleton c)
  else if (Str.code c =? 9)%N then String backslash "t"
  else if (Str.code c =? 10)%N then String backslash "n"
  else if (Str.code c =? 13)%N then String backslash "r"
  else if Str.isprintable_char c then Str.singleton c
  else String backslash (String "x" (hex2 c)).

Fixpoint repr_chars (quote : ascii) (s : string) : string :=
  match s with
  | EmptyString => EmptyString
  | String c s' => (repr_char quote c ++ repr_chars quote s')%string
  end.

(** [repr(s)] for a string: single quotes, unless the text holds a
    single quote and no double quote. *)
Definition repr_str (s : string) : string :=
  let quote :=
    if Str.contains squote s && negb (Str.contains dquote s) then dquote else squote in
  String quote (repr_chars quote s ++ Str.singleton quote)%string.

Fixpoint repr (v : json) : string :=
  match v with
  | JNull => "None"
  | JBool true => "True"
  | JBool false => "False"
  | JInt z => Str.of_Z z
  | JFloat f => fl_repr f
  | JStr s => repr_str s
  | JList l => ("[" ++ Str.join ", " (List.map repr l) ++ "]")%string
  | JDict d =>
      ("{" ++ Str.join ", "
                (List.map (fun kv => repr_str (fst kv) ++ ": " ++ repr (snd kv)) d)
           ++ "}")%string
  end.

(** [str(v)], which is also what an f-string field [{v}] renders. *)
Definition str (v : json) : string :=
  match v with
  | JStr s => s
  | _ => repr v
  end.

(** ** Iteration, [for x in v] *)

Fixpoint chars (s : string) : list json :=
  match s with
  | EmptyString => []
  | String c s' => JStr (Str.singleton c) :: chars s'
  end.

Definition iter (v : json) : result (list json) :=
  match v with
  | JList l => Ok l
  | JStr s => Ok (chars s)
  | JDict d => Ok (List.map (fun kv => JStr (fst kv)) d)
  | _ => raise (TypeError "object is not iterable")
  end.

(** A [for] loop whose body may raise: the bodies run in order and the
    first exception ends the loop. *)
Fixpoint for_each {A B} (f : A -> result B) (l : list A) : result (list B) :=
  match l with
  | [] => Ok []
  | x :: l' =>
      y <- f x ;;
      ys <- for_each f l' ;;
      Ok (y :: ys)
  end.

(** ** Equality and hashing *)

(** The exact value of a finite float equals the integer [z]. *)
Definition float_eq_Z (f : spec_float) (z : Z) : bool :=
  match f with
  | S754_zero _ => (z =? 0)%Z
  | S754_finite s m e =>
      let sign := if s then (-1)%Z else 1%Z in
      if (0 <=? e)%Z then (z =? sign * Z.pos m * 2 ^ e)%Z
      else ((Z.pos m mod 2 ^ (- e) =? 0) && (z =? sign * (Z.pos m / 2 ^ (- e))))%Z
  | _ => false
  end.

Inductive number : Type :=
| NumZ (z : Z)
| NumF (f : spec_float).

(** [bool], [int] and [float] compare by numeric value. *)
Definition as_number (v : json) : option number :=
  match v with
  | JBool b => Some (NumZ (Z.b2z b))
  | JInt z => Some (NumZ z)
  | JFloat f => Some (NumF (fl_value f))
  | _ => None
  end.

Definition number_eqb (a b : number) : bool :=
  match a, b with
  | NumZ x, NumZ y => (x =? y)%Z
  | NumZ x, NumF g => float_eq_Z g x
  | NumF f, NumZ y => float_eq_Z f y
  | NumF f, NumF g => SFeqb f g
  end.

(** [a == b] *)
Fixpoint eqb (a b : json) {struct a} : bool :=
  match a with
  | JNull => match b with JNull => true | _ => false end
  | JBool x =>
      match as_number b with Some n => number_eqb (NumZ (Z.b2z x)) n | None => false end
  | JInt x =>
      match as_number b with Some n => number_eqb (NumZ x) n | None => false end
  | JFloat f =>
      match as_number b with Some n => number_eqb (NumF (fl_value f)) n | None => false end
  | JStr s => match b with JStr t => String.eqb s t | _ => false end
  | JList l1 =>
      match b with
      | JList l2 =>
          (fix go (l1 l2 : list json) {struct l1} : bool :=
             match l1, l2 with
             | [], [] => true
             | x :: l1', y :: l2' => eqb x y && go l1' l2'
             | _, _ => false
             end) l1 l2
      | _ => false
      end
  | JDict d1 =>
      match b with
      | JDict d2 =>
          Nat.eqb (List.length d1) (List.length d2) &&
          (fix go (d1 : list (string * json)) : bool :=
             match d1 with
             | [] => true
             | (k, v) :: d1' =>
                 match lookup k d2 with
                 | Some v' => eqb v v'
                 | None => false
                 end && go d1'
             end) d1
      | _ => false
      end
  end.

Definition hashable (v : json) : bool :=
  match v with
  | JList _ | JDict _ => false
  | _ => true
  end.

(** A [set] of hashable values, kept as the list of its members. *)
Definition pyset : Type := list json.

(** [x in s] on a set: hashing [x] comes first. *)
Definition set_mem (x : json) (s : pyset) : result bool :=
  if hashable x then Ok (List.existsb (fun y => eqb y x) s)
  else raise (TypeError "unhashable type").

(** ** Ordering against zero, [v > 0] *)

Definition gt_zero (v : json) : result bool :=
  match v with
  | JBool b => Ok b
  | JInt z => Ok (0 <? z)%Z
  | JFloat f => Ok (SFltb (S754_zero false) (fl_value f))
  | _ => raise (TypeError "'>' not supported between instances")
  end.

(** ** [len(v)] *)

Definition len (v : json) : result nat :=
  match v with
  | JStr s => Ok (String.length s)
  | JList l => Ok (List.length l)
  | JDict d => Ok (List.length d)
  | _ => raise (TypeError "object has no len()")
  end.

(** ** [v[:n]] *)

Definition slice_to (n : nat) (v : json) : result json :=
  match v with
  | JStr s => Ok (JStr (Str.take n s))
  | JList l => Ok (JList (List.firstn n l))
  | JDict _ => raise (TypeError "unhashable type: 'slice'")
  | _ => raise (TypeError "object is not subscriptable")
  end.

End PyOps.

(* ================================================================== *)
(** * SHA-1, as [hashlib.sha1] computes it (FIPS 180-4) *)
(* ================================================================== *)

Module Sha1.

Definition mask32 : N := 4294967295.

Definition w32 (x : N) : N := N.land x mask32.

Definition add32 (a b : N) : N := w32 (a + b).

Definition rotl (n : N) (x : N) : N :=
  w32 (N.lor (N.shiftl x n) (N.shiftr x (32 - n))).

Definition not32 (x : N) : N := N.lxor (w32 x) mask32.

Record state : Type := mkstate { h0 : N; h1 : N; h2 : N; h3 : N; h4 : N }.

Definition init : state :=
  mkstate 1732584193 4023233417 2562383102 271733878 3285377520.

(** Message padding: a 1 bit, zeros up to 56 modulo 64 bytes, and the
    bit length as a 64-bit big-endian integer. *)
Fixpoint be_bytes (n : nat) (x : N) : list N :=
  match n with
  | O => []
  | S n' => N.land (N.shiftr x (8 * N.of_nat n')) 255 :: be_bytes n' x
  end.

Definition pad (msg : list N) : list N :=
  let len := List.length msg in
  let zeros := ((119 - len mod 64) mod 64)%nat in
  msg ++ 128%N :: List.repeat 0%N zeros ++ be_bytes 8 (8 * N.of_nat len).

(** Big-endian 32-bit words of a byte sequence. *)
Fixpoint words (fuel : nat) (bytes : list N) : list N :=
  match fuel, bytes with
  | S fuel', b0 :: b1 :: b2 :: b3 :: rest =>
      N.lor (N.shiftl b0 24) (N.lor (N.shiftl b1 16) (N.lor (N.shiftl b2 8) b3))
        :: words fuel' rest
  | _, _ => []
  end.

(** Message schedule: [ws] holds the last sixteen words. *)
Fixpoint expand (n : nat) (ws : list N) : list N :=
  match n with
  | O => []
  | S n' =>
      let w := rotl 1 (N.lxor (N.lxor (List.nth 13 ws 0%N) (List.nth 8 ws 0%N))
                              (N.lxor (List.nth 2 ws 0%N) (List.nth 0 ws 0%N))) in
      w :: expand n' (List.tl ws ++ [w])
  end.

Definition schedule (block : list N) : list N := block ++ expand 64 block.

Definition round_f (t : nat) (b c d : N) : N :=
  if (t <? 20)%nat then N.lor (N.land b c) (N.land (not32 b) d)
  else if (t <? 40)%nat then N.lxor (N.lxor b c) d
  else if (t <? 60)%nat then N.lor (N.lor (N.land b c) (N.land b d)) (N.land c d)
  else N.lxor (N.lxor b c) d.

Definition round_k (t : nat) : N :=
  if (t <? 20)%nat then 1518500249
  else if (t <? 40)%nat then 1859775393
  else if (t <? 60)%nat then 2400959708
  else 3395469782.

Fixpoint rounds (t : nat) (ws : list N) (s : state) : state :=
  match ws with
  | [] => s
  | w :: ws' =>
      let temp :=
        add32 (add32 (add32 (add32 (rotl 5 (h0 s)) (round_f t (h1 s) (h2 s) (h3 s)))
                            (h4 s)) (round_k t)) w in
      rounds (S t) ws' (mkstate temp (h0 s) (rotl 30 (h1 s)) (h2 s) (h3 s))
  end.

Definition compress (s : state) (block : list N) : state :=
  let r := rounds 0 (schedule block) s in
  mkstate (add32 (h0 s) (h0 r)) (add32 (h1 s) (h1 r)) (add32 (h2 s) (h2 r))
          (add32 (h3 s) (h3 r)) (add32 (h4 s) (h4 r)).

Fixpoint blocks (n : nat) (ws : list N) (s : state) : state :=
  match n with
  | O => s
  | S n' => blocks n' (List.skipn 16 ws) (compress s (List.firstn 16 ws))
  end.

Definition digest (msg : list N) : state :=
  let p := pad msg in
  let ws := words (List.length p) p in
  blocks (List.length ws / 16)%nat ws init.

(** Eight lower-case hexadecimal digits of a 32-bit word. *)
Definition hex8 (w : N) : string :=
  String (Str.hex_digit (N.land (N.shiftr w 28) 15))
 (String (Str.hex_digit (N.land (N.shiftr w 24) 15))
 (String (Str.hex_digit (N.land (N.shiftr w 20) 15))
 (String (Str.hex_digit (N.land (N.shiftr w 16) 15))
 (String (Str.hex_digit (N.land (N.shiftr w 12) 15))
 (String (Str.hex_digit (N.land (N.shiftr w 8) 15))
 (String (Str.hex_digit (N.land (N.shiftr w 4) 15))
 (String (Str.hex_digit (N.land w 15)) EmptyString))))))).

(** [hashlib.sha1(msg).hexdigest()] *)
Definition hexdigest (msg : list N) : string :=
  let s := digest msg in
  (hex8 (h0 s) ++ hex8 (h1 s) ++ hex8 (h2 s) ++ hex8 (h3 s) ++ hex8 (h4 s))%string.

End Sha1.

(* ================================================================== *)
(** * [edifact_writer.py] *)
(* ================================================================== *)

(** The [Sep] dataclass: the five separator characters of a UNA
    string. *)
Module Sep.

Record t : Type := mk {
  comp : ascii;   (* component separator *)
  elem : ascii;   (* element separator *)
  dec : ascii;    (* decimal separator *)
  rel : ascii;    (* release character *)
  seg : ascii     (* segment terminator *)
}.

(** [Sep()] *)
Definition default : t := mk ":" "+" "." "?" "'".

End Sep.

Module Edifact.
Import Py PyOps.
Local Open Scope py_scope.

Definition pair_str (a b : ascii) : string := String a (String b EmptyString).

(** [escape(value, s)] *)
Definition escape (value : json) (s : Sep.t) : string :=
  let value := str value in
  let result := Str.replace (Sep.rel s) (pair_str (Sep.rel s) (Sep.rel s)) value in
  let result := Str.replace (Sep.seg s) (pair_str (Sep.rel s) (Sep.seg s)) result in
  let result := Str.replace (Sep.elem s) (pair_str (Sep.rel s) (Sep.elem s)) result in
  let result := Str.replace (Sep.comp s) (pair_str (Sep.rel s) (Sep.comp s)) result in
  result.

(** One element of a segment: a list is a composite, joined without
    escaping; anything else is stringified and escaped. *)
Definition process_element (s : Sep.t) (element : json) : string :=
  match element with
  | JList components =>
      Str.join (Str.singleton (Sep.comp s)) (List.map str components)
  | _ => escape (JStr (str element)) s
  end.

(** [seg(tag, elements, s)] *)
Definition seg (tag : string) (elements : list json) (s : Sep.t) : string :=
  let processed_elements := List.map (process_element s) elements in
  (tag ++ Str.singleton (Sep.elem s)
       ++ Str.join (Str.singleton (Sep.elem s)) processed_elements
       ++ Str.singleton (Sep.seg s))%string.

(** [generate_deterministic_ref(publisher, version)] *)
Definition generate_deterministic_ref (publisher : json) (version : string)
  : result string :=
  name <- get publisher "name" (JStr EmptyString) ;;
  url <- get publisher "url" (JStr EmptyString) ;;
  let hash_input := (str name ++ "-" ++ str url ++ "-" ++ version)%string in
  let hash_hex := Sha1.hexdigest (Str.utf8 hash_input) in
  Ok (Str.upper (Str.take 12 hash_hex)).

Definition or_default (s : option Sep.t) : Sep.t :=
  match s with Some s => s | None => Sep.default end.

(** [make_unb]; [timestamp] is [JNull] for Python's [None]. *)
Definition make_unb (sender_id receiver_id interchange_ref timestamp : json)
    (s : option Sep.t) : string :=
  let s := or_default s in
  let timestamp :=
    match timestamp with JNull => JStr "240101:0000" | _ => timestamp end in
  let elements :=
    [ JList [JStr "UNOC"; JStr "3"];
      sender_id;
      receiver_id;
      timestamp;
      interchange_ref ] in
  seg "UNB" elements s.

(** [make_unh] *)
Definition make_unh (message_ref message_type version : json) (s : option Sep.t)
  : string :=
  let s := or_default s in
  let elements :=
    [ message_ref;
      JList [message_type; JStr "D"; JStr "03B"; JStr "UN"; JStr "IATA"; version] ] in
  seg "UNH" elements s.

(** [make_unt] *)
Definition make_unt (segment_count : Z) (message_ref : json) (s : option Sep.t)
  : string :=
  let s := or_default s in
  let elements := [ JStr (str (JInt segment_count)); message_ref ] in
  seg "UNT" elements s.

(** [make_unz] *)
Definition make_unz (message_count : Z) (interchange_ref : json) (s : option Sep.t)
  : string :=
  let s := or_default s in
  let elements := [ JStr (str (JInt message_count)); interchange_ref ] in
  seg "UNZ" elements s.

(** The body of the station loop of [map_tsdupd_segments]: the segments
    one station appends. *)
Definition tsdupd_station (s : Sep.t) (station : json) : result (list string) :=
  station_id <- get station "id" (JStr EmptyString) ;;
  station_name <- get station "name" (JStr EmptyString) ;;
  lat <- get station "lat" (JStr EmptyString) ;;
  lon <- get station "lon" (JStr EmptyString) ;;
  let loc_elements :=
    [ JStr "88"; station_id; JStr EmptyString; JStr EmptyString; station_name ] in
  let loc := seg "LOC" loc_elements s in
  if truthy lat && truthy lon then
    let gis_elements := [ JStr "1"; JStr (str lat); JStr (str lon) ] in
    Ok [loc; seg "GIS" gis_elements s]
  else Ok [loc].

(** [map_tsdupd_segments(stations, s)] *)
Definition map_tsdupd_segments (stations : json) (s : Sep.t) : result (list string) :=
  items <- iter stations ;;
  per_station <- for_each (tsdupd_station s) items ;;
  Ok (List.concat per_station).

(** [_format_time_for_dtm(time_str)] *)
Definition _format_time_for_dtm (time_str : json) : result string :=
  if negb (truthy time_str) then Ok EmptyString
  else
    match time_str with
    | JStr t =>
        let formatted := Str.replace ":" EmptyString t in
        if (String.length formatted <? 4)%nat
        then Ok (Str.ljust 4 "0" formatted)
        else Ok formatted
    | _ => raise (AttributeError "object has no attribute 'replace'")
    end.

(** [len(d) == 8 and d.isdigit()] *)
Definition is_date8 (d : json) : result bool :=
  n <- len d ;;
  if (n =? 8)%nat then
    match d with
    | JStr t => Ok (Str.isdigit t)
    | _ => raise (AttributeError "object has no attribute 'isdigit'")
    end
  else Ok false.

(** The inner [for agency in agencies] search for the carrier name,
    with its [break]. *)
Fixpoint find_carrier_name (carrier_uic : json) (agencies : list json) : result json :=
  match agencies with
  | [] => Ok (JStr EmptyString)
  | agency :: rest =>
      agency_id <- get agency "id" JNull ;;
      if eqb agency_id carrier_uic
      then get agency "name" (JStr EmptyString)
      else find_carrier_name carrier_uic rest
  end.

(** A calendar date of a variant: the optional [DTM] segment. *)
Definition date_segment (qualifier : string) (date : json) (s : Sep.t)
  : result (list string) :=
  if truthy date then
    ok <- is_date8 date ;;
    if ok then Ok [seg "DTM" [JList [JStr qualifier; date; JStr "102"]] s]
    else Ok []
  else Ok [].

Definition weekdays : list string :=
  ["monday"; "tuesday"; "wednesday"; "thursday"; "friday"; "saturday"; "sunday"].

Fixpoint dow_bits (dow_pattern : list json) : string :=
  match dow_pattern with
  | [] => EmptyString
  | day :: rest => String (if truthy day then "1" else "0")%char (dow_bits rest)
  end.

(** The body of the variant loop of [map_skdupd_segments]. *)
Definition skdupd_variant (s : Sep.t) (variant : json) : result (list string) :=
  inner_id <- get variant "id" (JStr EmptyString) ;;
  service_id <- get variant "service_id" inner_id ;;
  calendar <- get variant "calendar" (JDict []) ;;
  let rff :=
    if truthy service_id
    then [seg "RFF" [JList [JStr "SRV"; service_id]] s]
    else [] in
  start_date <- get calendar "start_date" (JStr EmptyString) ;;
  dtm_start <- date_segment "324" start_date s ;;
  end_date <- get calendar "end_date" (JStr EmptyString) ;;
  dtm_end <- date_segment "325" end_date s ;;
  dow_pattern <- for_each (fun day => get calendar day (JBool false)) weekdays ;;
  let ftx_dow :=
    if List.existsb truthy dow_pattern
    then [seg "FTX" [JStr "CDV"; JStr EmptyString; JStr EmptyString;
                     JStr (dow_bits dow_pattern)] s]
    else [] in
  Ok (rff ++ dtm_start ++ dtm_end ++ ftx_dow).

(** An arrival or departure time of a call: the optional [DTM]. *)
Definition time_segment (qualifier : string) (time : json) (s : Sep.t)
  : result (list string) :=
  if truthy time then
    formatted <- _format_time_for_dtm time ;;
    Ok [seg "DTM" [JList [JStr qualifier; JStr formatted; JStr "105"]] s]
  else Ok [].

(** The body of the call loop of [map_skdupd_segments]. *)
Definition skdupd_call (s : Sep.t) (call : json) : result (list string) :=
  station_uic <- get call "station_id" (JStr EmptyString) ;;
  arr_time <- get call "arrival_time" (JStr EmptyString) ;;
  dep_time <- get call "departure_time" (JStr EmptyString) ;;
  day_offset <- get call "day_offset" (JInt 0) ;;
  let loc :=
    if truthy station_uic then [seg "LOC" [JStr "92"; station_uic] s] else [] in
  dtm_arr <- time_segment "132" arr_time s ;;
  dtm_dep <- time_segment "133" dep_time s ;;
  positive <- (if truthy day_offset then gt_zero day_offset else Ok false) ;;
  let dtm_offset :=
    if positive
    then [seg "DTM" [JList [JStr "997"; JStr (str day_offset); JStr "900"]] s]
    else [] in
  Ok (loc ++ dtm_arr ++ dtm_dep ++ dtm_offset).

(** The [NAD] segment of a service, and the carriers seen so far. *)
Definition skdupd_carrier (agencies : json) (s : Sep.t) (carriers_used : pyset)
    (carrier_uic : json) : result (pyset * list string) :=
  if truthy carrier_uic then
    seen <- set_mem carrier_uic carriers_used ;;
    if negb seen then
      agency_list <- iter agencies ;;
      carrier_name <- find_carrier_name carrier_uic agency_list ;;
      let nad_elements :=
        [ JStr "CA"; carrier_uic; JStr EmptyString; carrier_name ] in
      Ok (carrier_uic :: carriers_used, [seg "NAD" nad_elements s])
    else Ok (carriers_used, [])
  else Ok (carriers_used, []).

(** The [TDT] segment of a service. *)
Definition skdupd_tdt (s : Sep.t) (service : json) : result string :=
  by_id <- get service "id" (JStr EmptyString) ;;
  by_short_name <- get service "route_short_name" by_id ;;
  train_number <- get service "train_number" by_short_name ;;
  let tdt_elements := [ JStr "20"; train_number ] in
  Ok (seg "TDT" tdt_elements s).

(** The body of the service loop of [map_skdupd_segments]: the new set
    of carriers and the segments the service appends. *)
Definition skdupd_service (agencies : json) (s : Sep.t) (carriers_used : pyset)
    (service : json) : result (pyset * list string) :=
  carrier_uic <- get service "agency_id" (JStr EmptyString) ;;
  nad <- skdupd_carrier agencies s carriers_used carrier_uic ;;
  tdt <- skdupd_tdt s service ;;
  first <- get service "headsign" JNull ;;
  second <- get service "route_long_name" JNull ;;
  let headsign := or_ first second in
  let ftx :=
    if truthy headsign
    then [seg "FTX" [JStr "AAI"; JStr EmptyString; JStr EmptyString; headsign] s]
    else [] in
  variants <- get service "variants" (JList []) ;;
  variant_list <- iter variants ;;
  per_variant <- for_each (skdupd_variant s) variant_list ;;
  calls <- get service "calls" (JList []) ;;
  call_list <- iter calls ;;
  per_call <- for_each (skdupd_call s) call_list ;;
  Ok (fst nad,
      snd nad ++ [tdt] ++ ftx ++ List.concat per_variant ++ List.concat per_call).

(** The service loop, threading [carriers_used]. *)
Fixpoint skdupd_services (agencies : json) (s : Sep.t) (carriers_used : pyset)
    (services : list json) : result (list string) :=
  match services with
  | [] => Ok []
  | service :: rest =>
      r <- skdupd_service agencies s carriers_used service ;;
      segments <- skdupd_services agencies s (fst r) rest ;;
      Ok (snd r ++ segments)
  end.

(** [map_skdupd_segments(agencies, services, s)] *)
Definition map_skdupd_segments (agencies services : json) (s : Sep.t)
  : result (list string) :=
  service_list <- iter services ;;
  skdupd_services agencies s [] service_list.

(** [una[i]] *)
Definition index (i : nat) (text : string) : result ascii :=
  match String.get i text with
  | Some c => Ok c
  | None => raise (IndexError "string index out of range")
  end.

(** The UNA check and the construction of [Sep] that open both
    writers. *)
Definition parse_una (una : string) : result Sep.t :=
  if negb (String.length una =? 9)%nat || negb (Str.startswith "UNA" una) then
    raise (ValueError ("Invalid UNA string: " ++ una))
  else
    comp <- index 3 una ;;
    elem <- index 4 una ;;
    dec <- index 5 una ;;
    rel <- index 6 una ;;
    seg <- index 8 una ;;
    Ok (Sep.mk comp elem dec rel seg).

(** What both writers do once the required lists are validated:
    references, header, body, trailer.  The result is the list
    [segments] before it is joined. *)
Definition interchange (message_type : string) (json_data : dict)
    (version una : string) (s : Sep.t) (body : result (list string))
  : result (list string) :=
  let publisher := dget json_data "publisher" (JDict []) in
  interchange_ref <- generate_deterministic_ref publisher version ;;
  let message_ref := (interchange_ref ++ "01")%string in
  fixed_timestamp <- get publisher "fixed_timestamp" JNull ;;
  let timestamp :=
    if truthy fixed_timestamp then fixed_timestamp else JStr "240101:0000" in
  name <- get publisher "name" (JStr "SENDER") ;;
  sender_id <- slice_to 35 name ;;
  let receiver_id := JStr "RECEIVER" in
  let unb := make_unb sender_id receiver_id (JStr interchange_ref) timestamp (Some s) in
  let unh := make_unh (JStr message_ref) (JStr message_type) (JStr version) (Some s) in
  body_segments <- body ;;
  let segment_count := (Z.of_nat (List.length body_segments) + 2)%Z in
  let unt := make_unt segment_count (JStr message_ref) (Some s) in
  let unz := make_unz 1 (JStr interchange_ref) (Some s) in
  Ok ([una; unb; unh] ++ body_segments ++ [unt; unz]).

(** The list [segments] of [write_tsdupd]. *)
Definition tsdupd_segments (json_data : dict) (version una : string)
  : result (list string) :=
  s <- parse_una una ;;
  if negb (mem "stations" json_data) then
    raise (ValueError "Missing required 'stations' data")
  else
    stations <- getitem (JDict json_data) "stations" ;;
    if negb (truthy stations) then
      raise (ValueError "Stations list cannot be empty")
    else
      interchange "TSDUPD" json_data version una s (map_tsdupd_segments stations s).

(** [write_tsdupd(json_data, version=..., una=...)] *)
Definition write_tsdupd (json_data : dict) (version una : string) : result string :=
  segments <- tsdupd_segments json_data version una ;;
  Ok (Str.join EmptyString segments).

(** The list [segments] of [write_skdupd]. *)
Definition skdupd_segments (json_data : dict) (version una : string)
  : result (list string) :=
  s <- parse_una una ;;
  if negb (mem "agencies" json_data) then
    raise (ValueError "Missing required 'agencies' data")
  else if negb (mem "services" json_data) then
    raise (ValueError "Missing required 'services' data")
  else
    agencies <- getitem (JDict json_data) "agencies" ;;
    services <- getitem (JDict json_data) "services" ;;
    if negb (truthy agencies) then
      raise (ValueError "Agencies list cannot be empty")
    else if negb (truthy services) then
      raise (ValueError "Services list cannot be empty")
    else
      interchange "SKDUPD" json_data version una s
        (map_skdupd_segments agencies services s).

(** [write_skdupd(json_data, version=..., una=...)] *)
Definition write_skdupd (json_data : dict) (version una : string) : result string :=
  segments <- skdupd_segments json_data version una ;;
  Ok (Str.join EmptyString segments).

End Edifact.

(* ================================================================== *)
(** * [csv.writer] with the default dialect *)
(* ================================================================== *)

Module Csv.
Import Py PyOps.

Definition row : Type := list json.

Definition cr : ascii := "013"%char.
Definition lf : ascii := "010"%char.

(** The text of a cell: [None] is empty, a string is itself, anything
    else goes through [str]. *)
Definition field (v : json) : string :=
  match v with
  | JNull => EmptyString
  | _ => str v
  end.

(** Minimal quoting: a field is quoted when it holds the delimiter, the
    quote character or a line break; quotes inside are doubled. *)
Definition needs_quote (f : string) : bool :=
  Str.contains "," f || Str.contains dquote f || Str.contains cr f || Str.contains lf f.

Definition quote (f : string) : string :=
  String dquote (Str.replace dquote (String dquote (Str.singleton dquote)) f
                 ++ Str.singleton dquote)%string.

Definition cell (v : json) : string :=
  let f := field v in
  if needs_quote f then quote f else f.

(** [writer.writerow(r)]: the line appended to the output.  A row made
    of one empty field is written as a pair of quotes. *)
Definition writerow (r : row) : string :=
  match r with
  | [v] =>
      if String.eqb (field v) EmptyString
      then String dquote (String dquote (String cr (Str.singleton lf)))
      else (cell v ++ String cr (Str.singleton lf))%string
  | _ => (Str.join "," (List.map cell r) ++ String cr (Str.singleton lf))%string
  end.

(** The content of the [StringIO] after the rows were written. *)
Definition text (rows : list row) : string :=
  Str.join EmptyString (List.map writerow rows).

Definition header (names : list string) : row := List.map JStr names.

End Csv.

(* ================================================================== *)
(** * [gtfs_writer.py] *)
(* ================================================================== *)

Module Gtfs.
Import Py PyOps.
Local Open Scope py_scope.

Definition blank : json := JStr EmptyString.

(** ** agency.txt *)

Definition agency_header : Csv.row :=
  Csv.header ["agency_id"; "agency_name"; "agency_url"; "agency_timezone";
              "agency_lang"; "agency_phone"; "agency_email"].

Definition agency_row (agency : json) : result Csv.row :=
  c1 <- get agency "id" blank ;;
  c2 <- get agency "name" blank ;;
  c3 <- get agency "url" blank ;;
  c4 <- get agency "timezone" (JStr "Europe/Bratislava") ;;
  c5 <- get agency "lang" blank ;;
  c6 <- get agency "phone" blank ;;
  c7 <- get agency "email" blank ;;
  Ok [c1; c2; c3; c4; c5; c6; c7].

(** [_generate_agency_file(agencies)] *)
Definition _generate_agency_file (agencies : json) : result string :=
  items <- iter agencies ;;
  rows <- for_each agency_row items ;;
  Ok (Csv.text (agency_header :: rows)).

(** ** stops.txt *)

Definition stops_header : Csv.row :=
  Csv.header ["stop_id"; "stop_code"; "stop_name"; "stop_desc"; "stop_lat";
              "stop_lon"; "zone_id"; "stop_url"; "location_type";
              "parent_station"; "wheelchair_boarding"].

Definition stop_row (station : json) : result Csv.row :=
  c1 <- get station "id" blank ;;
  c2 <- get station "code" blank ;;
  c3 <- get station "name" blank ;;
  c4 <- get station "desc" blank ;;
  c5 <- get station "lat" blank ;;
  c6 <- get station "lon" blank ;;
  c7 <- get station "zone_id" blank ;;
  c8 <- get station "url" blank ;;
  c9 <- get station "location_type" (JInt 0) ;;
  c10 <- get station "parent_station" blank ;;
  c11 <- get station "wheelchair_boarding" (JInt 0) ;;
  Ok [c1; c2; c3; c4; c5; c6; c7; c8; c9; c10; c11].

(** [_generate_stops_file(stations)] *)
Definition _generate_stops_file (stations : json) : result string :=
  items <- iter stations ;;
  rows <- for_each stop_row items ;;
  Ok (Csv.text (stops_header :: rows)).

(** ** routes.txt *)

Definition routes_header : Csv.row :=
  Csv.header ["route_id"; "agency_id"; "route_short_name"; "route_long_name";
              "route_desc"; "route_type"; "route_url"; "route_color";
              "route_text_color"].

Definition route_row (service : json) : result Csv.row :=
  c1 <- get service "id" blank ;;
  c2 <- get service "agency_id" blank ;;
  c3 <- get service "route_short_name" blank ;;
  c4 <- get service "route_long_name" blank ;;
  c5 <- get service "route_desc" blank ;;
  c6 <- get service "route_type" (JInt 3) ;;
  c7 <- get service "route_url" blank ;;
  c8 <- get service "route_color" blank ;;
  c9 <- get service "route_text_color" blank ;;
  Ok [c1; c2; c3; c4; c5; c6; c7; c8; c9].

(** [_generate_routes_file(services, agencies)]; [agencies] is not
    used. *)
Definition _generate_routes_file (services agencies : json) : result string :=
  items <- iter services ;;
  rows <- for_each route_row items ;;
  Ok (Csv.text (routes_header :: rows)).

(** ** calendar.txt *)

Definition calendar_header : Csv.row :=
  Csv.header ["service_id"; "monday"; "tuesday"; "wednesday"; "thursday";
              "friday"; "saturday"; "sunday"; "start_date"; "end_date"].

Definition flag (calendar : json) (day : string) : result json :=
  v <- get calendar day (JBool false) ;;
  Ok (JInt (if truthy v then 1 else 0)).

Definition calendar_row (service_id calendar : json) : result Csv.row :=
  days <- for_each (flag calendar) Edifact.weekdays ;;
  start_date <- get calendar "start_date" (JStr "20240101") ;;
  end_date <- get calendar "end_date" (JStr "20241231") ;;
  Ok (service_id :: days ++ [start_date; end_date]).

(** The variant loop, threading the set [calendar_services]. *)
Fixpoint calendar_variants (calendar_services : pyset) (variants : list json)
  : result (pyset * list Csv.row) :=
  match variants with
  | [] => Ok (calendar_services, [])
  | variant :: rest =>
      calendar <- get variant "calendar" (JDict []) ;;
      service_id <- get variant "id" blank ;;
      fresh <- (if truthy service_id
                then (seen <- set_mem service_id calendar_services ;; Ok (negb seen))
                else Ok false) ;;
      if fresh then
        r <- calendar_row service_id calendar ;;
        more <- calendar_variants (service_id :: calendar_services) rest ;;
        Ok (fst more, r :: snd more)
      else calendar_variants calendar_services rest
  end.

Fixpoint calendar_services_loop (calendar_services : pyset) (services : list json)
  : result (list Csv.row) :=
  match services with
  | [] => Ok []
  | service :: rest =>
      variants <- get service "variants" (JList []) ;;
      variant_list <- iter variants ;;
      r <- calendar_variants calendar_services variant_list ;;
      rows <- calendar_services_loop (fst r) rest ;;
      Ok (snd r ++ rows)
  end.

(** [_generate_calendar_file(services)] *)
Definition _generate_calendar_file (services : json) : result string :=
  items <- iter services ;;
  rows <- calendar_services_loop [] items ;;
  Ok (Csv.text (calendar_header :: rows)).

(** ** trips.txt *)

Definition trips_header : Csv.row :=
  Csv.header ["route_id"; "service_id"; "trip_id"; "trip_headsign";
              "trip_short_name"; "direction_id"; "block_id";
              "wheelchair_accessible"; "bikes_allowed"].

(** [f"{route_id}_{trip_counter}"] *)
Definition trip_id (route_id : json) (trip_counter : nat) : string :=
  (str route_id ++ "_" ++ Str.of_nat trip_counter)%string.

(** The variant loop of one service; returns the counter it leaves. *)
Fixpoint trips_variants (service route_id : json) (trip_counter : nat)
    (variants : list json) : result (nat * list Csv.row) :=
  match variants with
  | [] => Ok (trip_counter, [])
  | variant :: rest =>
      service_id <- get variant "id" blank ;;
      let trip_counter := S trip_counter in
      let trip_id := trip_id route_id trip_counter in
      headsign <- get service "route_long_name" blank ;;
      short_name <- get service "route_short_name" blank ;;
      let r := [ route_id; service_id; JStr trip_id; headsign; short_name;
                 JInt 0; blank; JInt 0; JInt 0 ] in
      more <- trips_variants service route_id trip_counter rest ;;
      Ok (fst more, r :: snd more)
  end.

Fixpoint trips_services (trip_counter : nat) (services : list json)
  : result (list Csv.row) :=
  match services with
  | [] => Ok []
  | service :: rest =>
      route_id <- get service "id" blank ;;
      variants <- get service "variants" (JList []) ;;
      variant_list <- iter variants ;;
      r <- trips_variants service route_id trip_counter variant_list ;;
      rows <- trips_services (fst r) rest ;;
      Ok (snd r ++ rows)
  end.

(** The data rows of trips.txt. *)
Definition trips_rows (services : json) : result (list Csv.row) :=
  items <- iter services ;;
  trips_services 0 items.

(** [_generate_trips_file(services)] *)
Definition _generate_trips_file (services : json) : result string :=
  rows <- trips_rows services ;;
  Ok (Csv.text (trips_header :: rows)).

(** ** stop_times.txt *)

Definition stop_times_header : Csv.row :=
  Csv.header ["trip_id"; "arrival_time"; "departure_time"; "stop_id";
              "stop_sequence"; "stop_headsign"; "pickup_type";
              "drop_off_type"; "timepoint"].

Definition stop_time_row (trip_id : string) (call : json) : result Csv.row :=
  c2 <- get call "arrival_time" blank ;;
  c3 <- get call "departure_time" blank ;;
  c4 <- get call "station_id" blank ;;
  c5 <- get call "stop_sequence" (JInt 1) ;;
  c6 <- get call "stop_headsign" blank ;;
  c7 <- get call "pickup_type" (JInt 0) ;;
  c8 <- get call "drop_off_type" (JInt 0) ;;
  c9 <- get call "timepoint" (JInt 1) ;;
  Ok [JStr trip_id; c2; c3; c4; c5; c6; c7; c8; c9].

(** The variant loop of one service: each variant takes the next
    counter value and writes one row per call of the service. *)
Fixpoint stop_times_variants (route_id calls : json) (trip_counter : nat)
    (variants : list json) : result (nat * list Csv.row) :=
  match variants with
  | [] => Ok (trip_counter, [])
  | variant :: rest =>
      let trip_counter := S trip_counter in
      let trip_id := trip_id route_id trip_counter in
      call_list <- iter calls ;;
      rows <- for_each (stop_time_row trip_id) call_list ;;
      more <- stop_times_variants route_id calls trip_counter rest ;;
      Ok (fst more, rows ++ snd more)
  end.

Fixpoint stop_times_services (trip_counter : nat) (services : list json)
  : result (list Csv.row) :=
  match services with
  | [] => Ok []
  | service :: rest =>
      route_id <- get service "id" blank ;;
      variants <- get service "variants" (JList []) ;;
      calls <- get service "calls" (JList []) ;;
      variant_list <- iter variants ;;
      r <- stop_times_variants route_id calls trip_counter variant_list ;;
      rows <- stop_times_services (fst r) rest ;;
      Ok (snd r ++ rows)
  end.

(** The data rows of stop_times.txt. *)
Definition stop_times_rows (services : json) : result (list Csv.row) :=
  items <- iter services ;;
  stop_times_services 0 items.

(** [_generate_stop_times_file(services)] *)
Definition _generate_stop_times_file (services : json) : result string :=
  rows <- stop_times_rows services ;;
  Ok (Csv.text (stop_times_header :: rows)).

(** ** feed_info.txt *)

Definition feed_info_header : Csv.row :=
  Csv.header ["feed_publisher_name"; "feed_publisher_url"; "feed_lang";
              "feed_start_date"; "feed_end_date"; "feed_version";
              "feed_contact_email"; "feed_contact_url"].

(** [min(a, b)] and [max(a, b)] with [a] a string: [b] is returned when
    it compares strictly below (above) [a]; comparing a string with
    anything else raises. *)
Definition min_str (a : string) (b : json) : result string :=
  match b with
  | JStr t => Ok (if Str.ltb t a then t else a)
  | _ => raise (TypeError "'<' not supported between instances")
  end.

Definition max_str (a : string) (b : json) : result string :=
  match b with
  | JStr t => Ok (if Str.ltb a t then t else a)
  | _ => raise (TypeError "'>' not supported between instances")
  end.

Fixpoint feed_range_variants (range : string * string) (variants : list json)
  : result (string * string) :=
  match variants with
  | [] => Ok range
  | variant :: rest =>
      calendar <- get variant "calendar" (JDict []) ;;
      first <- get calendar "start_date" JNull ;;
      start_date <- (if truthy first
                     then (v <- getitem calendar "start_date" ;; min_str (fst range) v)
                     else Ok (fst range)) ;;
      last <- get calendar "end_date" JNull ;;
      end_date <- (if truthy last
                   then (v <- getitem calendar "end_date" ;; max_str (snd range) v)
                   else Ok (snd range)) ;;
      feed_range_variants (start_date, end_date) rest
  end.

Fixpoint feed_range_services (range : string * string) (services : list json)
  : result (string * string) :=
  match services with
  | [] => Ok range
  | service :: rest =>
      variants <- get service "variants" (JList []) ;;
      variant_list <- iter variants ;;
      range <- feed_range_variants range variant_list ;;
      feed_range_services range rest
  end.

(** [_generate_feed_info_file(json_data)]; [today] is what
    [datetime.now().strftime('%Y%m%d')] returns. *)
Definition _generate_feed_info_file (json_data : dict) (today : string)
  : result string :=
  let publisher := dget json_data "publisher" (JDict []) in
  services <- iter (dget json_data "services" (JList [])) ;;
  range <- feed_range_services ("20240101", "20241231") services ;;
  c1 <- get publisher "name" (JStr "TSI Data Publisher") ;;
  c2 <- get publisher "url" blank ;;
  c7 <- get publisher "email" blank ;;
  c8 <- get publisher "url" blank ;;
  Ok (Csv.text [feed_info_header;
                [c1; c2; JStr "en"; JStr (fst range); JStr (snd range);
                 JStr today; c7; c8]]).

(** ** The static entry point *)

(** [write_gtfs_static(json_data)]: the mapping from file name to
    content, in insertion order. *)
Definition write_gtfs_static (json_data : dict) (today : string)
  : result (list (string * string)) :=
  if negb (mem "agencies" json_data) then
    raise (ValueError "Missing required 'agencies' data")
  else if negb (mem "stations" json_data) then
    raise (ValueError "Missing required 'stations' data")
  else if negb (mem "services" json_data) then
    raise (ValueError "Missing required 'services' data")
  else
    agencies <- getitem (JDict json_data) "agencies" ;;
    stations <- getitem (JDict json_data) "stations" ;;
    services <- getitem (JDict json_data) "services" ;;
    if negb (truthy agencies) || negb (truthy stations) || negb (truthy services) then
      raise (ValueError "Agencies, stations, and services cannot be empty")
    else
      agency_txt <- _generate_agency_file agencies ;;
      stops_txt <- _generate_stops_file stations ;;
      routes_txt <- _generate_routes_file services agencies ;;
      calendar_txt <- _generate_calendar_file services ;;
      trips_txt <- _generate_trips_file services ;;
      stop_times_txt <- _generate_stop_times_file services ;;
      feed_info_txt <- _generate_feed_info_file json_data today ;;
      Ok [ ("agency.txt", agency_txt);
           ("stops.txt", stops_txt);
           ("routes.txt", routes_txt);
           ("calendar.txt", calendar_txt);
           ("trips.txt", trips_txt);
           ("stop_times.txt", stop_times_txt);
           ("feed_info.txt", feed_info_txt) ].

End Gtfs.

(* ================================================================== *)
(** * [file_handler.py] *)
(* ================================================================== *)

Module FileHandler.

(** The class [\w] of the [re] module on the code points 0..255: the
    alphanumeric characters ([str.isalnum]) and the underscore. *)
Definition is_alnum (c : ascii) : bool :=
  Str.in_range 48 57 c || Str.in_range 65 90 c || Str.in_range 97 122 c ||
  (Str.code c =? 170)%N || (Str.code c =? 178)%N || (Str.code c =? 179)%N ||
  (Str.code c =? 181)%N || (Str.code c =? 185)%N || (Str.code c =? 186)%N ||
  Str.in_range 188 190 c || Str.in_range 192 214 c || Str.in_range 216 246 c ||
  Str.in_range 248 255 c.

Definition is_word (c : ascii) : bool := is_alnum c || Ascii.eqb c "_".

(** The characters the pattern [[^\w\-_\.]] leaves alone. *)
Definition is_safe (c : ascii) : bool :=
  is_word c || Ascii.eqb c "-" || Ascii.eqb c "_" || Ascii.eqb c ".".

(** [re.sub(r'[^\w\-_\.]', '_', filename)] *)
Definition sub_unsafe (filename : string) : string :=
  Str.map (fun c => if is_safe c then c else "_"%char) filename.

(** [p.rfind(c)]: the last index of [c], or -1. *)
Fixpoint rfind_from (i : Z) (c : ascii) (p : string) (found : Z) : Z :=
  match p with
  | EmptyString => found
  | String x p' => rfind_from (i + 1) c p' (if Ascii.eqb x c then i else found)
  end.

Definition rfind (c : ascii) (p : string) : Z := rfind_from 0 c p (-1).

(** [os.path.splitext(p)] (posixpath): the extension starts at the last
    dot of the last path component, unless only dots precede it
    there. *)
Definition splitext (p : string) : string * string :=
  let sepIndex := rfind "/" p in
  let dotIndex := rfind "." p in
  if (sepIndex <? dotIndex)%Z then
    let filenameIndex := Z.to_nat (sepIndex + 1) in
    let before := Str.take (Z.to_nat dotIndex - filenameIndex) (Str.drop filenameIndex p) in
    if Str.forallb (fun c => Ascii.eqb c ".") before
    then (p, EmptyString)
    else (Str.take (Z.to_nat dotIndex) p, Str.drop (Z.to_nat dotIndex) p)
  else (p, EmptyString).

(** [FileHandler._sanitize_filename(filename)] *)
Definition _sanitize_filename (filename : string) : string :=
  let safe_filename := sub_unsafe filename in
  let safe_filename :=
    if (100 <? String.length safe_filename)%nat then
      let (name, ext) := splitext safe_filename in
      (Str.take 95 name ++ ext)%string
    else safe_filename in
  let safe_filename :=
    if negb (Str.contains "." safe_filename)
    then (safe_filename ++ ".txt")%string
    else safe_filename in
  safe_filename.

End FileHandler.

(* ================================================================== *)
(** * [main.py]: the [/validate] handler *)
(* ================================================================== *)

Module Service.
Import Py PyOps.

Inductive ValidationLevel : Type := STANDARD | STRICT.

Definition level_value (l : ValidationLevel) : string :=
  match l with STANDARD => "standard" | STRICT => "strict" end.

Record ValidationRequest : Type := mkRequest {
  input_data : dict;
  format : string;
  validation_level : ValidationLevel;
  tenant_id : option string
}.

Record ValidationError : Type := mkError {
  code : string;
  message : string;
  line : option Z;
  field : option string;
  severity : string
}.

(** The [ValidationResult] the handler builds: validity, the summary
    block and the recommendations.  The floating-point percentages and
    scores of the details block and the clock readings of the metadata
    play no part in any branch and are left out. *)
Record ValidationResult : Type := mkResult {
  job_id : string;
  res_format : string;
  res_validation_level : string;
  status : string;
  is_valid : bool;
  total_records : Z;
  valid_records : Z;
  errors : list ValidationError;
  warnings : list ValidationError;
  notices : list ValidationError;
  required_passed : Z;
  required_failed : Z;
  recommendations : list string
}.

(** [len(v) if isinstance(v, list) else 1] *)
Definition record_count (v : json) : Z :=
  match v with
  | JList l => Z.of_nat (List.length l)
  | _ => 1%Z
  end.

(** The process-wide [job_storage] table. *)
Definition job_storage : Type := list (string * ValidationResult).

(** [validate_data(request, ...)]: the result returned and the job
    table after it was stored.  [job_id] stands for the identifier the
    handler draws from the clock and [uuid4]. *)
Definition validate_data (request : ValidationRequest) (job_id : string)
    (jobs : job_storage) : ValidationResult * job_storage :=
  let errors :=
    if String.eqb (format request) "json-transport" then
      if negb (mem "agencies" (input_data request)) then
        [ mkError "MISSING_REQUIRED_FIELD" "Required field 'agencies' is missing"
                  None (Some "agencies") "error" ]
      else []
    else [] in
  let warnings : list ValidationError := [] in
  let notices : list ValidationError := [] in
  let total_records :=
    List.fold_left Z.add (List.map (fun kv => record_count (snd kv)) (input_data request)) 0%Z in
  let valid_records := (total_records - Z.of_nat (List.length errors))%Z in
  let result :=
    mkResult job_id (format request) (level_value (validation_level request))
      "completed"
      (List.length errors =? 0)%nat
      total_records valid_records errors warnings notices
      valid_records (Z.of_nat (List.length errors))
      (match errors with
       | [] => [ "Data validation passed successfully";
                 "Consider periodic validation checks" ]
       | _ => [ "Fix validation errors to improve data quality";
                "Consider adding optional fields for better usability" ]
       end) in
  (result, (job_id, result) :: jobs).

End Service.

(* ================================================================== *)
(** * Definitions used to state the properties *)
(* ================================================================== *)

(** Modelled from the spec: the repository has a writer for simple
    elements ([escape]) but no reader.  The inverse operation is taken
    from the specification's words, "parsing with the same separator
    set and un-escaping": a reader cuts the text at every separator
    that is not released, and un-escaping removes each release
    character and keeps the character that follows it (so a doubled
    release character collapses to one). *)
Module Reader.

Definition is_separator (s : Sep.t) (c : ascii) : bool :=
  Ascii.eqb c (Sep.seg s) || Ascii.eqb c (Sep.elem s) || Ascii.eqb c (Sep.comp s).

(** What the four replacements of [escape] make of one character,
    when the separators are distinct. *)
Definition escape_char (s : Sep.t) (c : ascii) : string :=
  if Ascii.eqb c (Sep.rel s) then Edifact.pair_str (Sep.rel s) (Sep.rel s)
  else if is_separator s c then Edifact.pair_str (Sep.rel s) c
  else Str.singleton c.

Definition push (c : ascii) (tokens : list string) : list string :=
  match tokens with
  | [] => [Str.singleton c]
  | t :: ts => String c t :: ts
  end.

(** The raw tokens of a text: a released character never ends a
    token. *)
Fixpoint tokens (s : Sep.t) (text : string) : list string :=
  match text with
  | EmptyString => [EmptyString]
  | String c rest =>
      if Ascii.eqb c (Sep.rel s) then
        match rest with
        | EmptyString => [Str.singleton c]
        | String d rest' => push c (push d (tokens s rest'))
        end
      else if is_separator s c then EmptyString :: tokens s rest
      else push c (tokens s rest)
  end.

Fixpoint unescape (s : Sep.t) (raw : string) : string :=
  match raw with
  | EmptyString => EmptyString
  | String c rest =>
      if Ascii.eqb c (Sep.rel s) then
        match rest with
        | EmptyString => EmptyString
        | String d rest' => String d (unescape s rest')
        end
      else String c (unescape s rest)
  end.

(** Parsing and un-escaping: the values a text holds. *)
Definition parse (s : Sep.t) (text : string) : list string :=
  List.map (unescape s) (tokens s text).

(** The five separators are pairwise distinct. *)
Definition distinct (s : Sep.t) : Prop :=
  NoDup [Sep.comp s; Sep.elem s; Sep.dec s; Sep.rel s; Sep.seg s].

(** The text holds one of the four characters [escape] rewrites. *)
Definition has_special (s : Sep.t) (text : string) : bool :=
  Str.contains (Sep.rel s) text || Str.contains (Sep.seg s) text ||
  Str.contains (Sep.elem s) text || Str.contains (Sep.comp s) text.

End Reader.

(** Vocabulary for the statements about the EDIFACT body mappings. *)
Module EdifactSpec.
Import Py PyOps.

(** An upper-case hexadecimal digit. *)
Definition is_upper_hex (c : ascii) : bool :=
  Str.in_range 48 57 c || Str.in_range 65 70 c.

(** A segment carries the tag it starts with. *)
Definition has_tag (tag segment : string) : bool := Str.startswith tag segment.

(** No segment of the list carries the tag. *)
Definition untagged (tag : string) (segments : list string) : Prop :=
  Forall (fun segment => has_tag tag segment = false) segments.

Definition field_of (x : json) (k : string) (default : json) : json :=
  match x with
  | JDict d => dget d k default
  | _ => default
  end.

Definition present (x : json) (k : string) : bool :=
  match x with
  | JDict d => mem k d
  | _ => false
  end.

(** The first of [train_number], [route_short_name], [id] that is
    bound at all; the empty string when none is. *)
Definition first_present (service : json) : json :=
  if present service "train_number" then field_of service "train_number" JNull
  else if present service "route_short_name" then field_of service "route_short_name" JNull
  else field_of service "id" (JStr EmptyString).

(** The first of the three whose value is not empty (is truthy), as
    the sentence about [TDT] has it. *)
Definition first_non_empty (service : json) : json :=
  or_ (field_of service "train_number" JNull)
      (or_ (field_of service "route_short_name" JNull)
           (field_of service "id" (JStr EmptyString))).

End EdifactSpec.

(** Vocabulary for the statements about trips.txt and stop_times.txt. *)
Module GtfsSpec.
Import Py PyOps.

Definition count_items (v : json) : nat :=
  match iter v with
  | Ok l => List.length l
  | Raise _ => 0
  end.

(** What the two generators read of a service: its route id, how many
    variants it has and how many calls. *)
Record view : Type := mkview {
  route : json;
  variants : nat;
  calls : nat
}.

Definition view_of (service : json) : view :=
  mkview (EdifactSpec.field_of service "id" Gtfs.blank)
         (count_items (EdifactSpec.field_of service "variants" (JList [])))
         (count_items (EdifactSpec.field_of service "calls" (JList []))).

(** N, the number of variants of all services. *)
Definition total_variants (views : list view) : nat :=
  List.fold_right (fun v n => variants v + n) 0 views.

(** The trips in document order, numbered by one counter that starts
    after [counter]: the identifier of each trip and the number of
    calls of its service. *)
Fixpoint expected_trips (counter : nat) (views : list view) : list (string * nat) :=
  match views with
  | [] => []
  | v :: rest =>
      List.map (fun j => (Gtfs.trip_id (route v) (counter + j), calls v))
               (List.seq 1 (variants v))
        ++ expected_trips (counter + variants v) rest
  end.

Definition column (i : nat) (rows : list Csv.row) : list json :=
  List.map (fun r => List.nth i r JNull) rows.

Fixpoint file (name : string) (files : list (string * string)) : option string :=
  match files with
  | [] => None
  | (n, content) :: rest => if String.eqb name n then Some content else file name rest
  end.

End GtfsSpec.

(** Sample documents, used to run the functions. *)
Module Samples.
Import Py.

Definition agency : json :=
  JDict [("id", JStr "A1"); ("name", JStr "Test Rail")].

(** One agency and one service without variants or calls. *)
Definition skdupd_minimal : dict :=
  [ ("agencies", JList [agency]);
    ("services",
     JList [JDict [("id", JStr "S1"); ("agency_id", JStr "A1");
                   ("route_short_name", JStr "101")]]) ].

Definition weekdays_calendar : json :=
  JDict [("monday", JBool true); ("tuesday", JBool true); ("wednesday", JBool true);
         ("thursday", JBool true); ("friday", JBool true);
         ("start_date", JStr "20240101"); ("end_date", JStr "20240630")].

Definition weekend_calendar : json :=
  JDict [("saturday", JBool true); ("sunday", JBool true)].

(** Two stations, and two services with three variants between them. *)
Definition feed : dict :=
  [ ("publisher",
     JDict [("name", JStr "Acme"); ("url", JStr "https://acme.example")]);
    ("agencies", JList [agency]);
    ("stations",
     JList [JDict [("id", JStr "ST1"); ("name", JStr "Bratislava hl.st.");
                   ("lat", JInt 48); ("lon", JInt 17)];
            JDict [("id", JStr "ST2"); ("name", JStr "Kuty")]]);
    ("services",
     JList [JDict [("id", JStr "R1"); ("agency_id", JStr "A1");
                   ("route_short_name", JStr "101");
                   ("variants",
                    JList [JDict [("id", JStr "WD"); ("calendar", weekdays_calendar)];
                           JDict [("id", JStr "WE"); ("calendar", weekend_calendar)]]);
                   ("calls",
                    JList [JDict [("station_id", JStr "ST1");
                                  ("departure_time", JStr "08:00")];
                           JDict [("station_id", JStr "ST2");
                                  ("arrival_time", JStr "09:15:30");
                                  ("day_offset", JInt 1)]])];
            JDict [("id", JStr "R2"); ("agency_id", JStr "A1");
                   ("train_number", JStr "EC 270");
                   ("variants", JList [JDict [("id", JStr "WD")]]);
                   ("calls", JList [JDict [("station_id", JStr "ST2")]])]]) ].

(** A service whose train number is bound to the empty string. *)
Definition unnumbered_service : json :=
  JDict [("id", JStr "S1"); ("agency_id", JStr "A1");
         ("train_number", JStr EmptyString); ("route_short_name", JStr "101")].

End Samples.

(* ================================================================== *)
(** * [main.py]: the EDIFACT conversion handlers and the job lookup *)
(* ================================================================== *)

Module Api.
Import Py PyOps.
Local Open Scope py_scope.

(** [OutputFormat] *)
Inductive OutputFormat : Type :=
| EDIFACT_SKDUPD | EDIFACT_TSDUPD | GTFS_STATIC | GTFS_REALTIME.

Definition format_value (f : OutputFormat) : string :=
  match f with
  | EDIFACT_SKDUPD => "edifact-skdupd"
  | EDIFACT_TSDUPD => "edifact-tsdupd"
  | GTFS_STATIC => "gtfs"
  | GTFS_REALTIME => "gtfs-realtime"
  end.

(** [ConversionRequest] *)
Record ConversionRequest : Type := mkRequest {
  input_data : dict;
  output_format : OutputFormat;
  options : dict;
  tenant_id : option string
}.

(** What may be raised inside the [try] block of a handler: an
    [HTTPException] of the handler itself, or an exception of the
    writer. *)
Inductive fault : Type :=
| HTTPException (status_code : Z) (detail : string)
| Exception (e : exn).

(** What the client receives: the result, or an error status.  The
    detail text of a converted failure is the handler's prefix followed
    by [str(e)]; it is kept as the prefix and the exception [e]. *)
Inductive response : Type :=
| Success (body : json)
| Failure (status_code : Z) (prefix : string) (cause : option fault).

(** The process-wide [job_storage] dictionary: each job id is bound to
    the [dict()] of the result stored for it. *)
Definition job_storage : Type := list (string * json).

(** What the clock gives a handler: the job identifier
    [{prefix}_{seconds}_{8 hex}], the processing time in milliseconds
    and the ISO timestamp. *)
Record clock : Type := mkclock {
  job_id : string;
  processing_time : Z;
  timestamp : string
}.

(** [text.count("'")] *)
Fixpoint count_char (c : ascii) (text : string) : nat :=
  match text with
  | EmptyString => 0
  | String x rest => (if Ascii.eqb x c then 1 else 0) + count_char c rest
  end.

(** The writers take [una] as a string; the handlers pass whatever the
    options hold.  On a value that is not a string the UNA check of the
    writers either raises on [len], reports the value as invalid, or
    raises on [startswith]. *)
Definition una_argument (una : json) : result string :=
  match una with
  | JStr u => Ok u
  | _ =>
      n <- len una ;;
      if negb (n =? 9)%nat
      then raise (ValueError ("Invalid UNA string: " ++ str una))
      else raise (AttributeError "object has no attribute 'startswith'")
  end.

(** [ConversionResult(...).dict()] for an EDIFACT conversion. *)
Definition edifact_result (c : clock) (request : ConversionRequest)
    (type : string) (records : nat) (edifact_content : string) : json :=
  let segments := JInt (Z.of_nat (count_char "'" edifact_content)) in
  JDict
    [ ("job_id", JStr (job_id c));
      ("input_format", JStr "json");
      ("output_format", JStr (format_value (output_format request)));
      ("status", JStr "completed");
      ("progress", JInt 100);
      ("results",
       JDict [ ("original_records", JInt (Z.of_nat records));
               ("converted_records", JInt (Z.of_nat records));
               ("validation_errors", JInt 0);
               ("warnings", JInt 0);
               ("edifact_length", JInt (Z.of_nat (String.length edifact_content)));
               ("edifact_segments", segments) ]);
      ("output",
       JDict [ ("type", JStr type);
               ("content", JStr edifact_content);
               ("encoding", JStr "UTF-8");
               ("segments", segments) ]);
      ("download_url", JNull);
      ("metadata",
       JDict [ ("processing_time", JInt (processing_time c));
               ("conversion_engine", JStr "TSI-Converter-v1.0");
               ("timestamp", JStr (timestamp c)) ]) ].

(** The [try] block of [convert_to_skdupd]. *)
Definition skdupd_body (request : ConversionRequest) (c : clock) : fault + json :=
  if negb (mem "agencies" (input_data request)) || negb (mem "services" (input_data request))
  then inl (HTTPException 400
              "Missing required 'agencies' or 'services' data for SKDUPD conversion")
  else
    let version := dget (options request) "version" (JStr "CURRENT") in
    let una := dget (options request) "una" (JStr "UNA:+.? '") in
    match
      (u <- una_argument una ;;
       edifact_content <- Edifact.write_skdupd (input_data request) (str version) u ;;
       agencies_count <- len (dget (input_data request) "agencies" (JList [])) ;;
       services_count <- len (dget (input_data request) "services" (JList [])) ;;
       Ok (edifact_result c request "EDIFACT_SKDUPD" (agencies_count + services_count)
             edifact_content))
    with
    | Ok result => inr result
    | Raise e => inl (Exception e)
    end.

(** The [try] block of [convert_to_tsdupd]. *)
Definition tsdupd_body (request : ConversionRequest) (c : clock) : fault + json :=
  if negb (mem "stations" (input_data request))
  then inl (HTTPException 400 "Missing required 'stations' data for TSDUPD conversion")
  else
    let version := dget (options request) "version" (JStr "CURRENT") in
    let una := dget (options request) "una" (JStr "UNA:+.? '") in
    match
      (u <- una_argument una ;;
       edifact_content <- Edifact.write_tsdupd (input_data request) (str version) u ;;
       stations_count <- len (dget (input_data request) "stations" (JList [])) ;;
       Ok (edifact_result c request "EDIFACT_TSDUPD" stations_count edifact_content))
    with
    | Ok result => inr result
    | Raise e => inl (Exception e)
    end.

(** [try: ... except Exception as e: raise HTTPException(500, ...)]
    around a body that stores its result: every fault of the body,
    its own [HTTPException] included, leaves as status 500. *)
Definition handle (prefix : string) (body : fault + json) (c : clock)
    (jobs : job_storage) : response * job_storage :=
  match body with
  | inr result => (Success result, (job_id c, result) :: jobs)
  | inl e => (Failure 500 prefix (Some e), jobs)
  end.

(** [convert_to_skdupd(request, ...)] *)
Definition convert_to_skdupd (request : ConversionRequest) (c : clock)
    (jobs : job_storage) : response * job_storage :=
  handle "SKDUPD conversion failed: " (skdupd_body request c) c jobs.

(** [convert_to_tsdupd(request, ...)] *)
Definition convert_to_tsdupd (request : ConversionRequest) (c : clock)
    (jobs : job_storage) : response * job_storage :=
  handle "TSDUPD conversion failed: " (tsdupd_body request c) c jobs.

(** [job_storage[job_id]] *)
Fixpoint find_job (id : string) (jobs : job_storage) : option json :=
  match jobs with
  | [] => None
  | (k, job_data) :: rest => if String.eqb id k then Some job_data else find_job id rest
  end.

(** [StatusResponse(...)] as [get_job_status] fills it. *)
Definition status_of (id : string) (job_data : json) : result json :=
  let job_type := if Str.startswith "val_" id then "validation" else "conversion" in
  status <- get job_data "status" (JStr "unknown") ;;
  progress <- get job_data "progress" (JInt 0) ;;
  status' <- get job_data "status" JNull ;;
  let current_step := if eqb status' (JStr "completed") then "Completed" else "Processing" in
  metadata <- get job_data "metadata" (JDict []) ;;
  duration <- get metadata "processing_time" (JInt 0) ;;
  results <- get job_data "results" (JDict []) ;;
  records <- get results "original_records" (JInt 0) ;;
  results <- get job_data "results" (JDict []) ;;
  errors <- get results "validation_errors" (JInt 0) ;;
  results <- get job_data "results" (JDict []) ;;
  warnings <- get results "warnings" (JInt 0) ;;
  metadata <- get job_data "metadata" (JDict []) ;;
  started <- get metadata "timestamp" (JStr EmptyString) ;;
  metadata <- get job_data "metadata" (JDict []) ;;
  completed <- get metadata "timestamp" (JStr EmptyString) ;;
  Ok (JDict
        [ ("job_id", JStr id);
          ("type", JStr job_type);
          ("status", status);
          ("progress", progress);
          ("estimated_time_remaining", JNull);
          ("current_step", JStr current_step);
          ("steps",
           JList [ JDict [("name", JStr "parsing"); ("status", JStr "completed");
                          ("duration", JInt 100)];
                   JDict [("name", JStr "processing"); ("status", JStr "completed");
                          ("duration", duration)];
                   JDict [("name", JStr "completion"); ("status", JStr "completed");
                          ("duration", JInt 50)] ]);
          ("metrics",
           JDict [ ("records_processed", records);
                   ("errors_found", errors);
                   ("warnings_found", warnings) ]);
          ("timestamps",
           JDict [ ("started", started); ("completed", completed) ]) ]).

(** [get_job_status(job_id)]: an unknown identifier is answered with
    404; an exception while the response is built would reach the
    global handler, which answers 500. *)
Definition get_job_status (id : string) (jobs : job_storage) : response :=
  match find_job id jobs with
  | None => Failure 404 ("Job " ++ id ++ " not found") None
  | Some job_data =>
      match status_of id job_data with
      | Ok body => Success body
      | Raise e => Failure 500 "Internal server error: " (Some (Exception e))
      end
  end.

End Api.

(** Further vocabulary for statements about the writers. *)
Module More.
Import Py PyOps.

(** How many characters of a text [escape] rewrites. *)
Fixpoint special_count (s : Sep.t) (text : string) : nat :=
  match text with
  | EmptyString => 0
  | String c rest =>
      (if Ascii.eqb c (Sep.rel s) || Reader.is_separator s c then 1 else 0)
      + special_count s rest
  end.

(** An element that [seg] escapes: anything but a list. *)
Definition simple (element : json) : bool :=
  match element with
  | JList _ => false
  | _ => true
  end.

(** The station gets a [GIS] segment: latitude and longitude are both
    truthy. *)
Definition has_coordinates (station : json) : bool :=
  truthy (EdifactSpec.field_of station "lat" (JStr EmptyString)) &&
  truthy (EdifactSpec.field_of station "lon" (JStr EmptyString)).

(** The carriers that get a [NAD] segment, in the order of the
    services: a carrier id counts when it is truthy and equal to none
    of those seen before. *)
Fixpoint new_carriers (used : pyset) (ids : list json) : list json :=
  match ids with
  | [] => []
  | c :: rest =>
      if truthy c && negb (List.existsb (fun y => eqb y c) used)
      then c :: new_carriers (c :: used) rest
      else new_carriers used rest
  end.

(** The name the agencies give a carrier, empty when there is none. *)
Definition carrier_name (agencies carrier_uic : json) : json :=
  match iter agencies with
  | Ok agency_list =>
      match Edifact.find_carrier_name carrier_uic agency_list with
      | Ok name => name
      | Raise _ => JStr EmptyString
      end
  | Raise _ => JStr EmptyString
  end.

(** Reading a decimal integer, the inverse of [str] on [int]. *)
Definition read_int (text : string) : option Z :=
  option_map Z.of_int (NilEmpty.int_of_string text).

(** No element of the list is equal, for Python, to one before it. *)
Fixpoint all_fresh (used : pyset) (ids : list json) : Prop :=
  match ids with
  | [] => True
  | c :: rest =>
      List.existsb (fun y => eqb y c) used = false /\ all_fresh (c :: used) rest
  end.

End More.

(** Further vocabulary for statements about the GTFS files. *)
Module MoreGtfs.
Import Py PyOps.

(** The number of rows of stop_times.txt: for every service, its
    variants times its calls. *)
Definition total_stop_times (views : list GtfsSpec.view) : nat :=
  List.fold_right (fun v n => GtfsSpec.variants v * GtfsSpec.calls v + n) 0 views.

Definition ids (records : list json) : list json :=
  List.map (fun r => EdifactSpec.field_of r "id" Gtfs.blank) records.



End MoreGtfs.

(** Reading a field of a nested result. *)
Module MoreApi.
Import Py PyOps.

(** [d[k1][k2]], [JNull] when a key is missing. *)
Definition field2 (d : json) (k1 k2 : string) : json :=
  EdifactSpec.field_of (EdifactSpec.field_of d k1 JNull) k2 JNull.

Definition is_success (r : Api.response) : bool :=
  match r with Api.Success _ => true | Api.Failure _ _ _ => false end.

Definition status_code (r : Api.response) : Z :=
  match r with Api.Success _ => 200 | Api.Failure code _ _ => code end.

End MoreApi.

(* ================================================================== *)
(** * The error monad *)
(* ================================================================== *)

Section MonadFacts.
Import Py PyOps.
Local Open Scope py_scope.

Lemma bind_ok {A B} (m : result A) (k : A -> result B) (b : B) :
  bind m k = Ok b -> exists a, m = Ok a /\ k a = Ok b.
Proof. destruct m as [a|e]; simpl; [eauto | discriminate]. Qed.

Lemma for_each_ok_cons {A B} (f : A -> result B) (x : A) (l : list A) (ys : list B) :
  for_each f (x :: l) = Ok ys ->
  exists y ys', f x = Ok y /\ for_each f l = Ok ys' /\ ys = y :: ys'.
Proof.
  simpl. intros H.
  apply bind_ok in H as (y & Hy & H).
  apply bind_ok in H as (ys' & Hys & H).
  injection H as <-. eauto.
Qed.

Lemma for_each_length {A B} (f : A -> result B) (l : list A) (ys : list B) :
  for_each f l = Ok ys -> List.length ys = List.length l.
Proof.
  revert ys; induction l as [|x l IH]; intros ys H.
  - injection H as <-. reflexivity.
  - apply for_each_ok_cons in H as (y & ys' & _ & H & ->).
    simpl. f_equal. now apply IH.
Qed.

Lemma for_each_Forall {A B} (f : A -> result B) (P : B -> Prop) (l : list A)
    (ys : list B) :
  (forall x y, f x = Ok y -> P y) ->
  for_each f l = Ok ys -> Forall P ys.
Proof.
  intros Hf. revert ys; induction l as [|x l IH]; intros ys H.
  - injection H as <-. constructor.
  - apply for_each_ok_cons in H as (y & ys' & Hy & H & ->).
    constructor; eauto.
Qed.

End MonadFacts.

Ltac inv_bind H :=
  let a := fresh "a" in
  let Ha := fresh "H" a in
  apply bind_ok in H; destruct H as (a & Ha & H).

(* ================================================================== *)
(** * Where Invalid-Input can come from *)
(* ================================================================== *)

(** Only the explicit [raise ValueError] statements of the writers
    produce the Invalid-Input fault: no primitive applied to the
    document does, and so no function built from them. *)
Section InvalidInput.
Import Py PyOps.
Local Open Scope py_scope.

Lemma invalid_bind {A B} (m : result A) (k : A -> result B) :
  invalid_input m = false ->
  (forall a, m = Ok a -> invalid_input (k a) = false) ->
  invalid_input (bind m k) = false.
Proof. destruct m as [a|e]; simpl; auto. Qed.

Lemma invalid_for_each {A B} (f : A -> result B) (l : list A) :
  (forall x, invalid_input (f x) = false) ->
  invalid_input (for_each f l) = false.
Proof.
  intros Hf. induction l as [|x l IH]; [reflexivity|].
  simpl. apply invalid_bind; [apply Hf|]. intros y _.
  apply invalid_bind; [apply IH|]. reflexivity.
Qed.

Lemma invalid_raise_neq {A} (m : result A) (msg : string) :
  invalid_input m = false -> m <> Raise (ValueError msg).
Proof. intros H E. rewrite E in H. discriminate. Qed.

Lemma invalid_get x k d : invalid_input (get x k d) = false.
Proof. destruct x; reflexivity. Qed.

Lemma invalid_getitem x k : invalid_input (getitem x k) = false.
Proof. destruct x; try reflexivity. simpl. destruct (lookup k d); reflexivity. Qed.

Lemma invalid_iter v : invalid_input (iter v) = false.
Proof. destruct v; reflexivity. Qed.

Lemma invalid_set_mem x s : invalid_input (set_mem x s) = false.
Proof. unfold set_mem. destruct (hashable x); reflexivity. Qed.

Lemma invalid_gt_zero v : invalid_input (gt_zero v) = false.
Proof. destruct v; reflexivity. Qed.

Lemma invalid_len v : invalid_input (len v) = false.
Proof. destruct v; reflexivity. Qed.

Lemma invalid_slice_to n v : invalid_input (slice_to n v) = false.
Proof. destruct v; reflexivity. Qed.

End InvalidInput.

Create HintDb quiet.
#[export] Hint Resolve invalid_get invalid_getitem invalid_iter invalid_set_mem
  invalid_gt_zero invalid_len invalid_slice_to : quiet.

(** Walks through a monadic body: every bind, branch and loop. *)
Ltac quiet :=
  repeat (cbv zeta;
          match goal with
          | |- Py.invalid_input (Py.Ok _) = false => reflexivity
          | |- Py.invalid_input (Py.Raise (Py.AttributeError _)) = false => reflexivity
          | |- Py.invalid_input (Py.Raise (Py.TypeError _)) = false => reflexivity
          | |- Py.invalid_input (Py.bind _ _) = false =>
              apply invalid_bind; [| intros ? _]
          | |- Py.invalid_input (PyOps.for_each _ _) = false =>
              apply invalid_for_each; intros ?
          | |- Py.invalid_input (if ?b then _ else _) = false => destruct b
          | |- Py.invalid_input (match ?x with _ => _ end) = false => destruct x
          | |- _ => solve [auto with quiet]
          end).

Section QuietEdifact.
Import Py PyOps Edifact.

Lemma quiet_generate_deterministic_ref publisher version :
  invalid_input (generate_deterministic_ref publisher version) = false.
Proof. unfold generate_deterministic_ref. quiet. Qed.

Lemma quiet_tsdupd_station s station :
  invalid_input (tsdupd_station s station) = false.
Proof. unfold tsdupd_station. quiet. Qed.

Lemma quiet_map_tsdupd_segments stations s :
  invalid_input (map_tsdupd_segments stations s) = false.
Proof.
  unfold map_tsdupd_segments. quiet. apply quiet_tsdupd_station.
Qed.

Lemma quiet_format_time time_str :
  invalid_input (_format_time_for_dtm time_str) = false.
Proof. unfold _format_time_for_dtm. quiet. Qed.

Lemma quiet_is_date8 d : invalid_input (is_date8 d) = false.
Proof. unfold is_date8. quiet. Qed.

Lemma quiet_find_carrier_name carrier_uic agencies :
  invalid_input (find_carrier_name carrier_uic agencies) = false.
Proof.
  induction agencies as [|agency rest IH]; [reflexivity|].
  simpl. quiet.
Qed.

Lemma quiet_date_segment q d s : invalid_input (date_segment q d s) = false.
Proof. unfold date_segment. quiet. apply quiet_is_date8. Qed.

Lemma quiet_time_segment q t s : invalid_input (time_segment q t s) = false.
Proof. unfold time_segment. quiet. apply quiet_format_time. Qed.

#[local] Hint Resolve quiet_date_segment quiet_time_segment quiet_find_carrier_name
  quiet_generate_deterministic_ref quiet_map_tsdupd_segments : quiet.

Lemma quiet_skdupd_variant s variant :
  invalid_input (skdupd_variant s variant) = false.
Proof. unfold skdupd_variant. quiet. Qed.

Lemma quiet_skdupd_call s call : invalid_input (skdupd_call s call) = false.
Proof. unfold skdupd_call. quiet. Qed.

Lemma quiet_skdupd_carrier agencies s used carrier_uic :
  invalid_input (skdupd_carrier agencies s used carrier_uic) = false.
Proof. unfold skdupd_carrier. quiet. Qed.

Lemma quiet_skdupd_tdt s service : invalid_input (skdupd_tdt s service) = false.
Proof. unfold skdupd_tdt. quiet. Qed.

#[local] Hint Resolve quiet_skdupd_variant quiet_skdupd_call quiet_skdupd_carrier
  quiet_skdupd_tdt : quiet.

Lemma quiet_skdupd_service agencies s used service :
  invalid_input (skdupd_service agencies s used service) = false.
Proof. unfold skdupd_service. quiet. Qed.

Lemma quiet_skdupd_services agencies s services :
  forall used, invalid_input (skdupd_services agencies s used services) = false.
Proof.
  induction services as [|service rest IH]; intros used; [reflexivity|].
  simpl. quiet. apply quiet_skdupd_service.
Qed.

Lemma quiet_map_skdupd_segments agencies services s :
  invalid_input (map_skdupd_segments agencies services s) = false.
Proof.
  unfold map_skdupd_segments. quiet. apply quiet_skdupd_services.
Qed.

Lemma quiet_interchange mt json_data version una s body :
  invalid_input body = false ->
  invalid_input (interchange mt json_data version una s body) = false.
Proof. intros Hb. unfold interchange. quiet. Qed.

End QuietEdifact.

(* ================================================================== *)
(** * Escaping and reading back *)
(* ================================================================== *)

Section EscapeRoundTrip.
Import Py PyOps.

Variable s : Sep.t.

Hypothesis rel_seg : Sep.rel s <> Sep.seg s.
Hypothesis rel_elem : Sep.rel s <> Sep.elem s.
Hypothesis rel_comp : Sep.rel s <> Sep.comp s.
Hypothesis seg_elem : Sep.seg s <> Sep.elem s.
Hypothesis seg_comp : Sep.seg s <> Sep.comp s.
Hypothesis elem_comp : Sep.elem s <> Sep.comp s.

Ltac eqb_cases :=
  repeat match goal with
         | |- context [Ascii.eqb ?a ?b] =>
             destruct (Ascii.eqb_spec a b); subst; simpl; try congruence
         end;
  try reflexivity.

(** The four replacements of [escape] act character by character. *)
Lemma escape_cons (c : ascii) (text : string) :
  Edifact.escape (JStr (String c text)) s
  = (Reader.escape_char s c ++ Edifact.escape (JStr text) s)%string.
Proof.
  unfold Edifact.escape, Reader.escape_char, Reader.is_separator, Edifact.pair_str,
    Str.singleton; simpl str; simpl Str.replace.
  destruct (Ascii.eqb_spec c (Sep.rel s)) as [->|Hrel]; simpl.
  - eqb_cases.
  - destruct (Ascii.eqb_spec c (Sep.seg s)) as [->|Hseg]; simpl; [eqb_cases|].
    destruct (Ascii.eqb_spec c (Sep.elem s)) as [->|Helem]; simpl; [eqb_cases|].
    destruct (Ascii.eqb_spec c (Sep.comp s)) as [->|Hcomp]; simpl; eqb_cases.
Qed.

Lemma escape_nil : Edifact.escape (JStr EmptyString) s = EmptyString.
Proof. reflexivity. Qed.

(** An escaped text is one token for the reader. *)
Lemma tokens_escape (text : string) :
  Reader.tokens s (Edifact.escape (JStr text) s) = [Edifact.escape (JStr text) s].
Proof.
  induction text as [|c text IH]; [reflexivity|].
  rewrite escape_cons. unfold Reader.escape_char, Edifact.pair_str, Str.singleton.
  destruct (Ascii.eqb_spec c (Sep.rel s)) as [->|Hrel]; simpl.
  - rewrite Ascii.eqb_refl, IH. reflexivity.
  - destruct (Reader.is_separator s c) eqn:Hsep; simpl.
    + rewrite Ascii.eqb_refl, IH. reflexivity.
    + apply Ascii.eqb_neq in Hrel. rewrite Hrel, Hsep, IH. reflexivity.
Qed.

(** Un-escaping undoes [escape]. *)
Lemma unescape_escape (text : string) :
  Reader.unescape s (Edifact.escape (JStr text) s) = text.
Proof.
  induction text as [|c text IH]; [reflexivity|].
  rewrite escape_cons. unfold Reader.escape_char, Edifact.pair_str, Str.singleton.
  destruct (Ascii.eqb_spec c (Sep.rel s)) as [->|Hrel]; simpl.
  - rewrite Ascii.eqb_refl, IH. reflexivity.
  - destruct (Reader.is_separator s c) eqn:Hsep; simpl.
    + rewrite Ascii.eqb_refl, IH. reflexivity.
    + apply Ascii.eqb_neq in Hrel. rewrite Hrel, IH. reflexivity.
Qed.

Lemma parse_escape (text : string) :
  Reader.parse s (Edifact.escape (JStr text) s) = [text].
Proof.
  unfold Reader.parse. rewrite tokens_escape. simpl.
  now rewrite unescape_escape.
Qed.

End EscapeRoundTrip.

Lemma distinct_default : Reader.distinct Sep.default.
Proof.
  unfold Reader.distinct; simpl.
  repeat constructor; simpl; intuition discriminate.
Qed.

(** C1. For every separator set of five distinct characters and every
    text that holds the release character, the segment terminator, the
    element separator or the component separator, escaping the text and
    then parsing the result with the same separators and un-escaping
    gives back exactly the original text, as one value. *)
Theorem escape_parse_roundtrip (s : Sep.t) (text : string) :
  Reader.distinct s ->
  Reader.has_special s text = true ->
  Reader.parse s (Edifact.escape (Py.JStr text) s) = [text].
Proof.
  intros Hd _. unfold Reader.distinct in Hd.
  inversion Hd as [|? ? Hc Hd1]; subst.
  inversion Hd1 as [|? ? He Hd2]; subst.
  inversion Hd2 as [|? ? Hdec Hd3]; subst.
  inversion Hd3 as [|? ? Hr Hd4]; subst.
  simpl in Hc, He, Hr.
  apply parse_escape; intro E; rewrite ?E in *; intuition congruence.
Qed.

Lemma escape_parse_roundtrip_witness :
  Reader.distinct Sep.default /\
  Reader.has_special Sep.default "Bratislava+Petrzalka: 'hl.st.'?" = true /\
  Reader.parse Sep.default
    (Edifact.escape (Py.JStr "Bratislava+Petrzalka: 'hl.st.'?") Sep.default)
  = ["Bratislava+Petrzalka: 'hl.st.'?"].
Proof.
  split; [exact distinct_default|].
  split; [reflexivity|].
  apply escape_parse_roundtrip; [exact distinct_default | reflexivity].
Defined.

Example escape_default :
  Edifact.escape (Py.JStr "a+b:c?d'e") Sep.default = "a?+b?:c??d?'e".
Proof. reflexivity. Qed.

(* ================================================================== *)
(** * The deterministic reference *)
(* ================================================================== *)

Section DeterministicRef.
Import Py PyOps.

Lemma upper_hex_digit (n : N) :
  EdifactSpec.is_upper_hex (Str.upper_char (Str.hex_digit n)) = true.
Proof.
  destruct n as [|p]; [reflexivity|].
  do 4 (try destruct p as [p|p|]); reflexivity.
Qed.

(** The first twelve digits of a digest, upper-cased: twelve
    characters, each an upper-case hexadecimal digit. *)
Lemma ref_shape (msg : list N) :
  let ref := Str.upper (Str.take 12 (Sha1.hexdigest msg)) in
  String.length ref = 12 /\ Str.forallb EdifactSpec.is_upper_hex ref = true.
Proof.
  unfold Sha1.hexdigest. generalize (Sha1.digest msg); intros st.
  unfold Sha1.hex8; cbn [Str.take String.append Str.upper Str.map].
  split; [reflexivity|].
  cbn [Str.forallb]. rewrite !upper_hex_digit. reflexivity.
Qed.

End DeterministicRef.

(** C3. For every publisher mapping and version string,
    [generate_deterministic_ref] returns the first 12 hexadecimal
    characters, upper-cased, of the SHA-1 digest of the UTF-8 bytes of
    "{name}-{url}-{version}", with name and url empty when absent: a
    string of 12 upper-case hexadecimal digits.  Hence two publishers
    with the same name and url give, for the same version, the same
    reference. *)
Theorem generate_deterministic_ref_spec (publisher publisher' : Py.dict)
    (version : string) :
  PyOps.dget publisher "name" (Py.JStr EmptyString)
    = PyOps.dget publisher' "name" (Py.JStr EmptyString) ->
  PyOps.dget publisher "url" (Py.JStr EmptyString)
    = PyOps.dget publisher' "url" (Py.JStr EmptyString) ->
  let name := PyOps.dget publisher "name" (Py.JStr EmptyString) in
  let url := PyOps.dget publisher "url" (Py.JStr EmptyString) in
  let hash_input := (PyOps.str name ++ "-" ++ PyOps.str url ++ "-" ++ version)%string in
  let ref := Str.upper (Str.take 12 (Sha1.hexdigest (Str.utf8 hash_input))) in
  Edifact.generate_deterministic_ref (Py.JDict publisher) version = Py.Ok ref /\
  Edifact.generate_deterministic_ref (Py.JDict publisher') version = Py.Ok ref /\
  String.length ref = 12 /\
  Str.forallb EdifactSpec.is_upper_hex ref = true.
Proof.
  intros Hname Hurl name url hash_input ref.
  assert (Href : Edifact.generate_deterministic_ref (Py.JDict publisher) version
                 = Py.Ok ref).
  { cbv beta iota zeta delta [Edifact.generate_deterministic_ref PyOps.get Py.bind].
    reflexivity. }
  split; [exact Href|].
  split.
  - revert Href.
    cbv beta iota zeta delta [Edifact.generate_deterministic_ref PyOps.get Py.bind].
    rewrite <- Hname, <- Hurl. exact (fun H => H).
  - apply ref_shape.
Qed.

Lemma generate_deterministic_ref_spec_witness :
  Edifact.generate_deterministic_ref
    (Py.JDict [("name", Py.JStr "Acme"); ("url", Py.JStr "https://acme.example")])
    "CURRENT" = Py.Ok "584CEB265A8F" /\
  Edifact.generate_deterministic_ref
    (Py.JDict [("url", Py.JStr "https://acme.example"); ("name", Py.JStr "Acme");
               ("email", Py.JStr "ops@acme.example")])
    "CURRENT" = Py.Ok "584CEB265A8F".
Proof.
  pose proof (generate_deterministic_ref_spec
                [("name", Py.JStr "Acme"); ("url", Py.JStr "https://acme.example")]
                [("url", Py.JStr "https://acme.example"); ("name", Py.JStr "Acme");
                 ("email", Py.JStr "ops@acme.example")]
                "CURRENT" eq_refl eq_refl) as H.
  cbv zeta in H. destruct H as (H1 & H2 & _).
  split; [etransitivity; [exact H1|] | etransitivity; [exact H2|]];
    vm_compute; reflexivity.
Defined.

Example sha1_abc :
  Sha1.hexdigest (Str.utf8 "abc") = "a9993e364706816aba3e25717850c26c9cd0d89d".
Proof. vm_compute. reflexivity. Qed.

Example sha1_two_blocks :
  Sha1.hexdigest
    (Str.utf8 "abcdbcdecdefdefgefghfghighijhijkijkljklmklmnlmnomnopnopq")
  = "84983e441c3bd26ebaae4aa1f95129e5e54670f1".
Proof. vm_compute. reflexivity. Qed.

Example ref_without_publisher :
  Edifact.generate_deterministic_ref (Py.JDict []) "CURRENT"
  = Py.Ok (Str.upper (Str.take 12 (Sha1.hexdigest (Str.utf8 "--CURRENT")))).
Proof. vm_compute. reflexivity. Qed.

(* ================================================================== *)
(** * The UNA string and the layout of an interchange *)
(* ================================================================== *)

Section Writers.
Import Py PyOps Edifact.

Lemma invalid_transfer {A B} (m : result A) (e : exn) :
  m = Raise e -> invalid_input m = false -> invalid_input (@Raise B e) = false.
Proof. intros ->. exact (fun H => H). Qed.

(** [parse_una] rejects exactly the strings that are not nine
    characters long or do not start with UNA. *)
Lemma parse_una_rejects (una : string) :
  String.length una <> 9 \/ Str.startswith "UNA" una = false ->
  parse_una una = Raise (ValueError ("Invalid UNA string: " ++ una)).
Proof.
  intros H. unfold parse_una.
  destruct (Nat.eqb_spec (String.length una) 9) as [E|E]; simpl; [|reflexivity].
  destruct H as [H|H]; [contradiction|]. rewrite H. reflexivity.
Qed.

Lemma parse_una_accepts (una : string) :
  String.length una = 9 -> Str.startswith "UNA" una = true ->
  exists s, parse_una una = Ok s /\
    String.get 3 una = Some (Sep.comp s) /\
    String.get 4 una = Some (Sep.elem s) /\
    String.get 5 una = Some (Sep.dec s) /\
    String.get 6 una = Some (Sep.rel s) /\
    String.get 8 una = Some (Sep.seg s).
Proof.
  intros Hlen Hpre. unfold parse_una. rewrite Hlen, Hpre. simpl.
  do 9 (destruct una as [|? una]; [discriminate|]).
  destruct una; [|discriminate].
  simpl. eexists. split; [reflexivity|]. simpl. repeat split.
Qed.

Lemma accepted_or_rejected (una : string) :
  (String.length una = 9 /\ Str.startswith "UNA" una = true) \/
  (String.length una <> 9 \/ Str.startswith "UNA" una = false).
Proof.
  destruct (Nat.eq_dec (String.length una) 9); [|auto].
  destruct (Str.startswith "UNA" una); auto.
Qed.

Lemma skdupd_after_una json_data version una s :
  parse_una una = Ok s ->
  skdupd_segments json_data version una
  <> Raise (ValueError ("Invalid UNA string: " ++ una)).
Proof.
  intros Hs. unfold skdupd_segments, mem, getitem. rewrite Hs. cbn [bind].
  destruct (lookup "agencies" json_data) as [agencies|]; cbn [negb bind];
    [|discriminate].
  destruct (lookup "services" json_data) as [services|]; cbn [negb bind];
    [|discriminate].
  destruct (truthy agencies); cbn [negb]; [|discriminate].
  destruct (truthy services); cbn [negb]; [|discriminate].
  apply invalid_raise_neq, quiet_interchange, quiet_map_skdupd_segments.
Qed.

Lemma tsdupd_after_una json_data version una s :
  parse_una una = Ok s ->
  tsdupd_segments json_data version una
  <> Raise (ValueError ("Invalid UNA string: " ++ una)).
Proof.
  intros Hs. unfold tsdupd_segments, mem, getitem. rewrite Hs. cbn [bind].
  destruct (lookup "stations" json_data) as [stations|]; cbn [negb bind];
    [|discriminate].
  destruct (truthy stations); cbn [negb]; [|discriminate].
  apply invalid_raise_neq, quiet_interchange, quiet_map_tsdupd_segments.
Qed.

Lemma joined_raise (r : result (list string)) (e : exn) :
  bind r (fun segments => Ok (Str.join EmptyString segments)) = Raise e <-> r = Raise e.
Proof. destruct r; simpl; split; congruence. Qed.

(** The layout [interchange] gives the list of segments. *)
Lemma interchange_layout mt json_data version una s body segments :
  interchange mt json_data version una s body = Ok segments ->
  exists body_segments unb message_ref unz,
    body = Ok body_segments /\
    segments = [una; unb; make_unh (JStr message_ref) (JStr mt) (JStr version) (Some s)]
                 ++ body_segments
                 ++ [make_unt (Z.of_nat (List.length body_segments) + 2)
                       (JStr message_ref) (Some s); unz].
Proof.
  unfold interchange. intros H.
  inv_bind H. inv_bind H. inv_bind H. inv_bind H. inv_bind H.
  injection H as <-.
  do 4 eexists. split; [eassumption | reflexivity].
Qed.

End Writers.

(** C6. Both writers fail with the Invalid-Input error that names the
    UNA string if and only if the string is not exactly 9 characters
    long or does not start with 'UNA'; when the string is accepted, its
    characters at positions 3, 4, 5, 6 and 8 are the component
    separator, element separator, decimal mark, release character and
    segment terminator the writers work with. *)
Theorem una_validation (json_data : Py.dict) (version una : string) :
  let rejected := String.length una <> 9 \/ Str.startswith "UNA" una = false in
  let fault := Py.Raise (Py.ValueError ("Invalid UNA string: " ++ una)) in
  (Edifact.write_skdupd json_data version una = fault <-> rejected) /\
  (Edifact.write_tsdupd json_data version una = fault <-> rejected) /\
  (~ rejected ->
   exists s, Edifact.parse_una una = Py.Ok s /\
     String.get 3 una = Some (Sep.comp s) /\
     String.get 4 una = Some (Sep.elem s) /\
     String.get 5 una = Some (Sep.dec s) /\
     String.get 6 una = Some (Sep.rel s) /\
     String.get 8 una = Some (Sep.seg s)).
Proof.
  intros rejected fault. subst rejected fault.
  destruct (accepted_or_rejected una) as [[Hlen Hpre]|Hbad].
  - destruct (parse_una_accepts una Hlen Hpre) as (s & Hs & Hpos).
    assert (Hgood : ~ (String.length una <> 9 \/ Str.startswith "UNA" una = false)).
    { intros [H|H]; congruence. }
    split; [|split].
    + split; [|tauto]. intros H. exfalso.
      apply joined_raise in H. exact (skdupd_after_una _ _ _ _ Hs H).
    + split; [|tauto]. intros H. exfalso.
      apply joined_raise in H. exact (tsdupd_after_una _ _ _ _ Hs H).
    + intros _. eauto.
  - pose proof (parse_una_rejects una Hbad) as Hrej.
    split; [|split].
    + split; [tauto|]. intros _.
      unfold Edifact.write_skdupd, Edifact.skdupd_segments. rewrite Hrej. reflexivity.
    + split; [tauto|]. intros _.
      unfold Edifact.write_tsdupd, Edifact.tsdupd_segments. rewrite Hrej. reflexivity.
    + tauto.
Qed.

Lemma una_validation_witness :
  Edifact.write_skdupd [] "CURRENT" "UNB:+.? '"
    = Py.Raise (Py.ValueError "Invalid UNA string: UNB:+.? '") /\
  Edifact.write_tsdupd [] "CURRENT" "UNA:+.?'"
    = Py.Raise (Py.ValueError "Invalid UNA string: UNA:+.?'") /\
  exists s, Edifact.parse_una "UNA:+.? '" = Py.Ok s /\
     String.get 3 "UNA:+.? '" = Some (Sep.comp s) /\
     String.get 4 "UNA:+.? '" = Some (Sep.elem s) /\
     String.get 5 "UNA:+.? '" = Some (Sep.dec s) /\
     String.get 6 "UNA:+.? '" = Some (Sep.rel s) /\
     String.get 8 "UNA:+.? '" = Some (Sep.seg s).
Proof.
  split; [|split].
  - apply (una_validation [] "CURRENT" "UNB:+.? '"). right. reflexivity.
  - apply (una_validation [] "CURRENT" "UNA:+.?'"). left. simpl. lia.
  - apply (una_validation [] "CURRENT" "UNA:+.? '").
    intros [H|H]; [apply H; reflexivity | discriminate].
Defined.

Example default_una : Edifact.parse_una "UNA:+.? '" = Py.Ok Sep.default.
Proof. reflexivity. Qed.

(** C2. For every input document accepted by [write_skdupd] or
    [write_tsdupd], the generated message is the UNA string, UNB and
    UNH, then the body segments of the mapping, then a UNT segment
    whose first element is the decimal text of the number of body
    segments plus 2, then UNZ. *)
Theorem unt_counts_body_plus_two (json_data : Py.dict) (version una message : string) :
  Edifact.write_skdupd json_data version una = Py.Ok message \/
  Edifact.write_tsdupd json_data version una = Py.Ok message ->
  exists s unb unh body message_ref unz,
    Edifact.parse_una una = Py.Ok s /\
    EdifactSpec.has_tag "UNH" unh = true /\
    ((exists agencies services,
         PyOps.lookup "agencies" json_data = Some agencies /\
         PyOps.lookup "services" json_data = Some services /\
         Edifact.map_skdupd_segments agencies services s = Py.Ok body) \/
     (exists stations,
         PyOps.lookup "stations" json_data = Some stations /\
         Edifact.map_tsdupd_segments stations s = Py.Ok body)) /\
    message =
      Str.join EmptyString
        ([una; unb; unh] ++ body ++
         [Edifact.seg "UNT"
            [Py.JStr (Str.of_Z (Z.of_nat (List.length body) + 2)); Py.JStr message_ref] s;
          unz]).
Proof.
  intros [H|H].
  - unfold Edifact.write_skdupd in H. inv_bind H. injection H as <-.
    unfold Edifact.skdupd_segments, PyOps.mem, PyOps.getitem in Ha.
    inv_bind Ha. rename a0 into s.
    destruct (PyOps.lookup "agencies" json_data) as [agencies|];
      cbn [negb Py.bind] in Ha; [|discriminate].
    destruct (PyOps.lookup "services" json_data) as [services|];
      cbn [negb Py.bind] in Ha; [|discriminate].
    destruct (PyOps.truthy agencies); cbn [negb] in Ha; [|discriminate].
    destruct (PyOps.truthy services); cbn [negb] in Ha; [|discriminate].
    apply interchange_layout in Ha as (body & unb & ref & unz & Hbody & ->).
    exists s, unb,
      (Edifact.make_unh (Py.JStr ref) (Py.JStr "SKDUPD") (Py.JStr version) (Some s)),
      body, ref, unz.
    split; [assumption|]. split; [reflexivity|]. split; [|reflexivity].
    left. exists agencies, services. auto.
  - unfold Edifact.write_tsdupd in H. inv_bind H. injection H as <-.
    unfold Edifact.tsdupd_segments, PyOps.mem, PyOps.getitem in Ha.
    inv_bind Ha. rename a0 into s.
    destruct (PyOps.lookup "stations" json_data) as [stations|];
      cbn [negb Py.bind] in Ha; [|discriminate].
    destruct (PyOps.truthy stations); cbn [negb] in Ha; [|discriminate].
    apply interchange_layout in Ha as (body & unb & ref & unz & Hbody & ->).
    exists s, unb,
      (Edifact.make_unh (Py.JStr ref) (Py.JStr "TSDUPD") (Py.JStr version) (Some s)),
      body, ref, unz.
    split; [assumption|]. split; [reflexivity|]. split; [|reflexivity].
    right. exists stations. auto.
Qed.

(* ================================================================== *)
(** * The SKDUPD body mapping: one TDT per service *)
(* ================================================================== *)

Section TdtPerService.
Import Py PyOps Edifact EdifactSpec.

Variable s : Sep.t.

Lemma filter_untagged tag segments :
  untagged tag segments -> List.filter (has_tag tag) segments = [].
Proof.
  induction 1 as [|x l Hx _ IH]; simpl; [reflexivity|]. now rewrite Hx.
Qed.

Lemma untagged_app tag l1 l2 :
  untagged tag l1 -> untagged tag l2 -> untagged tag (l1 ++ l2).
Proof. intros; apply Forall_app; auto. Qed.

Lemma untagged_concat tag ls :
  Forall (untagged tag) ls -> untagged tag (List.concat ls).
Proof.
  induction 1; simpl; [constructor | apply untagged_app; assumption].
Qed.

Lemma untagged_if tag (b : bool) l : untagged tag l -> untagged tag (if b then l else []).
Proof. destruct b; [auto | constructor]. Qed.

Ltac other_tag := repeat constructor.

Lemma date_segment_no_tdt q d l :
  date_segment q d s = Ok l -> untagged "TDT" l.
Proof.
  unfold date_segment. destruct (truthy d); [|intros [= <-]; constructor].
  intros H. inv_bind H. destruct a; injection H as <-; other_tag.
Qed.

Lemma time_segment_no_tdt q t l :
  time_segment q t s = Ok l -> untagged "TDT" l.
Proof.
  unfold time_segment. destruct (truthy t); [|intros [= <-]; constructor].
  intros H. inv_bind H. injection H as <-. other_tag.
Qed.

Lemma skdupd_variant_no_tdt variant l :
  skdupd_variant s variant = Ok l -> untagged "TDT" l.
Proof.
  unfold skdupd_variant. intros H. do 8 inv_bind H. injection H as <-.
  repeat apply untagged_app;
    eauto using date_segment_no_tdt, untagged_if;
    apply untagged_if; other_tag.
Qed.

Lemma skdupd_call_no_tdt call l :
  skdupd_call s call = Ok l -> untagged "TDT" l.
Proof.
  unfold skdupd_call. intros H. do 7 inv_bind H. injection H as <-.
  repeat apply untagged_app;
    eauto using time_segment_no_tdt;
    apply untagged_if; other_tag.
Qed.

Lemma skdupd_carrier_no_tdt agencies used carrier_uic r :
  skdupd_carrier agencies s used carrier_uic = Ok r -> untagged "TDT" (snd r).
Proof.
  unfold skdupd_carrier.
  destruct (truthy carrier_uic); [|intros [= <-]; constructor].
  intros H. inv_bind H. destruct a; simpl in H.
  - injection H as <-. constructor.
  - do 2 inv_bind H. injection H as <-. other_tag.
Qed.

(** The nested defaults of the [TDT] element pick the first key that is
    bound. *)
Lemma skdupd_tdt_first_present service tdt :
  skdupd_tdt s service = Ok tdt ->
  tdt = seg "TDT" [JStr "20"; first_present service] s.
Proof.
  unfold skdupd_tdt. destruct service; try discriminate.
  unfold first_present, present, field_of, mem. simpl. unfold dget.
  intros [= <-].
  destruct (lookup "train_number" d); [reflexivity|].
  destruct (lookup "route_short_name" d); reflexivity.
Qed.

Lemma skdupd_service_tdt agencies used service r :
  skdupd_service agencies s used service = Ok r ->
  List.filter (has_tag "TDT") (snd r)
  = [seg "TDT" [JStr "20"; first_present service] s].
Proof.
  unfold skdupd_service. intros H. do 11 inv_bind H. injection H as <-.
  cbn [snd].
  apply skdupd_tdt_first_present in Ha1 as ->.
  rewrite List.filter_app. cbn [List.app List.filter].
  change (has_tag "TDT" (seg "TDT" [JStr "20"; first_present service] s)) with true.
  cbv iota. rewrite !List.filter_app.
  repeat match goal with
         | |- context [List.filter (has_tag "TDT") ?l] =>
             lazymatch l with
             | [_] => fail
             | _ =>
                 rewrite (filter_untagged "TDT" l)
                   by first
                        [ solve [eauto using skdupd_carrier_no_tdt]
                        | apply untagged_concat;
                          eapply for_each_Forall; [|eassumption];
                          intros ? ?;
                          first [apply skdupd_variant_no_tdt | apply skdupd_call_no_tdt]
                        | apply untagged_if; other_tag ]
             end
         end.
  reflexivity.
Qed.

Lemma skdupd_services_tdt agencies services :
  forall used segments,
    skdupd_services agencies s used services = Ok segments ->
    List.filter (has_tag "TDT") segments
    = List.map (fun service => seg "TDT" [JStr "20"; first_present service] s) services.
Proof.
  induction services as [|service rest IH]; intros used segments H.
  - injection H as <-. reflexivity.
  - simpl in H. do 2 inv_bind H. injection H as <-.
    rewrite List.filter_app, (skdupd_service_tdt _ _ _ _ Ha), (IH _ _ Ha0).
    reflexivity.
Qed.

End TdtPerService.

(** C7, as the code has it.  For every input accepted by the SKDUPD
    body mapping, the [TDT] segments of the result are, in order, one
    per service: qualifier '20' followed by the value bound to the
    first key present among 'train_number', 'route_short_name' and
    'id' (the empty string when none is present). *)
Theorem tdt_per_service (agencies services : Py.json) (s : Sep.t)
    (segments : list string) :
  Edifact.map_skdupd_segments agencies services s = Py.Ok segments ->
  exists service_list,
    PyOps.iter services = Py.Ok service_list /\
    List.filter (EdifactSpec.has_tag "TDT") segments
    = List.map
        (fun service =>
           Edifact.seg "TDT" [Py.JStr "20"; EdifactSpec.first_present service] s)
        service_list.
Proof.
  unfold Edifact.map_skdupd_segments. intros H. inv_bind H.
  exists a. split; [assumption|].
  eapply skdupd_services_tdt; eassumption.
Qed.

(* ================================================================== *)
(** * The TSDUPD body mapping *)
(* ================================================================== *)

(** C8, at a station on the equator.  Latitude and longitude are both
    present, but the latitude is the number 0, which the test
    [if lat and lon] takes for a missing value: the station produces
    its [LOC] segment and no [GIS] segment. *)
Theorem tsdupd_zero_latitude_has_no_gis :
  Edifact.map_tsdupd_segments
    (Py.JList [Py.JDict [("id", Py.JStr "ST1"); ("name", Py.JStr "Equator");
                         ("lat", Py.JInt 0); ("lon", Py.JInt 17)]])
    Sep.default
  = Py.Ok ["LOC+88+ST1+++Equator'"].
Proof. vm_compute. reflexivity. Qed.

Example tsdupd_with_coordinates :
  Edifact.map_tsdupd_segments
    (Py.JList [Py.JDict [("id", Py.JStr "ST1"); ("name", Py.JStr "Bratislava hl.st.");
                         ("lat", Py.JInt 48); ("lon", Py.JInt 17)];
               Py.JDict [("id", Py.JStr "ST2"); ("name", Py.JStr "Kuty")]])
    Sep.default
  = Py.Ok ["LOC+88+ST1+++Bratislava hl.st.'"; "GIS+1+48+17'"; "LOC+88+ST2+++Kuty'"].
Proof. vm_compute. reflexivity. Qed.

(* ================================================================== *)
(** * trips.txt and stop_times.txt *)
(* ================================================================== *)

Section TripsAndStopTimes.
Import Py PyOps Gtfs GtfsSpec.

Lemma get_ok_field service k default v :
  get service k default = Ok v -> EdifactSpec.field_of service k default = v.
Proof. destruct service; try discriminate. simpl. congruence. Qed.

Lemma iter_ok_count v l : iter v = Ok l -> count_items v = List.length l.
Proof. unfold count_items. now intros ->. Qed.

Lemma seq_from_two (n : nat) : List.seq 2 n = List.map S (List.seq 1 n).
Proof. now rewrite List.seq_shift. Qed.

Lemma flat_map_seq_shift {B} (f : nat -> list B) (n : nat) :
  forall a, List.flat_map f (List.seq (S a) n)
            = List.flat_map (fun j => f (S j)) (List.seq a n).
Proof.
  induction n as [|n IH]; intros a; simpl; [reflexivity | now rewrite IH].
Qed.

(** One service of trips.txt: the counter advances by the number of
    variants, and variant number [j] gets the identifier built from
    [counter + j]. *)
Lemma trips_variants_spec service route_id variants :
  forall counter r,
    trips_variants service route_id counter variants = Ok r ->
    fst r = counter + List.length variants /\
    column 2 (snd r)
    = List.map (fun j => JStr (trip_id route_id (counter + j)))
               (List.seq 1 (List.length variants)) /\
    column 0 (snd r) = List.repeat route_id (List.length variants).
Proof.
  induction variants as [|variant rest IH]; intros counter r H.
  - injection H as <-. simpl. repeat split; lia.
  - simpl in H. do 4 inv_bind H. injection H as <-.
    destruct (IH _ _ Ha2) as (Hc & Hids & Hroutes). cbn [fst snd].
    split; [simpl; lia|]. split.
    + cbn [column List.map List.nth List.length List.seq].
      fold (column 2 (snd a2)). rewrite Hids, seq_from_two, List.map_map.
      rewrite Nat.add_1_r. f_equal.
      apply List.map_ext. intros j. now rewrite Nat.add_succ_r.
    + cbn [column List.map List.nth List.length List.repeat].
      fold (column 0 (snd a2)). now rewrite Hroutes.
Qed.

Lemma column_app i rows rows' :
  column i (rows ++ rows') = column i rows ++ column i rows'.
Proof. apply List.map_app. Qed.

Lemma column_length i rows : List.length (column i rows) = List.length rows.
Proof. apply List.length_map. Qed.

(** The rows of trips.txt carry the identifiers of the expected
    trips. *)
Lemma trips_services_ids services :
  forall counter rows,
    trips_services counter services = Ok rows ->
    column 2 rows
    = List.map (fun p => JStr (fst p))
               (expected_trips counter (List.map view_of services)).
Proof.
  induction services as [|service rest IH]; intros counter rows H.
  - injection H as <-. reflexivity.
  - simpl in H. do 5 inv_bind H. injection H as <-.
    destruct (trips_variants_spec _ _ _ _ _ Ha2) as (Hc & Hids & _).
    rewrite column_app, Hids, (IH _ _ Ha3), Hc.
    cbn [List.map expected_trips]. rewrite List.map_app, List.map_map.
    unfold view_of; cbn [route variants calls].
    rewrite (get_ok_field _ _ _ _ Ha), (get_ok_field _ _ _ _ Ha0),
      (iter_ok_count _ _ Ha1).
    reflexivity.
Qed.

(** Row number [n] of trips.txt, counted from 0, has the identifier
    made of its own route id and of [counter + n + 1]. *)
Lemma trips_variants_numbered service route_id variants :
  forall counter r n row,
    trips_variants service route_id counter variants = Ok r ->
    List.nth_error (snd r) n = Some row ->
    List.nth 2 row JNull = JStr (trip_id (List.nth 0 row JNull) (counter + S n)).
Proof.
  induction variants as [|variant rest IH]; intros counter r n row H Hn.
  - injection H as <-. destruct n; discriminate.
  - simpl in H. do 4 inv_bind H. injection H as <-. cbn [snd] in Hn.
    destruct n as [|n]; simpl in Hn.
    + injection Hn as <-. simpl. now rewrite Nat.add_1_r.
    + rewrite (IH _ _ _ _ Ha2 Hn). do 2 f_equal. lia.
Qed.

Lemma trips_variants_length service route_id variants counter r :
  trips_variants service route_id counter variants = Ok r ->
  List.length (snd r) = List.length variants.
Proof.
  intros H. destruct (trips_variants_spec _ _ _ _ _ H) as (_ & _ & Hr).
  rewrite <- (column_length 0), Hr. apply List.repeat_length.
Qed.

Lemma trips_services_numbered services :
  forall counter rows n row,
    trips_services counter services = Ok rows ->
    List.nth_error rows n = Some row ->
    List.nth 2 row JNull = JStr (trip_id (List.nth 0 row JNull) (counter + S n)).
Proof.
  induction services as [|service rest IH]; intros counter rows n row H Hn.
  - injection H as <-. destruct n; discriminate.
  - simpl in H. do 5 inv_bind H. injection H as <-.
    pose proof (trips_variants_length _ _ _ _ _ Ha2) as Hlen.
    destruct (trips_variants_spec _ _ _ _ _ Ha2) as (Hc & _ & _).
    destruct (Nat.lt_ge_cases n (List.length (snd a2))) as [Hlt|Hge].
    + rewrite List.nth_error_app1 in Hn by assumption.
      eapply trips_variants_numbered; eassumption.
    + rewrite List.nth_error_app2 in Hn by assumption.
      rewrite (IH _ _ _ _ Ha3 Hn). do 2 f_equal. lia.
Qed.

Lemma stop_time_rows_trip_id trip_id calls rows :
  for_each (stop_time_row trip_id) calls = Ok rows ->
  column 0 rows = List.repeat (JStr trip_id) (List.length calls).
Proof.
  revert rows; induction calls as [|call rest IH]; intros rows H.
  - injection H as <-. reflexivity.
  - apply for_each_ok_cons in H as (row & rows' & Hrow & H & ->).
    cbn [column List.map List.length List.repeat].
    fold (column 0 rows'). rewrite (IH _ H). f_equal.
    unfold stop_time_row in Hrow. do 8 inv_bind Hrow.
    injection Hrow as <-. reflexivity.
Qed.

(** One service of stop_times.txt: every variant takes the next
    counter value and contributes one row per call of the service, all
    with the identifier of that trip. *)
Lemma stop_times_variants_spec route_id calls variants :
  forall counter r,
    stop_times_variants route_id calls counter variants = Ok r ->
    fst r = counter + List.length variants /\
    column 0 (snd r)
    = List.flat_map
        (fun j => List.repeat (JStr (trip_id route_id (counter + j)))
                              (count_items calls))
        (List.seq 1 (List.length variants)).
Proof.
  induction variants as [|variant rest IH]; intros counter r H.
  - injection H as <-. simpl. split; [lia | reflexivity].
  - simpl in H. do 3 inv_bind H. injection H as <-.
    destruct (IH _ _ Ha1) as (Hc & Hrows). cbn [fst snd].
    split; [simpl; lia|].
    rewrite column_app, Hrows, (stop_time_rows_trip_id _ _ _ Ha0).
    cbn [List.length List.seq List.flat_map].
    rewrite (iter_ok_count _ _ Ha), Nat.add_1_r. apply f_equal.
    rewrite (flat_map_seq_shift _ _ 1).
    apply List.flat_map_ext. intros j. now rewrite Nat.add_succ_r.
Qed.

Lemma flat_map_map_pair {A} (f : A -> string) (k : nat) (l : list A) :
  List.flat_map (fun p : string * nat => List.repeat (JStr (fst p)) (snd p))
                (List.map (fun a => (f a, k)) l)
  = List.flat_map (fun a => List.repeat (JStr (f a)) k) l.
Proof.
  induction l as [|a l IH]; simpl; [reflexivity | now rewrite IH].
Qed.

Lemma stop_times_services_ids services :
  forall counter rows,
    stop_times_services counter services = Ok rows ->
    column 0 rows
    = List.flat_map (fun p => List.repeat (JStr (fst p)) (snd p))
                    (expected_trips counter (List.map view_of services)).
Proof.
  induction services as [|service rest IH]; intros counter rows H.
  - injection H as <-. reflexivity.
  - simpl in H. do 6 inv_bind H. injection H as <-.
    destruct (stop_times_variants_spec _ _ _ _ _ Ha3) as (Hc & Hrows).
    rewrite column_app, Hrows, (IH _ _ Ha4), Hc.
    cbn [List.map expected_trips]. rewrite List.flat_map_app.
    unfold view_of; cbn [route variants calls].
    rewrite (get_ok_field _ _ _ _ Ha), (get_ok_field _ _ _ _ Ha0),
      (get_ok_field _ _ _ _ Ha1), (iter_ok_count _ _ Ha2).
    now rewrite flat_map_map_pair.
Qed.

Lemma expected_trips_length views :
  forall counter, List.length (expected_trips counter views) = total_variants views.
Proof.
  induction views as [|v rest IH]; intros counter; [reflexivity|].
  simpl. now rewrite List.length_app, List.length_map, List.length_seq, IH.
Qed.

Lemma generate_trips_ok services txt :
  _generate_trips_file services = Ok txt ->
  exists items rows,
    iter services = Ok items /\ trips_services 0 items = Ok rows /\
    txt = Csv.text (trips_header :: rows).
Proof.
  unfold _generate_trips_file, trips_rows. intros H.
  apply bind_ok in H as (rows & H & [= <-]).
  apply bind_ok in H as (items & Hi & H). eauto.
Qed.

Lemma generate_stop_times_ok services txt :
  _generate_stop_times_file services = Ok txt ->
  exists items rows,
    iter services = Ok items /\ stop_times_services 0 items = Ok rows /\
    txt = Csv.text (stop_times_header :: rows).
Proof.
  unfold _generate_stop_times_file, stop_times_rows. intros H.
  apply bind_ok in H as (rows & H & [= <-]).
  apply bind_ok in H as (items & Hi & H). eauto.
Qed.

End TripsAndStopTimes.

(** C4. For every input document the GTFS static writer accepts, with
    N variants in all over its services: trips.txt has exactly N data
    rows; their trip ids are "{route_id}_{n}" with n drawn from one
    counter that runs 1, 2, ... over all services and variants in
    document order; and stop_times.txt holds, trip after trip in the
    same order, K rows for a trip of a service with K calls, each
    carrying the id of that trip. *)
Theorem gtfs_trips_and_stop_times (json_data : Py.dict) (today : string)
    (files : list (string * string)) :
  Gtfs.write_gtfs_static json_data today = Py.Ok files ->
  exists services trips stop_times,
    PyOps.iter (PyOps.dget json_data "services" Py.JNull) = Py.Ok services /\
    GtfsSpec.file "trips.txt" files = Some (Csv.text (Gtfs.trips_header :: trips)) /\
    GtfsSpec.file "stop_times.txt" files
      = Some (Csv.text (Gtfs.stop_times_header :: stop_times)) /\
    let views := List.map GtfsSpec.view_of services in
    let plan := GtfsSpec.expected_trips 0 views in
    List.length trips = GtfsSpec.total_variants views /\
    GtfsSpec.column 2 trips = List.map (fun p => Py.JStr (fst p)) plan /\
    (forall n row,
        List.nth_error trips n = Some row ->
        List.nth 2 row Py.JNull
        = Py.JStr (Gtfs.trip_id (List.nth 0 row Py.JNull) (S n))) /\
    GtfsSpec.column 0 stop_times
    = List.flat_map (fun p => List.repeat (Py.JStr (fst p)) (snd p)) plan.
Proof.
  unfold Gtfs.write_gtfs_static, PyOps.mem, PyOps.getitem, PyOps.dget.
  intros H.
  destruct (PyOps.lookup "agencies" json_data) as [agencies|];
    cbn [negb Py.bind] in H; [|discriminate].
  destruct (PyOps.lookup "stations" json_data) as [stations|];
    cbn [negb Py.bind] in H; [|discriminate].
  destruct (PyOps.lookup "services" json_data) as [services|];
    cbn [negb Py.bind] in H; [|discriminate].
  destruct (negb (PyOps.truthy agencies) || negb (PyOps.truthy stations)
            || negb (PyOps.truthy services)); [discriminate|].
  do 7 inv_bind H. injection H as <-.
  match goal with
  | Ht : Gtfs._generate_trips_file _ = _, Hs : Gtfs._generate_stop_times_file _ = _ |- _ =>
      apply generate_trips_ok in Ht as (items & trips & Hitems & Htrips & ->);
      apply generate_stop_times_ok in Hs as (items' & stop_times & Hitems' & Hstops & ->)
  end.
  assert (items' = items) as -> by congruence.
  exists items, trips, stop_times.
  split; [assumption|]. split; [reflexivity|]. split; [reflexivity|].
  cbv zeta.
  pose proof (trips_services_ids _ _ _ Htrips) as Hids.
  split.
  - rewrite <- (column_length 2), Hids, List.length_map.
    apply expected_trips_length.
  - split; [assumption|]. split.
    + intros n row Hn. exact (trips_services_numbered _ _ _ _ _ Htrips Hn).
    + exact (stop_times_services_ids _ _ _ Hstops).
Qed.

Section QuietGtfs.
Import Py PyOps Gtfs.

Lemma quiet_agency_row agency : invalid_input (agency_row agency) = false.
Proof. unfold agency_row. quiet. Qed.

Lemma quiet_stop_row station : invalid_input (stop_row station) = false.
Proof. unfold stop_row. quiet. Qed.

Lemma quiet_route_row service : invalid_input (route_row service) = false.
Proof. unfold route_row. quiet. Qed.

Lemma quiet_flag calendar day : invalid_input (flag calendar day) = false.
Proof. unfold flag. quiet. Qed.

Lemma quiet_calendar_row service_id calendar :
  invalid_input (calendar_row service_id calendar) = false.
Proof. unfold calendar_row. quiet. apply quiet_flag. Qed.

Lemma quiet_calendar_variants variants :
  forall seen, invalid_input (calendar_variants seen variants) = false.
Proof.
  induction variants as [|variant rest IH]; intros seen; [reflexivity|].
  simpl. quiet; auto using quiet_calendar_row.
Qed.

Lemma quiet_calendar_services_loop services :
  forall seen, invalid_input (calendar_services_loop seen services) = false.
Proof.
  induction services as [|service rest IH]; intros seen; [reflexivity|].
  simpl. quiet; auto using quiet_calendar_variants.
Qed.

Lemma quiet_trips_variants service route_id variants :
  forall counter,
    invalid_input (trips_variants service route_id counter variants) = false.
Proof.
  induction variants as [|variant rest IH]; intros counter; [reflexivity|].
  simpl. quiet.
Qed.

Lemma quiet_trips_services services :
  forall counter, invalid_input (trips_services counter services) = false.
Proof.
  induction services as [|service rest IH]; intros counter; [reflexivity|].
  simpl. quiet; auto using quiet_trips_variants.
Qed.

Lemma quiet_stop_time_row trip_id call :
  invalid_input (stop_time_row trip_id call) = false.
Proof. unfold stop_time_row. quiet. Qed.

Lemma quiet_stop_times_variants route_id calls variants :
  forall counter,
    invalid_input (stop_times_variants route_id calls counter variants) = false.
Proof.
  induction variants as [|variant rest IH]; intros counter; [reflexivity|].
  simpl. quiet; auto using quiet_stop_time_row.
Qed.

Lemma quiet_stop_times_services services :
  forall counter, invalid_input (stop_times_services counter services) = false.
Proof.
  induction services as [|service rest IH]; intros counter; [reflexivity|].
  simpl. quiet; auto using quiet_stop_times_variants.
Qed.

Lemma quiet_min_str a b : invalid_input (min_str a b) = false.
Proof. destruct b; reflexivity. Qed.

Lemma quiet_max_str a b : invalid_input (max_str a b) = false.
Proof. destruct b; reflexivity. Qed.

Lemma quiet_feed_range_variants variants :
  forall range, invalid_input (feed_range_variants range variants) = false.
Proof.
  induction variants as [|variant rest IH]; intros range; [reflexivity|].
  simpl. quiet; auto using quiet_min_str, quiet_max_str.
Qed.

Lemma quiet_feed_range_services services :
  forall range, invalid_input (feed_range_services range services) = false.
Proof.
  induction services as [|service rest IH]; intros range; [reflexivity|].
  simpl. quiet; auto using quiet_feed_range_variants.
Qed.

(** Once the required lists are validated nothing raises
    Invalid-Input. *)
Lemma quiet_generators json_data today agencies stations services :
  invalid_input
    (bind (_generate_agency_file agencies) (fun agency_txt =>
     bind (_generate_stops_file stations) (fun stops_txt =>
     bind (_generate_routes_file services agencies) (fun routes_txt =>
     bind (_generate_calendar_file services) (fun calendar_txt =>
     bind (_generate_trips_file services) (fun trips_txt =>
     bind (_generate_stop_times_file services) (fun stop_times_txt =>
     bind (_generate_feed_info_file json_data today) (fun feed_info_txt =>
     Ok [ ("agency.txt", agency_txt);
          ("stops.txt", stops_txt);
          ("routes.txt", routes_txt);
          ("calendar.txt", calendar_txt);
          ("trips.txt", trips_txt);
          ("stop_times.txt", stop_times_txt);
          ("feed_info.txt", feed_info_txt) ])))))))) = false.
Proof.
  unfold _generate_agency_file, _generate_stops_file, _generate_routes_file,
    _generate_calendar_file, _generate_trips_file, _generate_stop_times_file,
    _generate_feed_info_file, trips_rows, stop_times_rows.
  quiet;
    auto using quiet_agency_row, quiet_stop_row, quiet_route_row,
      quiet_calendar_services_loop, quiet_trips_services,
      quiet_stop_times_services, quiet_feed_range_services.
Qed.

End QuietGtfs.

(* ================================================================== *)
(** * The required fields of the GTFS static writer *)
(* ================================================================== *)

(** C5. When one of the keys 'agencies', 'stations', 'services' is
    missing from the input document, or bound to an empty list,
    [write_gtfs_static] fails with the Invalid-Input error and returns
    no file mapping; when the three keys are present with non-empty
    values, it does not raise that error. *)
Theorem gtfs_required_fields (json_data : Py.dict) (today : string) :
  ((exists k, In k ["agencies"; "stations"; "services"] /\
              (PyOps.lookup k json_data = None \/
               PyOps.lookup k json_data = Some (Py.JList []))) ->
   exists msg, Gtfs.write_gtfs_static json_data today = Py.Raise (Py.ValueError msg)) /\
  ((forall k, In k ["agencies"; "stations"; "services"] ->
              exists v, PyOps.lookup k json_data = Some v /\ PyOps.truthy v = true) ->
   Py.invalid_input (Gtfs.write_gtfs_static json_data today) = false).
Proof.
  unfold Gtfs.write_gtfs_static, PyOps.mem, PyOps.getitem.
  split.
  - intros (k & Hk & Hv).
    destruct (PyOps.lookup "agencies" json_data) as [agencies|] eqn:Ha;
      cbn [negb Py.bind]; [|eauto].
    destruct (PyOps.lookup "stations" json_data) as [stations|] eqn:Ht;
      cbn [negb Py.bind]; [|eauto].
    destruct (PyOps.lookup "services" json_data) as [services|] eqn:Hs;
      cbn [negb Py.bind]; [|eauto].
    assert (Hfalsy : PyOps.truthy agencies = false \/ PyOps.truthy stations = false \/
                     PyOps.truthy services = false).
    { simpl in Hk. destruct Hk as [<-|[<-|[<-|[]]]];
        (destruct Hv as [Hv|Hv]; [congruence|]).
      - left. rewrite Ha in Hv. injection Hv as ->. reflexivity.
      - right; left. rewrite Ht in Hv. injection Hv as ->. reflexivity.
      - right; right. rewrite Hs in Hv. injection Hv as ->. reflexivity. }
    destruct (PyOps.truthy agencies), (PyOps.truthy stations), (PyOps.truthy services);
      cbn [negb orb]; eauto;
      destruct Hfalsy as [H|[H|H]]; discriminate.
  - intros Hall.
    destruct (Hall "agencies") as (agencies & -> & Ha); [simpl; auto|].
    destruct (Hall "stations") as (stations & -> & Ht); [simpl; auto|].
    destruct (Hall "services") as (services & -> & Hs); [simpl; auto|].
    cbn [negb Py.bind]. rewrite Ha, Ht, Hs. cbn [negb orb].
    apply quiet_generators.
Qed.

(* ================================================================== *)
(** * Filename sanitization *)
(* ================================================================== *)

(** C9, at an input that breaks the length bound.  A name of 100
    letters has no extension and is not longer than 100 characters, so
    it is not cut; the default extension is then appended and the
    sanitized name has 104 characters.  A name of 96 letters followed
    by a seven-character extension (103 characters) is cut to 95
    letters plus the extension: 102 characters. *)
Theorem sanitize_filename_exceeds_100 :
  String.length (FileHandler._sanitize_filename (Str.repeat "a" 100)) = 104 /\
  FileHandler._sanitize_filename (Str.repeat "a" 100)
    = (Str.repeat "a" 100 ++ ".txt")%string /\
  String.length
    (FileHandler._sanitize_filename (Str.repeat "a" 96 ++ ".json12")%string) = 102.
Proof. vm_compute. repeat split; reflexivity. Qed.

Example sanitize_path :
  FileHandler._sanitize_filename "../etc/pass wd" = ".._etc_pass_wd".
Proof. vm_compute. reflexivity. Qed.

Example sanitize_no_extension :
  FileHandler._sanitize_filename "report" = "report.txt".
Proof. vm_compute. reflexivity. Qed.

Example splitext_cases :
  FileHandler.splitext "a.b.c" = ("a.b", ".c") /\
  FileHandler.splitext "...a" = ("...a", EmptyString) /\
  FileHandler.splitext "a." = ("a", ".") /\
  FileHandler.splitext ".a.b" = (".a", ".b").
Proof. vm_compute. repeat split; reflexivity. Qed.

(* ================================================================== *)
(** * The [/validate] handler *)
(* ================================================================== *)

(** C10. When the format of a validation request is not
    'json-transport', the result is valid and its error, warning and
    notice lists are empty, whatever the input document holds; an error
    entry, and hence an invalid result, arises only when the format is
    'json-transport' and the input document has no key 'agencies'. *)
Theorem validate_data_validity (request : Service.ValidationRequest)
    (job_id : string) (jobs : Service.job_storage) :
  let result := fst (Service.validate_data request job_id jobs) in
  (Service.format request <> "json-transport" ->
   Service.is_valid result = true /\
   Service.errors result = [] /\
   Service.warnings result = [] /\
   Service.notices result = []) /\
  (Service.errors result <> [] \/ Service.is_valid result = false ->
   Service.format request = "json-transport" /\
   PyOps.mem "agencies" (Service.input_data request) = false).
Proof.
  unfold Service.validate_data; simpl.
  destruct (String.eqb_spec (Service.format request) "json-transport") as [E|E].
  - split; [congruence|].
    destruct (PyOps.mem "agencies" (Service.input_data request)); simpl.
    + intros [H|H]; [congruence | discriminate].
    + auto.
  - split; [auto|].
    simpl. intros [H|H]; [congruence | discriminate].
Qed.

Lemma validate_data_validity_witness :
  Service.is_valid
    (fst (Service.validate_data
            (Service.mkRequest [("stations", Py.JInt 7)] "gtfs" Service.STRICT None)
            "val_1_0000abcd" [])) = true /\
  PyOps.mem "agencies"
    (Service.input_data
       (Service.mkRequest [("stations", Py.JList [])] "json-transport"
          Service.STANDARD None)) = false.
Proof.
  split.
  - apply (validate_data_validity
             (Service.mkRequest [("stations", Py.JInt 7)] "gtfs" Service.STRICT None)
             "val_1_0000abcd" []).
    discriminate.
  - apply (validate_data_validity
             (Service.mkRequest [("stations", Py.JList [])] "json-transport"
                Service.STANDARD None)
             "val_2_0000abcd" []).
    right. reflexivity.
Defined.

(* ================================================================== *)
(** * The functions at work on the sample documents *)
(* ================================================================== *)

Lemma unt_counts_body_plus_two_witness :
  exists message,
    Edifact.write_tsdupd Samples.feed "CURRENT" "UNA:+.? '" = Py.Ok message /\
    exists s unb unh body message_ref unz,
      Edifact.parse_una "UNA:+.? '" = Py.Ok s /\
      EdifactSpec.has_tag "UNH" unh = true /\
      ((exists agencies services,
           PyOps.lookup "agencies" Samples.feed = Some agencies /\
           PyOps.lookup "services" Samples.feed = Some services /\
           Edifact.map_skdupd_segments agencies services s = Py.Ok body) \/
       (exists stations,
           PyOps.lookup "stations" Samples.feed = Some stations /\
           Edifact.map_tsdupd_segments stations s = Py.Ok body)) /\
      message =
        Str.join EmptyString
          (["UNA:+.? '"; unb; unh] ++ body ++
           [Edifact.seg "UNT"
              [Py.JStr (Str.of_Z (Z.of_nat (List.length body) + 2));
               Py.JStr message_ref] s;
            unz]).
Proof.
  eexists. split; [vm_compute; reflexivity|].
  apply (unt_counts_body_plus_two Samples.feed "CURRENT" "UNA:+.? '").
  right. vm_compute. reflexivity.
Defined.

Example skdupd_minimal_message :
  Edifact.write_skdupd Samples.skdupd_minimal "CURRENT" "UNA:+.? '"
  = Py.Ok ("UNA:+.? 'UNB+UNOC:3+SENDER+RECEIVER+240101?:0000+5C0D333877DF'"
           ++ "UNH+5C0D333877DF01+SKDUPD:D:03B:UN:IATA:CURRENT'"
           ++ "NAD+CA+A1++Test Rail'TDT+20+101'"
           ++ "UNT+4+5C0D333877DF01'UNZ+1+5C0D333877DF'")%string.
Proof. vm_compute. reflexivity. Qed.

Lemma gtfs_trips_and_stop_times_witness :
  exists files,
    Gtfs.write_gtfs_static Samples.feed "20240501" = Py.Ok files /\
    exists services trips stop_times,
      PyOps.iter (PyOps.dget Samples.feed "services" Py.JNull) = Py.Ok services /\
      GtfsSpec.file "trips.txt" files = Some (Csv.text (Gtfs.trips_header :: trips)) /\
      GtfsSpec.file "stop_times.txt" files
        = Some (Csv.text (Gtfs.stop_times_header :: stop_times)) /\
      let views := List.map GtfsSpec.view_of services in
      let plan := GtfsSpec.expected_trips 0 views in
      List.length trips = GtfsSpec.total_variants views /\
      GtfsSpec.column 2 trips = List.map (fun p => Py.JStr (fst p)) plan /\
      (forall n row,
          List.nth_error trips n = Some row ->
          List.nth 2 row Py.JNull
          = Py.JStr (Gtfs.trip_id (List.nth 0 row Py.JNull) (S n))) /\
      GtfsSpec.column 0 stop_times
      = List.flat_map (fun p => List.repeat (Py.JStr (fst p)) (snd p)) plan.
Proof.
  eexists. split; [vm_compute; reflexivity|].
  apply (gtfs_trips_and_stop_times Samples.feed "20240501").
  vm_compute. reflexivity.
Defined.

Example sample_trip_plan :
  GtfsSpec.expected_trips 0
    (List.map GtfsSpec.view_of
       match PyOps.dget Samples.feed "services" Py.JNull with
       | Py.JList l => l
       | _ => []
       end)
  = [("R1_1", 2); ("R1_2", 2); ("R2_3", 1)].
Proof. vm_compute. reflexivity. Qed.

Lemma gtfs_required_fields_witness :
  (exists msg,
      Gtfs.write_gtfs_static Samples.skdupd_minimal "20240501"
      = Py.Raise (Py.ValueError msg)) /\
  Py.invalid_input (Gtfs.write_gtfs_static Samples.feed "20240501") = false.
Proof.
  split.
  - apply (gtfs_required_fields Samples.skdupd_minimal "20240501").
    exists "stations". split; [simpl; auto | left; reflexivity].
  - apply (gtfs_required_fields Samples.feed "20240501").
    intros k [<-|[<-|[<-|[]]]]; eexists; (split; [reflexivity|reflexivity]).
Defined.

Lemma tdt_per_service_witness :
  exists segments service_list,
    Edifact.map_skdupd_segments
      (PyOps.dget Samples.feed "agencies" Py.JNull)
      (PyOps.dget Samples.feed "services" Py.JNull) Sep.default = Py.Ok segments /\
    PyOps.iter (PyOps.dget Samples.feed "services" Py.JNull) = Py.Ok service_list /\
    List.filter (EdifactSpec.has_tag "TDT") segments
    = List.map
        (fun service =>
           Edifact.seg "TDT" [Py.JStr "20"; EdifactSpec.first_present service]
             Sep.default)
        service_list.
Proof.
  eexists.
  assert (H : Edifact.map_skdupd_segments
                (PyOps.dget Samples.feed "agencies" Py.JNull)
                (PyOps.dget Samples.feed "services" Py.JNull) Sep.default
              = Py.Ok _) by (vm_compute; reflexivity).
  destruct (tdt_per_service _ _ _ _ H) as (service_list & Hiter & Hfilter).
  exists service_list. split; [exact H|]. split; assumption.
Defined.

(** C7 as it is worded fails: a service whose 'train_number' is bound
    to the empty string gets a [TDT] with an empty second element, not
    the first non-empty of the three fields ('101' here). *)
Lemma tdt_not_first_non_empty :
  exists segments,
    Edifact.map_skdupd_segments (Py.JList [Samples.agency])
      (Py.JList [Samples.unnumbered_service]) Sep.default = Py.Ok segments /\
    List.filter (EdifactSpec.has_tag "TDT") segments = ["TDT+20+'"] /\
    Edifact.seg "TDT"
      [Py.JStr "20"; EdifactSpec.first_non_empty Samples.unnumbered_service]
      Sep.default = "TDT+20+101'" /\
    List.filter (EdifactSpec.has_tag "TDT") segments
    <> List.map
         (fun service =>
            Edifact.seg "TDT" [Py.JStr "20"; EdifactSpec.first_non_empty service]
              Sep.default)
         [Samples.unnumbered_service].
Proof.
  eexists. split; [vm_compute; reflexivity|].
  split; [vm_compute; reflexivity|].
  split; [vm_compute; reflexivity|].
  vm_compute. discriminate.
Qed.

(* ================================================================== *)
(** * More on escaping and on segments *)
(* ================================================================== *)

Section EscapeMore.
Import Py PyOps.

Lemma replace_absent (old : ascii) (new text : string) :
  Str.contains old text = false -> Str.replace old new text = text.
Proof.
  induction text as [|c text IH]; simpl; [reflexivity|].
  rewrite Ascii.eqb_sym.
  destruct (Ascii.eqb old c); simpl; [discriminate|].
  intros H. now rewrite IH.
Qed.

Lemma escape_plain (s : Sep.t) (text : string) :
  Reader.has_special s text = false ->
  Edifact.escape (JStr text) s = text.
Proof.
  unfold Reader.has_special. intros H.
  apply Bool.orb_false_iff in H as (H & Hcomp).
  apply Bool.orb_false_iff in H as (H & Helem).
  apply Bool.orb_false_iff in H as (Hrel & Hseg).
  unfold Edifact.escape; simpl.
  now rewrite (replace_absent _ _ _ Hrel), (replace_absent _ _ _ Hseg),
    (replace_absent _ _ _ Helem), (replace_absent _ _ _ Hcomp).
Qed.

End EscapeMore.

(** X1. A text that holds none of the release character, segment
    terminator, element separator and component separator is left
    unchanged by [escape], whatever the separators are. *)
Theorem escape_plain_text (s : Sep.t) (text : string) :
  Reader.has_special s text = false ->
  Edifact.escape (Py.JStr text) s = text.
Proof. apply escape_plain. Qed.

Lemma escape_plain_text_witness :
  Reader.has_special Sep.default "Bratislava hl.st." = false /\
  Edifact.escape (Py.JStr "Bratislava hl.st.") Sep.default = "Bratislava hl.st.".
Proof.
  split; [reflexivity|]. apply escape_plain_text. reflexivity.
Defined.

Section EscapeLength.
Import Py PyOps.

Lemma length_append (a b : string) :
  String.length (a ++ b)%string = String.length a + String.length b.
Proof. induction a as [|c a IH]; simpl; [reflexivity | now rewrite IH]. Qed.

Lemma distinct_inv (s : Sep.t) :
  Reader.distinct s ->
  Sep.rel s <> Sep.seg s /\ Sep.rel s <> Sep.elem s /\ Sep.rel s <> Sep.comp s /\
  Sep.seg s <> Sep.elem s /\ Sep.seg s <> Sep.comp s /\ Sep.elem s <> Sep.comp s.
Proof.
  unfold Reader.distinct. intros Hd.
  inversion Hd as [|? ? Hc Hd1]; subst.
  inversion Hd1 as [|? ? He Hd2]; subst.
  inversion Hd2 as [|? ? Hdec Hd3]; subst.
  inversion Hd3 as [|? ? Hr Hd4]; subst.
  simpl in Hc, He, Hr.
  repeat split; intro E; rewrite ?E in *; intuition congruence.
Qed.

Lemma escape_step (s : Sep.t) (c : ascii) (text : string) :
  Reader.distinct s ->
  Edifact.escape (JStr (String c text)) s
  = (Reader.escape_char s c ++ Edifact.escape (JStr text) s)%string.
Proof.
  intros Hd. destruct (distinct_inv s Hd) as (H1 & H2 & H3 & H4 & H5 & H6).
  now apply escape_cons.
Qed.

End EscapeLength.

(** X2. With distinct separators, [escape] lengthens a text by exactly
    one release character for each character it has to protect. *)
Theorem escape_length (s : Sep.t) (text : string) :
  Reader.distinct s ->
  String.length (Edifact.escape (Py.JStr text) s)
  = String.length text + More.special_count s text.
Proof.
  intros Hd. induction text as [|c text IH]; [reflexivity|].
  rewrite (escape_step s c text Hd), length_append, IH.
  unfold Reader.escape_char. simpl.
  destruct (Ascii.eqb c (Sep.rel s)); simpl; [lia|].
  destruct (Reader.is_separator s c); simpl; lia.
Qed.

Lemma escape_length_witness :
  Reader.distinct Sep.default /\
  String.length (Edifact.escape (Py.JStr "a+b:c?d'e") Sep.default) = 9 + 4.
Proof.
  split; [exact distinct_default|].
  exact (escape_length Sep.default "a+b:c?d'e" distinct_default).
Defined.

Section SegmentReading.
Import Py PyOps.

Variable s : Sep.t.
Hypothesis Hd : Reader.distinct s.

(** A release character never reaches the reader as a separator. *)
Lemma rel_not_separator : Reader.is_separator s (Sep.rel s) = false.
Proof.
  destruct (distinct_inv s Hd) as (H1 & H2 & H3 & _).
  unfold Reader.is_separator.
  apply Ascii.eqb_neq in H1, H2, H3. now rewrite H1, H2, H3.
Qed.

(** An escaped text followed by a separator is one token, and the
    reader goes on after the separator. *)
Lemma tokens_escape_then (text : string) (c : ascii) (rest : string) :
  Reader.is_separator s c = true ->
  Reader.tokens s (Edifact.escape (JStr text) s ++ String c rest)%string
  = Edifact.escape (JStr text) s :: Reader.tokens s rest.
Proof.
  intros Hc.
  assert (Hcrel : Ascii.eqb c (Sep.rel s) = false).
  { destruct (Ascii.eqb_spec c (Sep.rel s)) as [->|]; [|reflexivity].
    rewrite rel_not_separator in Hc. discriminate. }
  induction text as [|x text IH].
  - simpl. now rewrite Hcrel, Hc.
  - rewrite (escape_step s x text Hd).
    unfold Reader.escape_char, Edifact.pair_str, Str.singleton.
    destruct (Ascii.eqb_spec x (Sep.rel s)) as [->|Hrel]; simpl.
    + rewrite Ascii.eqb_refl, IH. reflexivity.
    + destruct (Reader.is_separator s x) eqn:Hsep; simpl.
      * rewrite Ascii.eqb_refl, IH. reflexivity.
      * apply Ascii.eqb_neq in Hrel. rewrite Hrel, Hsep, IH. reflexivity.
Qed.

(** A tag without special characters is a token of its own. *)
Lemma tokens_plain_then (tag : string) (c : ascii) (rest : string) :
  Reader.has_special s tag = false ->
  Reader.is_separator s c = true ->
  Reader.tokens s (tag ++ String c rest)%string = tag :: Reader.tokens s rest.
Proof.
  intros Htag Hc.
  rewrite <- (escape_plain s tag Htag) at 1.
  rewrite (tokens_escape_then tag c rest Hc).
  now rewrite (escape_plain s tag Htag).
Qed.

Lemma elem_is_separator : Reader.is_separator s (Sep.elem s) = true.
Proof.
  unfold Reader.is_separator. rewrite Ascii.eqb_refl.
  now rewrite Bool.orb_true_r.
Qed.

Lemma seg_is_separator : Reader.is_separator s (Sep.seg s) = true.
Proof. unfold Reader.is_separator. now rewrite Ascii.eqb_refl. Qed.

Lemma append_assoc (a b c : string) :
  ((a ++ b) ++ c)%string = (a ++ (b ++ c))%string.
Proof. induction a as [|x a IH]; simpl; [reflexivity | now rewrite IH]. Qed.

Lemma process_simple (element : json) :
  More.simple element = true ->
  Edifact.process_element s element = Edifact.escape (JStr (str element)) s.
Proof. destruct element; simpl; intros H; (reflexivity || discriminate). Qed.

(** The elements of a segment, joined and terminated, read back one
    token each, followed by the empty token after the terminator. *)
Lemma tokens_elements (elements : list json) :
  List.forallb More.simple elements = true ->
  elements <> [] ->
  Reader.tokens s
    (Str.join (Str.singleton (Sep.elem s))
       (List.map (Edifact.process_element s) elements)
     ++ Str.singleton (Sep.seg s))%string
  = List.map (fun e => Edifact.escape (JStr (str e)) s) elements ++ [EmptyString].
Proof.
  induction elements as [|e rest IH]; intros Hs Hne; [contradiction|].
  simpl in Hs. apply Bool.andb_true_iff in Hs as (He & Hrest).
  unfold Str.join in *. destruct rest as [|e' rest].
  - simpl. rewrite (process_simple e He).
    unfold Str.singleton. rewrite (tokens_escape_then _ _ _ seg_is_separator).
    reflexivity.
  - cbn [List.map String.concat]. cbn [List.map String.concat] in IH.
    rewrite (process_simple e He), !append_assoc.
    unfold Str.singleton at 1. cbn [String.append].
    rewrite (tokens_escape_then _ _ _ elem_is_separator).
    rewrite IH by (assumption || discriminate). reflexivity.
Qed.

Lemma seg_tokens (tag : string) (elements : list json) :
  Reader.has_special s tag = false ->
  List.forallb More.simple elements = true ->
  elements <> [] ->
  Reader.parse s (Edifact.seg tag elements s)
  = tag :: List.map str elements ++ [EmptyString].
Proof.
  intros Htag Hs Hne. unfold Reader.parse, Edifact.seg.
  unfold Str.singleton at 1. cbn [String.append].
  rewrite (tokens_plain_then tag _ _ Htag elem_is_separator).
  rewrite (tokens_elements elements Hs Hne).
  cbn [List.map]. f_equal.
  - destruct (distinct_inv s Hd) as (H1 & H2 & H3 & H4 & H5 & H6).
    transitivity (Reader.unescape s (Edifact.escape (JStr tag) s));
      [now rewrite (escape_plain s tag Htag) | now apply unescape_escape].
  - rewrite List.map_app, List.map_map. simpl. f_equal.
    apply List.map_ext. intros e.
    destruct (distinct_inv s Hd) as (H1 & H2 & H3 & H4 & H5 & H6).
    now apply unescape_escape.
Qed.

End SegmentReading.

(** X3. With distinct separators, a segment built by [seg] from a tag
    without special characters and from simple (non-composite) elements
    reads back as the tag, then the text of each element exactly as it
    was given, then the empty text after the terminator: the escaping
    keeps element boundaries intact whatever the elements hold. *)
Theorem seg_reads_back (s : Sep.t) (tag : string) (elements : list Py.json) :
  Reader.distinct s ->
  Reader.has_special s tag = false ->
  List.forallb More.simple elements = true ->
  elements <> [] ->
  Reader.parse s (Edifact.seg tag elements s)
  = tag :: List.map PyOps.str elements ++ [EmptyString].
Proof. intros; now apply seg_tokens. Qed.

Lemma seg_reads_back_witness :
  Reader.parse Sep.default
    (Edifact.seg "LOC"
       [Py.JStr "88"; Py.JStr "ST+1"; Py.JStr EmptyString; Py.JInt 7;
        Py.JStr "O'Hare: north?"] Sep.default)
  = ["LOC"; "88"; "ST+1"; EmptyString; "7"; "O'Hare: north?"; EmptyString].
Proof.
  apply (seg_reads_back Sep.default "LOC"
           [Py.JStr "88"; Py.JStr "ST+1"; Py.JStr EmptyString; Py.JInt 7;
            Py.JStr "O'Hare: north?"]);
    [exact distinct_default | reflexivity | reflexivity | discriminate].
Defined.

(* ================================================================== *)
(** * The faults of the EDIFACT writers *)
(* ================================================================== *)

Section WriterFaults.
Import Py PyOps Edifact.

Lemma parse_una_ok una :
  String.length una = 9 -> Str.startswith "UNA" una = true ->
  exists s, parse_una una = Ok s.
Proof.
  intros Hlen Hpre. destruct (parse_una_accepts una Hlen Hpre) as (s & Hs & _).
  eauto.
Qed.

Lemma invalid_joined (r : result (list string)) :
  invalid_input (bind r (fun segments => Ok (Str.join EmptyString segments)))
  = invalid_input r.
Proof. destruct r; reflexivity. Qed.

End WriterFaults.

(** X4. With a well-formed UNA string, [write_skdupd] checks the
    document in a fixed order and names the first defect: 'agencies'
    missing, then 'services' missing, then agencies empty, then
    services empty; when none applies the writer never ends in
    Invalid-Input (any later failure is a type fault of the document). *)
Theorem write_skdupd_faults (json_data : Py.dict) (version una : string) :
  String.length una = 9 ->
  Str.startswith "UNA" una = true ->
  match PyOps.lookup "agencies" json_data, PyOps.lookup "services" json_data with
  | None, _ =>
      Edifact.write_skdupd json_data version una
      = Py.Raise (Py.ValueError "Missing required 'agencies' data")
  | Some _, None =>
      Edifact.write_skdupd json_data version una
      = Py.Raise (Py.ValueError "Missing required 'services' data")
  | Some agencies, Some services =>
      if negb (PyOps.truthy agencies) then
        Edifact.write_skdupd json_data version una
        = Py.Raise (Py.ValueError "Agencies list cannot be empty")
      else if negb (PyOps.truthy services) then
        Edifact.write_skdupd json_data version una
        = Py.Raise (Py.ValueError "Services list cannot be empty")
      else Py.invalid_input (Edifact.write_skdupd json_data version una) = false
  end.
Proof.
  intros Hlen Hpre. destruct (parse_una_ok una Hlen Hpre) as (s & Hs).
  unfold Edifact.write_skdupd, Edifact.skdupd_segments, PyOps.mem, PyOps.getitem.
  rewrite Hs. cbn [Py.bind].
  destruct (PyOps.lookup "agencies" json_data) as [agencies|]; [|reflexivity].
  destruct (PyOps.lookup "services" json_data) as [services|]; [|reflexivity].
  cbn [negb Py.bind].
  destruct (PyOps.truthy agencies); cbn [negb]; [|reflexivity].
  destruct (PyOps.truthy services); cbn [negb]; [|reflexivity].
  rewrite invalid_joined.
  apply quiet_interchange, quiet_map_skdupd_segments.
Qed.

Lemma write_skdupd_faults_witness :
  Edifact.write_skdupd [("agencies", Py.JList [Samples.agency])] "CURRENT" "UNA:+.? '"
  = Py.Raise (Py.ValueError "Missing required 'services' data") /\
  Edifact.write_skdupd
    [("agencies", Py.JList []); ("services", Py.JList [])] "CURRENT" "UNA:+.? '"
  = Py.Raise (Py.ValueError "Agencies list cannot be empty").
Proof.
  split.
  - exact (write_skdupd_faults [("agencies", Py.JList [Samples.agency])]
             "CURRENT" "UNA:+.? '" eq_refl eq_refl).
  - exact (write_skdupd_faults [("agencies", Py.JList []); ("services", Py.JList [])]
             "CURRENT" "UNA:+.? '" eq_refl eq_refl).
Defined.

(** X5. With a well-formed UNA string, [write_tsdupd] fails with
    "Missing required 'stations' data" when the key is absent, with
    "Stations list cannot be empty" when its value is empty, and
    otherwise never ends in Invalid-Input. *)
Theorem write_tsdupd_faults (json_data : Py.dict) (version una : string) :
  String.length una = 9 ->
  Str.startswith "UNA" una = true ->
  match PyOps.lookup "stations" json_data with
  | None =>
      Edifact.write_tsdupd json_data version una
      = Py.Raise (Py.ValueError "Missing required 'stations' data")
  | Some stations =>
      if negb (PyOps.truthy stations) then
        Edifact.write_tsdupd json_data version una
        = Py.Raise (Py.ValueError "Stations list cannot be empty")
      else Py.invalid_input (Edifact.write_tsdupd json_data version una) = false
  end.
Proof.
  intros Hlen Hpre. destruct (parse_una_ok una Hlen Hpre) as (s & Hs).
  unfold Edifact.write_tsdupd, Edifact.tsdupd_segments, PyOps.mem, PyOps.getitem.
  rewrite Hs. cbn [Py.bind].
  destruct (PyOps.lookup "stations" json_data) as [stations|]; [|reflexivity].
  cbn [negb Py.bind].
  destruct (PyOps.truthy stations); cbn [negb]; [|reflexivity].
  rewrite invalid_joined.
  apply quiet_interchange, quiet_map_tsdupd_segments.
Qed.

Lemma write_tsdupd_faults_witness :
  Edifact.write_tsdupd Samples.skdupd_minimal "CURRENT" "UNA:+.? '"
  = Py.Raise (Py.ValueError "Missing required 'stations' data") /\
  Py.invalid_input (Edifact.write_tsdupd Samples.feed "CURRENT" "UNA:+.? '") = false.
Proof.
  split.
  - exact (write_tsdupd_faults Samples.skdupd_minimal "CURRENT" "UNA:+.? '"
             eq_refl eq_refl).
  - exact (write_tsdupd_faults Samples.feed "CURRENT" "UNA:+.? '" eq_refl eq_refl).
Defined.

(* ================================================================== *)
(** * LOC and GIS in the TSDUPD body *)
(* ================================================================== *)

Section LocAndGis.
Import Py PyOps Edifact EdifactSpec.

Variable s : Sep.t.

Lemma tsdupd_station_segments station segments :
  tsdupd_station s station = Ok segments ->
  List.length (List.filter (has_tag "LOC") segments) = 1 /\
  List.length (List.filter (has_tag "GIS") segments)
  = (if More.has_coordinates station then 1 else 0) /\
  List.length segments = 1 + (if More.has_coordinates station then 1 else 0).
Proof.
  unfold tsdupd_station, More.has_coordinates.
  destruct station; try discriminate. simpl.
  destruct (truthy (dget d "lat" (JStr "")) && truthy (dget d "lon" (JStr "")));
    intros [= <-]; repeat split.
Qed.

Lemma tsdupd_stations_segments stations :
  forall per_station,
    for_each (tsdupd_station s) stations = Ok per_station ->
    List.length (List.filter (has_tag "LOC") (List.concat per_station))
    = List.length stations /\
    List.length (List.filter (has_tag "GIS") (List.concat per_station))
    = List.length (List.filter More.has_coordinates stations) /\
    List.length (List.concat per_station)
    = List.length stations + List.length (List.filter More.has_coordinates stations).
Proof.
  induction stations as [|station rest IH]; intros per_station H.
  - injection H as <-. repeat split.
  - apply for_each_ok_cons in H as (segments & others & Hst & H & ->).
    destruct (IH _ H) as (Hloc & Hgis & Hlen).
    destruct (tsdupd_station_segments _ _ Hst) as (Hloc1 & Hgis1 & Hlen1).
    cbn [List.concat List.filter List.length].
    rewrite !List.filter_app, !List.length_app, Hloc, Hgis, Hlen, Hloc1, Hgis1, Hlen1.
    destruct (More.has_coordinates station); simpl; repeat split; lia.
Qed.

End LocAndGis.

(** X6. In the body of a TSDUPD message every station has exactly one
    [LOC] segment, and the [GIS] segments are as many as the stations
    whose latitude and longitude are both truthy (bound to a non-zero
    number or a non-empty text); the body holds nothing else. *)
Theorem tsdupd_loc_and_gis (stations : Py.json) (s : Sep.t) (segments : list string) :
  Edifact.map_tsdupd_segments stations s = Py.Ok segments ->
  exists items,
    PyOps.iter stations = Py.Ok items /\
    List.length (List.filter (EdifactSpec.has_tag "LOC") segments) = List.length items /\
    List.length (List.filter (EdifactSpec.has_tag "GIS") segments)
    = List.length (List.filter More.has_coordinates items) /\
    List.length segments
    = List.length items + List.length (List.filter More.has_coordinates items).
Proof.
  unfold Edifact.map_tsdupd_segments. intros H.
  apply bind_ok in H as (items & Hitems & H).
  apply bind_ok in H as (per_station & Hper & [= <-]).
  exists items. split; [assumption|].
  exact (tsdupd_stations_segments s items per_station Hper).
Qed.

Lemma tsdupd_loc_and_gis_witness :
  exists segments items,
    Edifact.map_tsdupd_segments (PyOps.dget Samples.feed "stations" Py.JNull)
      Sep.default = Py.Ok segments /\
    PyOps.iter (PyOps.dget Samples.feed "stations" Py.JNull) = Py.Ok items /\
    List.length (List.filter (EdifactSpec.has_tag "LOC") segments) = List.length items /\
    List.length (List.filter (EdifactSpec.has_tag "GIS") segments)
    = List.length (List.filter More.has_coordinates items) /\
    List.length segments
    = List.length items + List.length (List.filter More.has_coordinates items).
Proof.
  eexists.
  assert (H : Edifact.map_tsdupd_segments (PyOps.dget Samples.feed "stations" Py.JNull)
                Sep.default = Py.Ok _) by (vm_compute; reflexivity).
  destruct (tsdupd_loc_and_gis _ _ _ H) as (items & Hi & Hrest).
  exists items. split; [exact H|]. split; assumption.
Defined.

(* ================================================================== *)
(** * Times in DTM segments *)
(* ================================================================== *)

Section FormatTime.
Import Py PyOps.

Lemma contains_append c a b :
  Str.contains c (a ++ b)%string = Str.contains c a || Str.contains c b.
Proof.
  induction a as [|x a IH]; simpl; [reflexivity|].
  rewrite IH. now rewrite Bool.orb_assoc.
Qed.

Lemma contains_replaced c text :
  Str.contains c (Str.replace c EmptyString text) = false.
Proof.
  induction text as [|x text IH]; simpl; [reflexivity|].
  destruct (Ascii.eqb x c) eqn:E; simpl; [assumption|].
  now rewrite E.
Qed.

Lemma contains_repeat c x n : c <> x -> Str.contains c (Str.repeat x n) = false.
Proof.
  intros Hne. induction n as [|n IH]; simpl; [reflexivity|].
  rewrite IH. apply Ascii.eqb_neq in Hne.
  now rewrite Ascii.eqb_sym, Hne.
Qed.

Lemma length_repeat x n : String.length (Str.repeat x n) = n.
Proof. induction n as [|n IH]; simpl; [reflexivity | now rewrite IH]. Qed.

End FormatTime.

(** X7. For a non-empty time text, [_format_time_for_dtm] returns the
    text without its colons, padded on the right with zeros to four
    characters: the result holds no colon, has at least four
    characters, and formatting it again changes nothing. *)
Theorem format_time_for_dtm_text (time_str : string) :
  time_str <> EmptyString ->
  exists formatted,
    Edifact._format_time_for_dtm (Py.JStr time_str) = Py.Ok formatted /\
    Str.contains ":" formatted = false /\
    4 <= String.length formatted /\
    Edifact._format_time_for_dtm (Py.JStr formatted) = Py.Ok formatted.
Proof.
  intros Hne.
  assert (Hshape : forall t, t <> EmptyString ->
            Edifact._format_time_for_dtm (Py.JStr t)
            = Py.Ok (let f := Str.replace ":" EmptyString t in
                     if (String.length f <? 4)%nat then Str.ljust 4 "0" f else f)).
  { intros t Ht. unfold Edifact._format_time_for_dtm. simpl.
    destruct t; [contradiction|]. simpl.
    destruct (String.length _ <? 4)%nat; reflexivity. }
  rewrite (Hshape _ Hne). cbv zeta.
  set (f := Str.replace ":" EmptyString time_str).
  assert (Hf : Str.contains ":" f = false) by apply contains_replaced.
  destruct (Nat.ltb_spec (String.length f) 4) as [Hlt|Hge].
  - eexists. split; [reflexivity|].
    assert (Hc : Str.contains ":" (Str.ljust 4 "0" f) = false).
    { unfold Str.ljust. rewrite contains_append, Hf.
      apply contains_repeat. discriminate. }
    assert (Hl : String.length (Str.ljust 4 "0" f) = 4).
    { unfold Str.ljust. rewrite length_append, length_repeat. lia. }
    split; [assumption|]. split; [lia|].
    rewrite Hshape.
    + cbv zeta. rewrite (replace_absent _ _ _ Hc), Hl. reflexivity.
    + intros E. rewrite E in Hl. discriminate.
  - exists f. split; [reflexivity|]. split; [assumption|]. split; [assumption|].
    rewrite Hshape.
    + cbv zeta. rewrite (replace_absent _ _ _ Hf).
      destruct (Nat.ltb_spec (String.length f) 4); [lia | reflexivity].
    + intros E. rewrite E in Hge. simpl in Hge. lia.
Qed.

Lemma format_time_for_dtm_text_witness :
  exists formatted,
    Edifact._format_time_for_dtm (Py.JStr "9:5") = Py.Ok formatted /\
    Str.contains ":" formatted = false /\
    4 <= String.length formatted /\
    Edifact._format_time_for_dtm (Py.JStr formatted) = Py.Ok formatted.
Proof. apply (format_time_for_dtm_text "9:5"). discriminate. Defined.

Example format_time_examples :
  Edifact._format_time_for_dtm (Py.JStr "09:15:30") = Py.Ok "091530" /\
  Edifact._format_time_for_dtm (Py.JStr "9:5") = Py.Ok "9500" /\
  Edifact._format_time_for_dtm (Py.JInt 915)
  = Py.Raise (Py.AttributeError "object has no attribute 'replace'").
Proof. repeat split. Qed.

(* ================================================================== *)
(** * One NAD per carrier *)
(* ================================================================== *)

Section NadPerCarrier.
Import Py PyOps Edifact EdifactSpec.

Variable s : Sep.t.

(** The segments of variants and calls carry the tags RFF, DTM, FTX
    and LOC, so none of them carries any other tag. *)
Section OtherTag.
Variable tag : string.
Hypothesis not_rff : forall els, has_tag tag (seg "RFF" els s) = false.
Hypothesis not_dtm : forall els, has_tag tag (seg "DTM" els s) = false.
Hypothesis not_ftx : forall els, has_tag tag (seg "FTX" els s) = false.
Hypothesis not_loc : forall els, has_tag tag (seg "LOC" els s) = false.

Ltac single := constructor; [solve [auto] | constructor].

Lemma date_segment_untagged q d l :
  date_segment q d s = Ok l -> untagged tag l.
Proof.
  unfold date_segment. destruct (truthy d); [|intros [= <-]; constructor].
  intros H. apply bind_ok in H as (ok & _ & H).
  destruct ok; injection H as <-; [single | constructor].
Qed.

Lemma time_segment_untagged q t l :
  time_segment q t s = Ok l -> untagged tag l.
Proof.
  unfold time_segment. destruct (truthy t); [|intros [= <-]; constructor].
  intros H. apply bind_ok in H as (f & _ & [= <-]). single.
Qed.

Lemma skdupd_variant_untagged variant l :
  skdupd_variant s variant = Ok l -> untagged tag l.
Proof.
  unfold skdupd_variant. intros H. do 8 inv_bind H. injection H as <-.
  repeat apply untagged_app;
    eauto using date_segment_untagged;
    apply untagged_if; single.
Qed.

Lemma skdupd_call_untagged call l :
  skdupd_call s call = Ok l -> untagged tag l.
Proof.
  unfold skdupd_call. intros H. do 7 inv_bind H. injection H as <-.
  repeat apply untagged_app;
    eauto using time_segment_untagged;
    apply untagged_if; single.
Qed.

End OtherTag.

(** What a service adds to the carriers and to the NAD segments. *)
Lemma skdupd_carrier_spec agencies used carrier_uic r :
  skdupd_carrier agencies s used carrier_uic = Ok r ->
  if truthy carrier_uic && negb (List.existsb (fun y => eqb y carrier_uic) used)
  then fst r = carrier_uic :: used /\
       snd r = [seg "NAD" [JStr "CA"; carrier_uic; JStr EmptyString;
                           More.carrier_name agencies carrier_uic] s]
  else fst r = used /\ snd r = [].
Proof.
  unfold skdupd_carrier, set_mem.
  destruct (truthy carrier_uic); cbn [andb]; [|intros [= <-]; auto].
  destruct (hashable carrier_uic); [|discriminate]. cbn [bind].
  destruct (List.existsb (fun y => eqb y carrier_uic) used); cbn [negb];
    [intros [= <-]; auto|].
  intros H. apply bind_ok in H as (agency_list & Hl & H).
  apply bind_ok in H as (name & Hn & [= <-]).
  unfold More.carrier_name. rewrite Hl, Hn. auto.
Qed.

Lemma skdupd_tdt_tag service tdt :
  skdupd_tdt s service = Ok tdt -> has_tag "NAD" tdt = false.
Proof.
  unfold skdupd_tdt. intros H. do 3 inv_bind H. now injection H as <-.
Qed.

Lemma skdupd_service_nad agencies used service r :
  skdupd_service agencies s used service = Ok r ->
  exists nad,
    skdupd_carrier agencies s used (field_of service "agency_id" (JStr EmptyString))
    = Ok nad /\
    fst r = fst nad /\
    List.filter (has_tag "NAD") (snd r) = List.filter (has_tag "NAD") (snd nad).
Proof.
  unfold skdupd_service. intros H.
  apply bind_ok in H as (carrier_uic & Hc & H).
  apply bind_ok in H as (nad & Hnad & H).
  apply bind_ok in H as (tdt & Htdt & H).
  do 8 inv_bind H. injection H as <-.
  exists nad. rewrite (get_ok_field _ _ _ _ Hc).
  split; [assumption|]. split; [reflexivity|]. cbn [fst snd].
  rewrite List.filter_app. cbn [List.app List.filter].
  rewrite (skdupd_tdt_tag _ _ Htdt), !List.filter_app.
  repeat match goal with
         | |- context [List.filter (has_tag "NAD") ?l] =>
             lazymatch l with
             | snd nad => fail
             | _ =>
                 rewrite (filter_untagged "NAD" l)
                   by first
                        [ apply untagged_concat;
                          eapply for_each_Forall; [|eassumption];
                          intros ? ?;
                          first [ apply skdupd_variant_untagged; reflexivity
                                | apply skdupd_call_untagged; reflexivity ]
                        | apply untagged_if; repeat constructor ]
             end
         end.
  cbn [List.app]. now rewrite List.app_nil_r.
Qed.

Lemma skdupd_services_nad agencies services :
  forall used segments,
    skdupd_services agencies s used services = Ok segments ->
    List.filter (has_tag "NAD") segments
    = List.map
        (fun c => seg "NAD" [JStr "CA"; c; JStr EmptyString;
                             More.carrier_name agencies c] s)
        (More.new_carriers used
           (List.map (fun sv => field_of sv "agency_id" (JStr EmptyString)) services)).
Proof.
  induction services as [|service rest IH]; intros used segments H.
  - injection H as <-. reflexivity.
  - simpl in H.
    apply bind_ok in H as (r & Hr & H).
    apply bind_ok in H as (more & Hmore & [= <-]).
    destruct (skdupd_service_nad _ _ _ _ Hr) as (nad & Hnad & Hfst & Hsnd).
    apply skdupd_carrier_spec in Hnad.
    rewrite List.filter_app, Hsnd, (IH _ _ Hmore), Hfst.
    cbn [List.map More.new_carriers].
    destruct (truthy _ && negb _); destruct Hnad as (-> & ->); reflexivity.
Qed.

Lemma new_carriers_fresh ids :
  forall used, More.all_fresh used (More.new_carriers used ids).
Proof.
  induction ids as [|c rest IH]; intros used; simpl; [exact I|].
  destruct (truthy c); cbn [andb]; [|apply IH].
  destruct (List.existsb (fun y => eqb y c) used) eqn:E; cbn [negb]; [apply IH|].
  simpl. split; [assumption | apply IH].
Qed.

End NadPerCarrier.

(** X8. In the body of an SKDUPD message the [NAD] segments are, in
    order, one for each carrier at its first appearance among the
    services: a service's 'agency_id' yields a [NAD] when it is truthy
    and equal to no carrier met before, with the carrier's name taken
    from the first agency of that id (empty when there is none); no
    carrier gets a second [NAD]. *)
Theorem nad_once_per_carrier (agencies services : Py.json) (s : Sep.t)
    (segments : list string) :
  Edifact.map_skdupd_segments agencies services s = Py.Ok segments ->
  exists service_list,
    PyOps.iter services = Py.Ok service_list /\
    let carriers :=
      More.new_carriers []
        (List.map (fun sv => EdifactSpec.field_of sv "agency_id" (Py.JStr EmptyString))
                  service_list) in
    List.filter (EdifactSpec.has_tag "NAD") segments
    = List.map
        (fun c => Edifact.seg "NAD"
                    [Py.JStr "CA"; c; Py.JStr EmptyString; More.carrier_name agencies c] s)
        carriers /\
    More.all_fresh [] carriers.
Proof.
  unfold Edifact.map_skdupd_segments. intros H.
  apply bind_ok in H as (service_list & Hl & H).
  exists service_list. split; [assumption|]. cbv zeta.
  split; [exact (skdupd_services_nad s agencies service_list [] segments H)|].
  apply new_carriers_fresh.
Qed.

Lemma nad_once_per_carrier_witness :
  exists segments,
    Edifact.map_skdupd_segments
      (PyOps.dget Samples.feed "agencies" Py.JNull)
      (PyOps.dget Samples.feed "services" Py.JNull) Sep.default = Py.Ok segments /\
    List.filter (EdifactSpec.has_tag "NAD") segments = ["NAD+CA+A1++Test Rail'"].
Proof.
  eexists.
  assert (H : Edifact.map_skdupd_segments
                (PyOps.dget Samples.feed "agencies" Py.JNull)
                (PyOps.dget Samples.feed "services" Py.JNull) Sep.default
              = Py.Ok _) by (vm_compute; reflexivity).
  split; [exact H|].
  destruct (nad_once_per_carrier _ _ _ _ H) as (service_list & Hl & Hnad & _).
  rewrite Hnad.
  vm_compute in Hl. injection Hl as <-.
  vm_compute. reflexivity.
Defined.

(* ================================================================== *)
(** * The record files, calendar.txt and feed_info.txt *)
(* ================================================================== *)

Section RecordFiles.
Import Py PyOps Gtfs GtfsSpec.

Lemma rows_ids (f : json -> result Csv.row) (records : list json) :
  (forall r row, f r = Ok row ->
                 List.nth 0 row JNull = EdifactSpec.field_of r "id" blank) ->
  forall rows, for_each f records = Ok rows ->
               column 0 rows = MoreGtfs.ids records.
Proof.
  intros Hf. induction records as [|r rest IH]; intros rows H.
  - injection H as <-. reflexivity.
  - apply for_each_ok_cons in H as (row & rows' & Hrow & H & ->).
    unfold column, MoreGtfs.ids in *. simpl.
    now rewrite (Hf _ _ Hrow), (IH _ H).
Qed.

Lemma agency_row_id agency row :
  agency_row agency = Ok row ->
  List.nth 0 row JNull = EdifactSpec.field_of agency "id" blank.
Proof.
  unfold agency_row. intros H.
  apply bind_ok in H as (c1 & Hc1 & H). do 6 inv_bind H. injection H as <-.
  simpl. now rewrite (get_ok_field _ _ _ _ Hc1).
Qed.

Lemma stop_row_id station row :
  stop_row station = Ok row ->
  List.nth 0 row JNull = EdifactSpec.field_of station "id" blank.
Proof.
  unfold stop_row. intros H.
  apply bind_ok in H as (c1 & Hc1 & H). do 10 inv_bind H. injection H as <-.
  simpl. now rewrite (get_ok_field _ _ _ _ Hc1).
Qed.

Lemma route_row_id service row :
  route_row service = Ok row ->
  List.nth 0 row JNull = EdifactSpec.field_of service "id" blank.
Proof.
  unfold route_row. intros H.
  apply bind_ok in H as (c1 & Hc1 & H). do 8 inv_bind H. injection H as <-.
  simpl. now rewrite (get_ok_field _ _ _ _ Hc1).
Qed.

Lemma record_file_ok (f : json -> result Csv.row) (header : Csv.row)
    (records : json) (txt : string) :
  bind (iter records) (fun items =>
  bind (for_each f items) (fun rows => Ok (Csv.text (header :: rows)))) = Ok txt ->
  exists items rows,
    iter records = Ok items /\ for_each f items = Ok rows /\
    txt = Csv.text (header :: rows).
Proof.
  intros H. apply bind_ok in H as (items & Hi & H).
  apply bind_ok in H as (rows & Hr & [= <-]). eauto.
Qed.

(** What an accepted document makes of [write_gtfs_static]. *)
Lemma write_gtfs_static_ok json_data today files :
  write_gtfs_static json_data today = Ok files ->
  exists agencies stations services a s r c t st f,
    lookup "agencies" json_data = Some agencies /\
    lookup "stations" json_data = Some stations /\
    lookup "services" json_data = Some services /\
    _generate_agency_file agencies = Ok a /\
    _generate_stops_file stations = Ok s /\
    _generate_routes_file services agencies = Ok r /\
    _generate_calendar_file services = Ok c /\
    _generate_trips_file services = Ok t /\
    _generate_stop_times_file services = Ok st /\
    _generate_feed_info_file json_data today = Ok f /\
    files = [ ("agency.txt", a); ("stops.txt", s); ("routes.txt", r);
              ("calendar.txt", c); ("trips.txt", t); ("stop_times.txt", st);
              ("feed_info.txt", f) ].
Proof.
  unfold write_gtfs_static, mem, getitem. intros H.
  destruct (lookup "agencies" json_data) as [agencies|];
    cbn [negb bind] in H; [|discriminate].
  destruct (lookup "stations" json_data) as [stations|];
    cbn [negb bind] in H; [|discriminate].
  destruct (lookup "services" json_data) as [services|];
    cbn [negb bind] in H; [|discriminate].
  destruct (negb (truthy agencies) || negb (truthy stations) || negb (truthy services));
    [discriminate|].
  apply bind_ok in H as (a & Ha & H). apply bind_ok in H as (s & Hs & H).
  apply bind_ok in H as (r & Hr & H). apply bind_ok in H as (c & Hc & H).
  apply bind_ok in H as (t & Ht & H). apply bind_ok in H as (st & Hst & H).
  apply bind_ok in H as (f & Hf & [= <-]).
  exists agencies, stations, services, a, s, r, c, t, st, f.
  repeat split; assumption.
Qed.

End RecordFiles.

(** X9. For every document the GTFS static writer accepts, agency.txt,
    stops.txt and routes.txt hold one data row per agency, station and
    service of the document, in document order, and the first cell of
    each row is the 'id' of its record (empty when the record has
    none). *)
Theorem gtfs_record_files (json_data : Py.dict) (today : string)
    (files : list (string * string)) :
  Gtfs.write_gtfs_static json_data today = Py.Ok files ->
  exists agencies stations services agency_rows stop_rows route_rows,
    PyOps.iter (PyOps.dget json_data "agencies" Py.JNull) = Py.Ok agencies /\
    PyOps.iter (PyOps.dget json_data "stations" Py.JNull) = Py.Ok stations /\
    PyOps.iter (PyOps.dget json_data "services" Py.JNull) = Py.Ok services /\
    GtfsSpec.file "agency.txt" files
      = Some (Csv.text (Gtfs.agency_header :: agency_rows)) /\
    GtfsSpec.file "stops.txt" files
      = Some (Csv.text (Gtfs.stops_header :: stop_rows)) /\
    GtfsSpec.file "routes.txt" files
      = Some (Csv.text (Gtfs.routes_header :: route_rows)) /\
    GtfsSpec.column 0 agency_rows = MoreGtfs.ids agencies /\
    GtfsSpec.column 0 stop_rows = MoreGtfs.ids stations /\
    GtfsSpec.column 0 route_rows = MoreGtfs.ids services /\
    List.length agency_rows = List.length agencies /\
    List.length stop_rows = List.length stations /\
    List.length route_rows = List.length services.
Proof.
  intros H.
  apply write_gtfs_static_ok in H
    as (agencies & stations & services & a & s & r & c & t & st & f
        & Hla & Hls & Hlv & Ha & Hs & Hr & _ & _ & _ & _ & ->).
  apply record_file_ok in Ha as (ai & arows & Hai & Har & ->).
  apply record_file_ok in Hs as (si & srows & Hsi & Hsr & ->).
  apply record_file_ok in Hr as (ri & rrows & Hri & Hrr & ->).
  exists ai, si, ri, arows, srows, rrows.
  unfold PyOps.dget. rewrite Hla, Hls, Hlv.
  repeat split; try assumption.
  - exact (rows_ids _ _ agency_row_id _ Har).
  - exact (rows_ids _ _ stop_row_id _ Hsr).
  - exact (rows_ids _ _ route_row_id _ Hrr).
  - exact (for_each_length _ _ _ Har).
  - exact (for_each_length _ _ _ Hsr).
  - exact (for_each_length _ _ _ Hrr).
Qed.

Lemma gtfs_record_files_witness :
  exists files agencies stations services agency_rows stop_rows route_rows,
    Gtfs.write_gtfs_static Samples.feed "20240501" = Py.Ok files /\
    PyOps.iter (PyOps.dget Samples.feed "agencies" Py.JNull) = Py.Ok agencies /\
    PyOps.iter (PyOps.dget Samples.feed "stations" Py.JNull) = Py.Ok stations /\
    PyOps.iter (PyOps.dget Samples.feed "services" Py.JNull) = Py.Ok services /\
    GtfsSpec.file "agency.txt" files
      = Some (Csv.text (Gtfs.agency_header :: agency_rows)) /\
    GtfsSpec.file "stops.txt" files
      = Some (Csv.text (Gtfs.stops_header :: stop_rows)) /\
    GtfsSpec.file "routes.txt" files
      = Some (Csv.text (Gtfs.routes_header :: route_rows)) /\
    GtfsSpec.column 0 agency_rows = MoreGtfs.ids agencies /\
    GtfsSpec.column 0 stop_rows = MoreGtfs.ids stations /\
    GtfsSpec.column 0 route_rows = MoreGtfs.ids services /\
    List.length agency_rows = List.length agencies /\
    List.length stop_rows = List.length stations /\
    List.length route_rows = List.length services.
Proof.
  eexists.
  assert (H : Gtfs.write_gtfs_static Samples.feed "20240501" = Py.Ok _)
    by (vm_compute; reflexivity).
  destruct (gtfs_record_files _ _ _ H)
    as (agencies & stations & services & ar & sr & rr & Hrest).
  exists agencies, stations, services, ar, sr, rr.
  split; [exact H | exact Hrest].
Defined.

Section CalendarFile.
Import Py PyOps Gtfs GtfsSpec.






End CalendarFile.



(* ================================================================== *)
(** * feed_info.txt and the size of stop_times.txt *)
(* ================================================================== *)

Section FeedDates.
Import Py PyOps Gtfs GtfsSpec.






Lemma flat_map_repeat_length (plan : list (string * nat)) :
  List.length (List.flat_map (fun p => List.repeat (JStr (fst p)) (snd p)) plan)
  = List.fold_right (fun p n => snd p + n) 0 plan.
Proof.
  induction plan as [|p plan IH]; simpl; [reflexivity|].
  now rewrite List.length_app, List.repeat_length, IH.
Qed.

Lemma fold_calls {A} (f : A -> string) (k m : nat) (l : list A) :
  List.fold_right (fun (p : string * nat) n => snd p + n) m
                  (List.map (fun j => (f j, k)) l)
  = List.length l * k + m.
Proof.
  induction l as [|j l IH]; simpl; [reflexivity | rewrite IH; lia].
Qed.

Lemma expected_trips_calls views :
  forall counter,
    List.fold_right (fun p n => snd p + n) 0 (expected_trips counter views)
    = MoreGtfs.total_stop_times views.
Proof.
  induction views as [|v rest IH]; intros counter; [reflexivity|].
  cbn [expected_trips MoreGtfs.total_stop_times List.fold_right].
  fold (MoreGtfs.total_stop_times rest).
  now rewrite List.fold_right_app, IH, fold_calls, List.length_seq.
Qed.

End FeedDates.



(** X12. For every accepted document, the number of data rows of
    stop_times.txt is the sum, over the services, of the number of
    variants times the number of calls: every variant of a service
    repeats the whole call list of the service. *)
Theorem gtfs_stop_times_size (json_data : Py.dict) (today : string)
    (files : list (string * string)) :
  Gtfs.write_gtfs_static json_data today = Py.Ok files ->
  exists services stop_times,
    PyOps.iter (PyOps.dget json_data "services" Py.JNull) = Py.Ok services /\
    GtfsSpec.file "stop_times.txt" files
      = Some (Csv.text (Gtfs.stop_times_header :: stop_times)) /\
    List.length stop_times
    = MoreGtfs.total_stop_times (List.map GtfsSpec.view_of services).
Proof.
  intros H.
  apply write_gtfs_static_ok in H
    as (agencies & stations & services & a & s & r & c & t & st & f
        & _ & _ & Hlv & _ & _ & _ & _ & _ & Hst & _ & ->).
  apply generate_stop_times_ok in Hst as (items & rows & Hi & Hrows & ->).
  exists items, rows. unfold PyOps.dget. rewrite Hlv.
  split; [assumption|]. split; [reflexivity|].
  rewrite <- (column_length 0), (stop_times_services_ids _ _ _ Hrows).
  now rewrite flat_map_repeat_length, expected_trips_calls.
Qed.

Lemma gtfs_stop_times_size_witness :
  exists files services stop_times,
    Gtfs.write_gtfs_static Samples.feed "20240501" = Py.Ok files /\
    PyOps.iter (PyOps.dget Samples.feed "services" Py.JNull) = Py.Ok services /\
    GtfsSpec.file "stop_times.txt" files
      = Some (Csv.text (Gtfs.stop_times_header :: stop_times)) /\
    List.length stop_times
    = MoreGtfs.total_stop_times (List.map GtfsSpec.view_of services).
Proof.
  eexists.
  assert (H : Gtfs.write_gtfs_static Samples.feed "20240501" = Py.Ok _)
    by (vm_compute; reflexivity).
  destruct (gtfs_stop_times_size _ _ _ H) as (services & rows & Hrest).
  exists services, rows. split; [exact H | exact Hrest].
Defined.

(* ================================================================== *)
(** * More on filename sanitization *)
(* ================================================================== *)

Section Sanitize.
Import FileHandler.

Lemma forallb_append p a b :
  Str.forallb p (a ++ b)%string = Str.forallb p a && Str.forallb p b.
Proof.
  induction a as [|x a IH]; simpl; [reflexivity|].
  now rewrite IH, Bool.andb_assoc.
Qed.

Lemma forallb_take p n : forall t, Str.forallb p t = true -> Str.forallb p (Str.take n t) = true.
Proof.
  induction n as [|n IH]; intros t H; [reflexivity|].
  destruct t as [|x t]; [reflexivity|]. simpl in *.
  apply Bool.andb_true_iff in H as (Hx & Ht). now rewrite Hx, IH.
Qed.

Lemma forallb_drop p n : forall t, Str.forallb p t = true -> Str.forallb p (Str.drop n t) = true.
Proof.
  induction n as [|n IH]; intros t H; [destruct t; assumption|].
  destruct t as [|x t]; [reflexivity|]. simpl in *.
  apply Bool.andb_true_iff in H as (Hx & Ht). now apply IH.
Qed.

Lemma forallb_excludes p c t :
  Str.forallb p t = true -> p c = false -> Str.contains c t = false.
Proof.
  intros H Hc. induction t as [|x t IH]; [reflexivity|].
  simpl in *. apply Bool.andb_true_iff in H as (Hx & Ht).
  rewrite (IH Ht), Bool.orb_false_r.
  destruct (Ascii.eqb_spec x c) as [->|]; [congruence | reflexivity].
Qed.

Lemma sub_unsafe_safe filename : Str.forallb is_safe (sub_unsafe filename) = true.
Proof.
  unfold sub_unsafe. induction filename as [|c t IH]; [reflexivity|].
  cbn [Str.forallb Str.map]. rewrite IH, Bool.andb_true_r.
  destruct (is_safe c) eqn:E; [assumption | vm_compute; reflexivity].
Qed.

Lemma sub_unsafe_length filename :
  String.length (sub_unsafe filename) = String.length filename.
Proof.
  unfold sub_unsafe. induction filename as [|c t IH]; [reflexivity|].
  cbn [Str.map String.length]. now rewrite IH.
Qed.

Lemma sub_unsafe_fixed filename :
  Str.forallb is_safe filename = true -> sub_unsafe filename = filename.
Proof.
  unfold sub_unsafe. induction filename as [|c t IH]; [reflexivity|].
  cbn [Str.forallb Str.map]. intros H. apply Bool.andb_true_iff in H as (Hc & Ht).
  now rewrite Hc, IH.
Qed.

Lemma append_nil_r_string (t : string) : (t ++ EmptyString)%string = t.
Proof. induction t as [|x t IH]; simpl; [reflexivity | now rewrite IH]. Qed.

Lemma take_drop n : forall t, (Str.take n t ++ Str.drop n t)%string = t.
Proof.
  induction n as [|n IH]; intros t; [destruct t; reflexivity|].
  destruct t as [|x t]; [reflexivity|]. simpl. now rewrite IH.
Qed.

(** The two parts of [splitext] make up the path. *)
Lemma splitext_parts p : (fst (splitext p) ++ snd (splitext p))%string = p.
Proof.
  unfold splitext.
  destruct (rfind "/" p <? rfind "." p)%Z; [|apply append_nil_r_string].
  destruct (Str.forallb _ _); [apply append_nil_r_string|].
  apply take_drop.
Qed.

Lemma splitext_safe p q :
  Str.forallb q p = true ->
  Str.forallb q (fst (splitext p)) = true /\ Str.forallb q (snd (splitext p)) = true.
Proof.
  intros H. unfold splitext.
  destruct (rfind "/" p <? rfind "." p)%Z; [|split; [assumption | reflexivity]].
  destruct (Str.forallb _ (Str.take _ _)); [split; [assumption | reflexivity]|].
  split; [now apply forallb_take | now apply forallb_drop].
Qed.

Lemma take_length n : forall t, String.length (Str.take n t) <= String.length t.
Proof.
  induction n as [|n IH]; intros t; [simpl; lia|].
  destruct t as [|x t]; simpl; [lia|]. specialize (IH t). lia.
Qed.

End Sanitize.

(** X13. Whatever the input, the sanitized filename is made of word
    characters, hyphens and dots only, holds at least one dot, and
    holds neither a slash nor a backslash: it names an entry of the
    job directory, never a path. *)
Theorem sanitize_filename_safe (filename : string) :
  let safe := FileHandler._sanitize_filename filename in
  Str.forallb FileHandler.is_safe safe = true /\
  Str.contains "." safe = true /\
  Str.contains "/" safe = false /\
  Str.contains "\" safe = false.
Proof.
  cbv zeta.
  assert (Hsafe : Str.forallb FileHandler.is_safe
                    (FileHandler._sanitize_filename filename) = true).
  { unfold FileHandler._sanitize_filename.
    pose proof (sub_unsafe_safe filename) as Hs.
    set (cut := if (100 <? _)%nat then _ else _).
    assert (Hcut : Str.forallb FileHandler.is_safe cut = true).
    { subst cut. destruct (100 <? _)%nat; [|assumption].
      destruct (splitext_safe _ _ Hs) as (Hn & He).
      destruct (FileHandler.splitext _) as (name, ext). cbn [fst snd] in Hn, He.
      rewrite forallb_append, He, (forallb_take _ _ _ Hn). reflexivity. }
    destruct (Str.contains "." cut); cbn [negb]; [assumption|].
    rewrite forallb_append, Hcut. vm_compute. reflexivity. }
  split; [assumption|]. split.
  - unfold FileHandler._sanitize_filename.
    set (cut := if (100 <? _)%nat then _ else _).
    destruct (Str.contains "." cut) eqn:E; cbn [negb]; [assumption|].
    rewrite contains_append. apply Bool.orb_true_r.
  - split; apply (forallb_excludes _ _ _ Hsafe); vm_compute; reflexivity.
Qed.

(** X14. The sanitized name is never more than four characters longer
    than the input.  A name of at most 100 characters is not cut: it
    keeps its length when it holds a dot after substitution and gets
    '.txt' appended otherwise; and a name of at most 100 safe
    characters that holds a dot is returned unchanged. *)
Theorem sanitize_filename_length (filename : string) :
  String.length (FileHandler._sanitize_filename filename)
    <= String.length filename + 4 /\
  (String.length filename <= 100 ->
   FileHandler._sanitize_filename filename
   = if Str.contains "." (FileHandler.sub_unsafe filename)
     then FileHandler.sub_unsafe filename
     else (FileHandler.sub_unsafe filename ++ ".txt")%string) /\
  (String.length filename <= 100 ->
   Str.forallb FileHandler.is_safe filename = true ->
   Str.contains "." filename = true ->
   FileHandler._sanitize_filename filename = filename).
Proof.
  assert (Hshort : String.length filename <= 100 ->
            FileHandler._sanitize_filename filename
            = if Str.contains "." (FileHandler.sub_unsafe filename)
              then FileHandler.sub_unsafe filename
              else (FileHandler.sub_unsafe filename ++ ".txt")%string).
  { intros Hlen. unfold FileHandler._sanitize_filename.
    rewrite sub_unsafe_length.
    destruct (Nat.ltb_spec 100 (String.length filename)); [lia|].
    destruct (Str.contains "." _); reflexivity. }
  split; [|split; [exact Hshort|]].
  - unfold FileHandler._sanitize_filename.
    set (cut := if (100 <? _)%nat then _ else _).
    assert (Hcut : String.length cut <= String.length filename).
    { subst cut. destruct (100 <? _)%nat; [|rewrite sub_unsafe_length; lia].
      pose proof (splitext_parts (FileHandler.sub_unsafe filename)) as Hparts.
      destruct (FileHandler.splitext _) as (name, ext). cbn [fst snd] in Hparts.
      rewrite <- (sub_unsafe_length filename), <- Hparts, !length_append.
      pose proof (take_length 95 name). lia. }
    destruct (Str.contains "." cut); cbn [negb]; [lia|].
    rewrite length_append. cbn [String.length]. lia.
  - intros Hlen Hsafe Hdot.
    rewrite (Hshort Hlen), (sub_unsafe_fixed _ Hsafe), Hdot. reflexivity.
Qed.

Lemma sanitize_filename_length_witness :
  FileHandler._sanitize_filename "timetable-2024_v2.json" = "timetable-2024_v2.json" /\
  FileHandler._sanitize_filename "my file (1)"
  = (if Str.contains "." (FileHandler.sub_unsafe "my file (1)")
     then FileHandler.sub_unsafe "my file (1)"
     else (FileHandler.sub_unsafe "my file (1)" ++ ".txt")%string).
Proof.
  split.
  - apply (sanitize_filename_length "timetable-2024_v2.json");
      [vm_compute; lia | vm_compute; reflexivity | vm_compute; reflexivity].
  - apply (sanitize_filename_length "my file (1)"). vm_compute; lia.
Defined.

Example sanitize_spaces : FileHandler._sanitize_filename "my file (1)" = "my_file__1_.txt".
Proof. vm_compute. reflexivity. Qed.

(* ================================================================== *)
(** * The counts of a validation *)
(* ================================================================== *)

Section ValidationCounts.
Import Py PyOps Service.

Lemma record_count_nonneg v : (0 <= record_count v)%Z.
Proof. destruct v; simpl; lia. Qed.

Lemma fold_add_nonneg (l : list Z) :
  Forall (fun z => 0 <= z)%Z l ->
  forall acc, (0 <= acc)%Z -> (0 <= List.fold_left Z.add l acc)%Z.
Proof.
  induction 1 as [|z l Hz _ IH]; intros acc Hacc; simpl; [assumption|].
  apply IH. lia.
Qed.

Lemma total_nonneg (d : dict) :
  (0 <= List.fold_left Z.add (List.map (fun kv => record_count (snd kv)) d) 0)%Z.
Proof.
  apply fold_add_nonneg; [|lia].
  apply List.Forall_forall. intros z Hz.
  apply List.in_map_iff in Hz as (kv & <- & _). apply record_count_nonneg.
Qed.

End ValidationCounts.

(** X15. [validate_data] stores the result it returns under the job
    id and leaves the rest of the job table as it was.  The counts of
    the result: the total is never negative, there is at most one
    error, and the number of valid records is the total minus the
    number of errors - which makes it negative exactly when a
    'json-transport' document without 'agencies' holds no record at
    all. *)
Theorem validate_data_counts (request : Service.ValidationRequest)
    (job_id : string) (jobs : Service.job_storage) :
  let result := fst (Service.validate_data request job_id jobs) in
  snd (Service.validate_data request job_id jobs) = (job_id, result) :: jobs /\
  Service.job_id result = job_id /\
  (0 <= Service.total_records result)%Z /\
  List.length (Service.errors result) <= 1 /\
  Service.valid_records result
  = (Service.total_records result - Z.of_nat (List.length (Service.errors result)))%Z /\
  ((Service.valid_records result < 0)%Z <->
   Service.total_records result = 0%Z /\
   Service.format request = "json-transport" /\
   PyOps.mem "agencies" (Service.input_data request) = false).
Proof.
  unfold Service.validate_data. cbn [fst snd].
  cbn [Service.job_id Service.total_records Service.errors Service.valid_records].
  pose proof (total_nonneg (Service.input_data request)) as Htot.
  split; [reflexivity|]. split; [reflexivity|]. split; [assumption|].
  destruct (String.eqb_spec (Service.format request) "json-transport") as [E|E].
  - destruct (PyOps.mem "agencies" (Service.input_data request)); cbn [negb List.length].
    + split; [lia|]. split; [reflexivity|].
      split; [lia | intros (_ & _ & H); discriminate].
    + split; [lia|]. split; [reflexivity|].
      split; [intros H; repeat split; [lia | assumption] | intros (H & _); lia].
  - cbn [List.length]. split; [lia|]. split; [reflexivity|].
    split; [lia | intros (_ & H & _); contradiction].
Qed.

Example validate_empty_document :
  Service.valid_records
    (fst (Service.validate_data
            (Service.mkRequest [] "json-transport" Service.STANDARD None)
            "val_1_0000abcd" [])) = (-1)%Z.
Proof. reflexivity. Qed.

(* ================================================================== *)
(** * The conversion handlers and the job lookup *)
(* ================================================================== *)

Section Handlers.
Import Py PyOps Api.

Lemma handle_cases prefix body c jobs :
  (exists result,
      body = inr result /\
      handle prefix body c jobs = (Success result, (job_id c, result) :: jobs)) \/
  (exists e,
      body = inl e /\
      handle prefix body c jobs = (Failure 500 prefix (Some e), jobs)).
Proof. destruct body as [e|result]; simpl; eauto. Qed.

Lemma find_job_other id id' job_data jobs :
  id <> id' -> find_job id ((id', job_data) :: jobs) = find_job id jobs.
Proof.
  intros Hne. simpl. apply String.eqb_neq in Hne. now rewrite Hne.
Qed.

Lemma find_job_same id job_data jobs :
  find_job id ((id, job_data) :: jobs) = Some job_data.
Proof. simpl. now rewrite String.eqb_refl. Qed.

(** The status built for a job stored by an EDIFACT handler. *)
Lemma status_of_edifact_result id c request type records content :
  exists body,
    status_of id (edifact_result c request type records content) = Ok body /\
    EdifactSpec.field_of body "status" JNull = JStr "completed" /\
    EdifactSpec.field_of body "progress" JNull = JInt 100 /\
    EdifactSpec.field_of body "current_step" JNull = JStr "Completed" /\
    MoreApi.field2 body "metrics" "records_processed" = JInt (Z.of_nat records) /\
    MoreApi.field2 body "metrics" "errors_found" = JInt 0.
Proof. eexists. split; [reflexivity|]. repeat split. Qed.

Lemma skdupd_body_result request c result :
  skdupd_body request c = inr result ->
  exists una content records,
    dget (options request) "una" (JStr "UNA:+.? '") = JStr una /\
    Edifact.write_skdupd (input_data request)
      (str (dget (options request) "version" (JStr "CURRENT"))) una = Ok content /\
    result = edifact_result c request "EDIFACT_SKDUPD" records content.
Proof.
  unfold skdupd_body. destruct (negb _ || negb _); [discriminate|]. cbv zeta.
  destruct (bind _ _) as [r|e] eqn:E; [|discriminate]. intros [= <-].
  apply bind_ok in E as (u & Hu & E).
  apply bind_ok in E as (content & Hc & E).
  apply bind_ok in E as (n1 & _ & E).
  apply bind_ok in E as (n2 & _ & [= <-]).
  unfold una_argument in Hu.
  destruct (dget (options request) "una" (JStr "UNA:+.? '")) eqn:Huna;
    try (apply bind_ok in Hu as (n & _ & Hu); destruct (negb _); discriminate).
  injection Hu as <-.
  eexists; eexists; exists (n1 + n2).
  split; [reflexivity|]. split; [exact Hc | reflexivity].
Qed.

Lemma tsdupd_body_result request c result :
  tsdupd_body request c = inr result ->
  exists una content records,
    dget (options request) "una" (JStr "UNA:+.? '") = JStr una /\
    Edifact.write_tsdupd (input_data request)
      (str (dget (options request) "version" (JStr "CURRENT"))) una = Ok content /\
    result = edifact_result c request "EDIFACT_TSDUPD" records content.
Proof.
  unfold tsdupd_body. destruct (negb _); [discriminate|]. cbv zeta.
  destruct (bind _ _) as [r|e] eqn:E; [|discriminate]. intros [= <-].
  apply bind_ok in E as (u & Hu & E).
  apply bind_ok in E as (content & Hc & E).
  apply bind_ok in E as (n1 & _ & [= <-]).
  unfold una_argument in Hu.
  destruct (dget (options request) "una" (JStr "UNA:+.? '")) eqn:Huna;
    try (apply bind_ok in Hu as (n & _ & Hu); destruct (negb _); discriminate).
  injection Hu as <-.
  eexists; eexists; exists n1.
  split; [reflexivity|]. split; [exact Hc | reflexivity].
Qed.

End Handlers.

(** X16. The EDIFACT conversion handlers never answer with status 400.
    Each either succeeds, storing its result under the job id, or
    fails with status 500 and leaves the job table untouched.  The
    check for missing 'agencies', 'services' or 'stations' raises an
    HTTPException with status 400 inside the handler's own [try]
    block, whose [except Exception] turns it into status 500 like any
    other failure. *)
Theorem convert_failures_are_500 (request : Api.ConversionRequest) (c : Api.clock)
    (jobs : Api.job_storage) :
  ((exists result,
       Api.convert_to_skdupd request c jobs
       = (Api.Success result, (Api.job_id c, result) :: jobs)) \/
   (exists cause,
       Api.convert_to_skdupd request c jobs
       = (Api.Failure 500 "SKDUPD conversion failed: " (Some cause), jobs))) /\
  ((exists result,
       Api.convert_to_tsdupd request c jobs
       = (Api.Success result, (Api.job_id c, result) :: jobs)) \/
   (exists cause,
       Api.convert_to_tsdupd request c jobs
       = (Api.Failure 500 "TSDUPD conversion failed: " (Some cause), jobs))) /\
  (PyOps.mem "agencies" (Api.input_data request) = false \/
   PyOps.mem "services" (Api.input_data request) = false ->
   Api.convert_to_skdupd request c jobs
   = (Api.Failure 500 "SKDUPD conversion failed: "
        (Some (Api.HTTPException 400
                 "Missing required 'agencies' or 'services' data for SKDUPD conversion")),
      jobs)) /\
  (PyOps.mem "stations" (Api.input_data request) = false ->
   Api.convert_to_tsdupd request c jobs
   = (Api.Failure 500 "TSDUPD conversion failed: "
        (Some (Api.HTTPException 400
                 "Missing required 'stations' data for TSDUPD conversion")),
      jobs)).
Proof.
  unfold Api.convert_to_skdupd, Api.convert_to_tsdupd.
  split; [|split; [|split]].
  - destruct (handle_cases "SKDUPD conversion failed: "
                (Api.skdupd_body request c) c jobs)
      as [(r & _ & H)|(e & _ & H)]; eauto.
  - destruct (handle_cases "TSDUPD conversion failed: "
                (Api.tsdupd_body request c) c jobs)
      as [(r & _ & H)|(e & _ & H)]; eauto.
  - intros H. unfold Api.skdupd_body.
    destruct H as [-> | ->]; cbn [negb orb]; [reflexivity|].
    rewrite Bool.orb_true_r. reflexivity.
  - intros H. unfold Api.tsdupd_body. rewrite H. reflexivity.
Qed.

Lemma convert_failures_are_500_witness :
  MoreApi.status_code
    (fst (Api.convert_to_skdupd
            (Api.mkRequest [("agencies", Py.JList [Samples.agency])]
               Api.EDIFACT_SKDUPD [] None)
            (Api.mkclock "skdupd_1700000000_0000abcd" 3 "2024-05-01T10:00:00") []))
  = 500%Z /\
  MoreApi.status_code
    (fst (Api.convert_to_tsdupd
            (Api.mkRequest [] Api.EDIFACT_TSDUPD [] None)
            (Api.mkclock "tsdupd_1700000000_0000abcd" 3 "2024-05-01T10:00:00") []))
  = 500%Z.
Proof.
  split.
  - rewrite (proj1 (proj2 (proj2
               (convert_failures_are_500
                  (Api.mkRequest [("agencies", Py.JList [Samples.agency])]
                     Api.EDIFACT_SKDUPD [] None)
                  (Api.mkclock "skdupd_1700000000_0000abcd" 3 "2024-05-01T10:00:00")
                  [])))); [reflexivity | right; reflexivity].
  - rewrite (proj2 (proj2 (proj2
               (convert_failures_are_500
                  (Api.mkRequest [] Api.EDIFACT_TSDUPD [] None)
                  (Api.mkclock "tsdupd_1700000000_0000abcd" 3 "2024-05-01T10:00:00")
                  [])))); reflexivity.
Defined.

(** X17. After a successful EDIFACT conversion, looking up its job id
    succeeds and reports status 'completed', progress 100 and the
    step 'Completed'; the lookup of any other id answers as it did
    before the conversion, and an id that was never stored is answered
    with status 404. *)
Theorem job_lookup_after_conversion (request : Api.ConversionRequest) (c : Api.clock)
    (jobs jobs' : Api.job_storage) (result : Py.json) :
  Api.convert_to_skdupd request c jobs = (Api.Success result, jobs') \/
  Api.convert_to_tsdupd request c jobs = (Api.Success result, jobs') ->
  (exists status,
      Api.get_job_status (Api.job_id c) jobs' = Api.Success status /\
      EdifactSpec.field_of status "status" Py.JNull = Py.JStr "completed" /\
      EdifactSpec.field_of status "progress" Py.JNull = Py.JInt 100 /\
      EdifactSpec.field_of status "current_step" Py.JNull = Py.JStr "Completed") /\
  (forall id, id <> Api.job_id c ->
              Api.get_job_status id jobs' = Api.get_job_status id jobs) /\
  (forall id, id <> Api.job_id c -> Api.find_job id jobs = None ->
              Api.get_job_status id jobs'
              = Api.Failure 404 ("Job " ++ id ++ " not found") None).
Proof.
  intros H.
  assert (Hshape : exists type records content,
             result = Api.edifact_result c request type records content /\
             jobs' = (Api.job_id c, result) :: jobs).
  { destruct H as [H|H];
      [unfold Api.convert_to_skdupd in H | unfold Api.convert_to_tsdupd in H];
      match type of H with
      | Api.handle ?p ?b _ _ = _ =>
          destruct (handle_cases p b c jobs) as [(r & Hb & Hh)|(e & _ & Hh)];
            rewrite Hh in H; [|discriminate];
            injection H as <- <-
      end.
    - apply skdupd_body_result in Hb as (una & content & records & _ & _ & ->).
      eauto 6.
    - apply tsdupd_body_result in Hb as (una & content & records & _ & _ & ->).
      eauto 6. }
  destruct Hshape as (type & records & content & -> & ->).
  split; [|split].
  - unfold Api.get_job_status. rewrite find_job_same.
    destruct (status_of_edifact_result (Api.job_id c) c request type records content)
      as (status & Hs & H1 & H2 & H3 & _).
    rewrite Hs. eauto.
  - intros id Hne. unfold Api.get_job_status.
    now rewrite (find_job_other _ _ _ _ Hne).
  - intros id Hne Hnone. unfold Api.get_job_status.
    now rewrite (find_job_other _ _ _ _ Hne), Hnone.
Qed.

(** X18. A successful [convert_to_skdupd] means that the 'una' option
    (or its default) is a text, that [write_skdupd] accepted the
    document with it, and the result carries exactly the message the
    writer produced, its length, and the number of apostrophes in it
    as segment count. *)
Theorem convert_skdupd_content (request : Api.ConversionRequest) (c : Api.clock)
    (jobs jobs' : Api.job_storage) (result : Py.json) :
  Api.convert_to_skdupd request c jobs = (Api.Success result, jobs') ->
  exists una content,
    PyOps.dget (Api.options request) "una" (Py.JStr "UNA:+.? '") = Py.JStr una /\
    Edifact.write_skdupd (Api.input_data request)
      (PyOps.str (PyOps.dget (Api.options request) "version" (Py.JStr "CURRENT"))) una
    = Py.Ok content /\
    MoreApi.field2 result "output" "content" = Py.JStr content /\
    MoreApi.field2 result "results" "edifact_length"
    = Py.JInt (Z.of_nat (String.length content)) /\
    MoreApi.field2 result "output" "segments"
    = Py.JInt (Z.of_nat (Api.count_char "'" content)) /\
    EdifactSpec.field_of result "job_id" Py.JNull = Py.JStr (Api.job_id c).
Proof.
  unfold Api.convert_to_skdupd. intros H.
  destruct (handle_cases "SKDUPD conversion failed: " (Api.skdupd_body request c) c jobs)
    as [(r & Hb & Hh)|(e & _ & Hh)]; rewrite Hh in H; [|discriminate].
  injection H as <- <-.
  apply skdupd_body_result in Hb as (una & content & records & Hu & Hw & ->).
  exists una, content. repeat split; assumption.
Qed.

Lemma job_lookup_after_conversion_witness :
  exists result jobs' status,
    Api.convert_to_skdupd
      (Api.mkRequest Samples.skdupd_minimal Api.EDIFACT_SKDUPD [] None)
      (Api.mkclock "skdupd_1700000000_0000abcd" 3 "2024-05-01T10:00:00") []
    = (Api.Success result, jobs') /\
    Api.get_job_status "skdupd_1700000000_0000abcd" jobs' = Api.Success status /\
    EdifactSpec.field_of status "status" Py.JNull = Py.JStr "completed" /\
    EdifactSpec.field_of status "progress" Py.JNull = Py.JInt 100.
Proof.
  eexists. eexists.
  assert (H : Api.convert_to_skdupd
                (Api.mkRequest Samples.skdupd_minimal Api.EDIFACT_SKDUPD [] None)
                (Api.mkclock "skdupd_1700000000_0000abcd" 3 "2024-05-01T10:00:00") []
              = (Api.Success _, _)) by (vm_compute; reflexivity).
  destruct (job_lookup_after_conversion _ _ _ _ _ (or_introl H))
    as ((status & Hs & H1 & H2 & _) & _).
  exists status. split; [exact H|]. split; [exact Hs|]. split; assumption.
Defined.

Lemma convert_skdupd_content_witness :
  exists result jobs' una content,
    Api.convert_to_skdupd
      (Api.mkRequest Samples.skdupd_minimal Api.EDIFACT_SKDUPD [] None)
      (Api.mkclock "skdupd_1700000000_0000abcd" 3 "2024-05-01T10:00:00") []
    = (Api.Success result, jobs') /\
    Edifact.write_skdupd Samples.skdupd_minimal "CURRENT" una = Py.Ok content /\
    MoreApi.field2 result "output" "content" = Py.JStr content.
Proof.
  eexists. eexists.
  assert (H : Api.convert_to_skdupd
                (Api.mkRequest Samples.skdupd_minimal Api.EDIFACT_SKDUPD [] None)
                (Api.mkclock "skdupd_1700000000_0000abcd" 3 "2024-05-01T10:00:00") []
              = (Api.Success _, _)) by (vm_compute; reflexivity).
  destruct (convert_skdupd_content _ _ _ _ _ H)
    as (una & content & _ & Hw & Hc & _).
  exists una, content. split; [exact H|]. split; assumption.
Defined.

(* ================================================================== *)
(** * The envelope of an interchange *)
(* ================================================================== *)

(** X19. With distinct separators none of which is a letter of the
    tag, the UNT segment reads back as the tag, the segment count, the
    message reference and the empty text after the terminator, and
    the count, read as a decimal number, is the number that was
    written - also when a separator is a digit. *)
Theorem unt_count_reads_back (s : Sep.t) (segment_count : Z) (message_ref : string) :
  Reader.distinct s ->
  Reader.has_special s "UNT" = false ->
  Reader.parse s (Edifact.make_unt segment_count (Py.JStr message_ref) (Some s))
  = ["UNT"; Str.of_Z segment_count; message_ref; EmptyString] /\
  More.read_int (Str.of_Z segment_count) = Some segment_count.
Proof.
  intros Hd Htag. split.
  - unfold Edifact.make_unt, Edifact.or_default.
    rewrite (seg_tokens s Hd "UNT" _ Htag); [reflexivity | reflexivity | discriminate].
  - unfold More.read_int, Str.of_Z.
    rewrite NilEmpty.isi. cbn [option_map]. now rewrite DecimalZ.of_to.
Qed.

Lemma unt_count_reads_back_witness :
  Reader.parse (Sep.mk ":" "1" "." "?" "'")
    (Edifact.make_unt 18 (Py.JStr "584CEB265A8F01") (Some (Sep.mk ":" "1" "." "?" "'")))
  = ["UNT"; "18"; "584CEB265A8F01"; EmptyString] /\
  More.read_int "18" = Some 18%Z.
Proof.
  apply (unt_count_reads_back (Sep.mk ":" "1" "." "?" "'") 18 "584CEB265A8F01").
  - unfold Reader.distinct; simpl. repeat constructor; simpl; intuition discriminate.
  - reflexivity.
Defined.

Section Envelope.
Import Py PyOps Edifact.

Lemma ref_digits (msg : list N) :
  String.length (Str.upper (Str.take 12 (Sha1.hexdigest msg))) = 12 /\
  Str.forallb EdifactSpec.is_upper_hex (Str.upper (Str.take 12 (Sha1.hexdigest msg)))
  = true.
Proof. exact (ref_shape msg). Qed.

Lemma ok_inj {A} (a b : A) : Ok a = Ok b -> a = b.
Proof. intros H. now injection H. Qed.

Lemma ref_length publisher version ref :
  generate_deterministic_ref publisher version = Ok ref ->
  String.length ref = 12 /\ Str.forallb EdifactSpec.is_upper_hex ref = true.
Proof.
  unfold generate_deterministic_ref. intros H.
  apply bind_ok in H as (name & _ & H).
  apply bind_ok in H as (url & _ & H).
  apply ok_inj in H. rewrite <- H. apply ref_digits.
Qed.

Lemma interchange_envelope_of mt json_data version una s body segments :
  interchange mt json_data version una s body = Ok segments ->
  exists ref sender timestamp body_segments,
    generate_deterministic_ref (dget json_data "publisher" (JDict [])) version = Ok ref /\
    slice_to 35
      (EdifactSpec.field_of (dget json_data "publisher" (JDict [])) "name" (JStr "SENDER"))
    = Ok sender /\
    body = Ok body_segments /\
    segments
    = [ una;
        make_unb sender (JStr "RECEIVER") (JStr ref) timestamp (Some s);
        make_unh (JStr (ref ++ "01")) (JStr mt) (JStr version) (Some s) ]
      ++ body_segments
      ++ [ make_unt (Z.of_nat (List.length body_segments) + 2)
             (JStr (ref ++ "01")) (Some s);
           make_unz 1 (JStr ref) (Some s) ].
Proof.
  unfold interchange. intros H.
  apply bind_ok in H as (ref & Href & H).
  apply bind_ok in H as (fixed & _ & H).
  apply bind_ok in H as (name & Hname & H).
  apply bind_ok in H as (sender & Hsender & H).
  apply bind_ok in H as (body_segments & Hbody & [= <-]).
  rewrite <- (get_ok_field _ _ _ _ Hname) in Hsender.
  exists ref, sender,
    (if truthy fixed then fixed else JStr "240101:0000"), body_segments.
  split; [exact Href|]. split; [exact Hsender|]. split; [exact Hbody|].
  reflexivity.
Qed.

End Envelope.

(** X20. Every accepted SKDUPD or TSDUPD interchange is, segment by
    segment: the UNA string as given; UNB with the sender (the first
    35 characters of the publisher's name, 'SENDER' when absent), the
    receiver 'RECEIVER' and the interchange reference; UNH with the
    message reference; the body; UNT; UNZ with message count 1.  UNB
    and UNZ carry the same reference, 12 upper-case hexadecimal
    digits, and UNH and UNT carry that reference followed by '01'.
    The interchange has five segments more than the body. *)
Theorem interchange_envelope (json_data : Py.dict) (version una : string)
    (segments : list string) :
  Edifact.skdupd_segments json_data version una = Py.Ok segments \/
  Edifact.tsdupd_segments json_data version una = Py.Ok segments ->
  exists s ref sender timestamp message_type body,
    Edifact.parse_una una = Py.Ok s /\
    Edifact.generate_deterministic_ref
      (PyOps.dget json_data "publisher" (Py.JDict [])) version = Py.Ok ref /\
    String.length ref = 12 /\
    Str.forallb EdifactSpec.is_upper_hex ref = true /\
    PyOps.slice_to 35
      (EdifactSpec.field_of (PyOps.dget json_data "publisher" (Py.JDict []))
         "name" (Py.JStr "SENDER")) = Py.Ok sender /\
    segments
    = [ una;
        Edifact.make_unb sender (Py.JStr "RECEIVER") (Py.JStr ref) timestamp (Some s);
        Edifact.make_unh (Py.JStr (ref ++ "01")) (Py.JStr message_type)
          (Py.JStr version) (Some s) ]
      ++ body
      ++ [ Edifact.make_unt (Z.of_nat (List.length body) + 2)
             (Py.JStr (ref ++ "01")) (Some s);
           Edifact.make_unz 1 (Py.JStr ref) (Some s) ] /\
    List.length segments = List.length body + 5.
Proof.
  intros [H|H].
  - unfold Edifact.skdupd_segments, PyOps.mem, PyOps.getitem in H.
    apply bind_ok in H as (s & Hs & H).
    destruct (PyOps.lookup "agencies" json_data) as [agencies|];
      cbn [negb Py.bind] in H; [|discriminate].
    destruct (PyOps.lookup "services" json_data) as [services|];
      cbn [negb Py.bind] in H; [|discriminate].
    destruct (PyOps.truthy agencies); cbn [negb] in H; [|discriminate].
    destruct (PyOps.truthy services); cbn [negb] in H; [|discriminate].
    apply interchange_envelope_of in H
      as (ref & sender & timestamp & body & Href & Hsender & _ & ->).
    destruct (ref_length _ _ _ Href) as (Hlen & Hhex).
    exists s, ref, sender, timestamp, "SKDUPD", body.
    split; [exact Hs|]. split; [exact Href|]. split; [exact Hlen|].
    split; [exact Hhex|]. split; [exact Hsender|]. split; [reflexivity|].
    rewrite !List.length_app. cbn [List.length]. lia.
  - unfold Edifact.tsdupd_segments, PyOps.mem, PyOps.getitem in H.
    apply bind_ok in H as (s & Hs & H).
    destruct (PyOps.lookup "stations" json_data) as [stations|];
      cbn [negb Py.bind] in H; [|discriminate].
    destruct (PyOps.truthy stations); cbn [negb] in H; [|discriminate].
    apply interchange_envelope_of in H
      as (ref & sender & timestamp & body & Href & Hsender & _ & ->).
    destruct (ref_length _ _ _ Href) as (Hlen & Hhex).
    exists s, ref, sender, timestamp, "TSDUPD", body.
    split; [exact Hs|]. split; [exact Href|]. split; [exact Hlen|].
    split; [exact Hhex|]. split; [exact Hsender|]. split; [reflexivity|].
    rewrite !List.length_app. cbn [List.length]. lia.
Qed.

Lemma interchange_envelope_witness :
  exists (segments body : list string),
    Edifact.skdupd_segments Samples.feed "CURRENT" "UNA:+.? '" = Py.Ok segments /\
    List.length segments = List.length body + 5 /\
    List.nth 1 segments EmptyString
    = "UNB+UNOC:3+Acme+RECEIVER+240101?:0000+584CEB265A8F'".
Proof.
  eexists.
  assert (H : Edifact.skdupd_segments Samples.feed "CURRENT" "UNA:+.? '" = Py.Ok _)
    by (vm_compute; reflexivity).
  destruct (interchange_envelope _ _ _ _ (or_introl H))
    as (s & ref & sender & timestamp & mt & body & _ & _ & _ & _ & _ & _ & Hlen).
  exists body. split; [exact H|]. split; [exact Hlen|].
  vm_compute. reflexivity.
Defined.
